(** * camDownloaderScript1: the recursive FTP mirror and its recovery prompt

    A shallow embedding of the two revisions of [ftpScript.js]:

    - [Simple]   : [src/ftpScript.js], the script with hard-wired settings and
                   no per-item error handling;
    - [Hardened] : [src/unnamed/part_000], the revision that reads
                   [config.json], factors [handleFileDownload] out and guards
                   the transport calls one by one.

    The FTP client, the local file system, the readline prompt and the SSH
    session are libraries the script only calls.  They are an interface here
    ([Capabilities]): every call takes the state of the outside world and
    gives back its result and the world after it.  The script is a
    computation over that world which also writes down, in order, every call
    it makes and every console line it prints.  Statements about what the
    script does are statements about that record and hold for every
    implementation of the interface; [Sim] is one implementation that
    computes.

    Three things are fixed by the model rather than by the source.
    Recursion is bounded by fuel ([depth] for the descent, [fuel] for the
    retries) and a computation that runs out of it ends as [Starved].  A
    computation is one function of the script from its call to the
    settling of its promise.  A function that is called without [await]
    ([callback()], which is [main], and the session that [restartFTP()]
    opens) only begins in the computation that calls it: what it does
    before its first [await] is recorded there, the rest of it is a
    [Task] that the call leaves to the event loop, and the record says so
    with an [EvStarted] entry.  [event_loop] takes up such tasks as long
    as one activity is pending at a time; the order in which the calls of
    two pending activities fall is the network's and is not modelled.
    Each [main] makes its own client, after the one before it has been
    closed; the world has one client. *)

From Stdlib Require Import String Ascii List Bool Arith Lia DecimalString.
Import ListNotations.
Open Scope string_scope.

Set Implicit Arguments.

(** ** Values the script handles *)

(** A JavaScript [Error]; the script only ever reads [err.message]. *)
Record JsError : Type := mkError { message : string }.

(** What a library call that may throw gives back. *)
Inductive Result (A : Type) : Type :=
| Ok (a : A)
| Throw (e : JsError).
Arguments Throw {A} e.

(** [basic-ftp]'s [FileInfo]: the entry name and the entry type behind the
    [isDirectory] and [isFile] getters. *)
Inductive FileType : Type := Unknown | File | Directory | SymbolicLink.

Record FileInfo : Type := mkFileInfo { name : string; type : FileType }.

Definition isDirectory (item : FileInfo) : bool :=
  match type item with Directory => true | _ => false end.

Definition isFile (item : FileInfo) : bool :=
  match type item with File => true | _ => false end.

(** The object handed to [conn.connect]: the [sshConfig] fields of
    [config.json] (each may be missing) and the [privateKey] buffer that
    [restartFTP] may attach. *)
Record SshConfig : Type := mkSshConfig {
  host : option string;
  port : option nat;
  username : option string;
  agent : option string;
  privateKeyPath : option string;
  restartCommand : option string;
  privateKey : option (list Byte.byte)
}.

(** [{ ...undefined }] *)
Definition emptySshConfig : SshConfig :=
  mkSshConfig None None None None None None None.

(** JavaScript truthiness of an optional string field: a missing field and
    the empty string are falsy. *)
Definition truthy (v : option string) : bool :=
  match v with
  | None => false
  | Some s => negb (s =? "")
  end.

(** How an SSH session started by [conn.connect] turns out: the ['error']
    handler fires, or the ['ready'] handler does. *)
Inductive SshOutcome : Type :=
| SshError (err : JsError)
| SshReady.

(** What the command stream of [conn.exec] delivers before it closes. *)
Inductive StreamChunk : Type :=
| StdoutData (data : string)
| StderrData (data : string).

(** ** What is left to the event loop

    A function that was called without [await] and has not finished when
    the call returns. *)
Inductive Task : Type :=
| ResumeMain (fuel depth : nat)   (* [main()]: it has printed its first
                                     line and waits for [ftpClient.access] *)
| Session (session : SshOutcome). (* [conn.connect] has been called: the
                                     handlers run when the session reports *)

(** ** The record of a run *)

Inductive Event : Type :=
| EvLog (msg : string)                                  (* console.log *)
| EvError (msg : string)                                (* console.error *)
| EvFtpAccess (ok : bool)                               (* ftpClient.access *)
| EvCd (dir : string) (ok : bool)                       (* ftpClient.cd *)
| EvList (files : option (list FileInfo))               (* ftpClient.list *)
| EvDownloadTo (localPath remoteName : string) (ok : bool)
| EvRemove (remoteName : string) (ok : bool)            (* ftpClient.remove *)
| EvRemoveDir (dir : string) (ok : bool)                (* ftpClient.removeDir *)
| EvFtpClose                                            (* ftpClient.close *)
| EvFsAccess (path : string) (ok : bool)                (* fs.promises.access *)
| EvExistsSync (path : string) (found : bool)           (* fs.existsSync *)
| EvMkdirSync (path : string) (ok : bool)               (* fs.mkdirSync *)
| EvReadFileSync (path : string) (ok : bool)            (* fs.readFileSync *)
| EvRlCreate                                            (* readline.createInterface *)
| EvRlQuestion (answer : option string)                 (* rl.question *)
| EvRlClose                                             (* rl.close *)
| EvSshConnect (cfg : SshConfig) (ready : bool)         (* conn.connect *)
| EvSshExec (command : string) (ok : bool)              (* conn.exec *)
| EvSshEnd                                              (* conn.end *)
| EvStarted (task : Task).                              (* a call without await *)

(** A function of the script as the caller of [callback()] has it: what
    the call prints before it returns, at the first [await] of the
    function, and what it leaves to the event loop. *)
Record Callback : Type := mkCallback { begins : list Event; leaves : Task }.

(** The tasks a record has started, in the order of the calls. *)
Fixpoint started (tr : list Event) : list Task :=
  match tr with
  | [] => []
  | EvStarted task :: rest => task :: started rest
  | _ :: rest => started rest
  end.

(** ** The libraries the script calls *)

Class Capabilities (E : Type) : Type := {
  (* basic-ftp *)
  ftp_access : E -> Result unit * E;
  ftp_cd : string -> E -> Result unit * E;
  ftp_list : E -> Result (list FileInfo) * E;
  ftp_downloadTo : string -> string -> E -> Result unit * E;
  ftp_remove : string -> E -> Result unit * E;
  ftp_removeDir : string -> E -> Result unit * E;
  ftp_close : E -> E;
  ftp_closed : E -> bool;
  (* fs *)
  fs_access : string -> E -> Result unit * E;
  fs_existsSync : string -> E -> bool;
  fs_mkdirSync : string -> E -> Result unit * E;
  fs_readFileSync : string -> E -> Result (list Byte.byte) * E;
  (* readline: the line the operator types *)
  rl_question : string -> E -> Result string * E;
  (* ssh2 *)
  ssh_connect : SshConfig -> E -> SshOutcome * E;
  ssh_exec : string -> E -> Result (list StreamChunk) * E;
  ssh_end : E -> E;
  (* path *)
  path_join : string -> string -> string;
  path_posix_join : string -> string -> string
}.

(** ** Computations *)

(** The module-level [let rl = null] of the hardened revision. *)
Inductive RlHandle : Type := RlNull | RlOpen | RlClosed.

Record St (E : Type) : Type := mkSt { env : E; rl : RlHandle }.

(** How a computation ends: it returns, it throws, or the model ran out of
    the fuel that bounds recursion. *)
Inductive Outcome (A : Type) : Type :=
| Done (a : A)
| Raised (e : JsError)
| Starved.
Arguments Raised {A} e.
Arguments Starved {A}.

Definition M (E A : Type) : Type := St E -> Outcome A * St E * list Event.

Section Monad.
Context {E : Type}.

Definition ret {A} (a : A) : M E A := fun st => (Done a, st, []).

Definition bind {A B} (m : M E A) (k : A -> M E B) : M E B := fun st =>
  match m st with
  | (Done a, st1, ev1) =>
      match k a st1 with (o, st2, ev2) => (o, st2, (ev1 ++ ev2)%list) end
  | (Raised e, st1, ev1) => (Raised e, st1, ev1)
  | (Starved, st1, ev1) => (Starved, st1, ev1)
  end.

Definition throw {A} (e : JsError) : M E A := fun st => (Raised e, st, []).

Definition starve {A} : M E A := fun st => (Starved, st, []).

Definition emit (ev : Event) : M E unit := fun st => (Done tt, st, [ev]).

(** [try { m } catch (error) { h error }] *)
Definition try_catch {A} (m : M E A) (h : JsError -> M E A) : M E A := fun st =>
  match m st with
  | (Raised e, st1, ev1) =>
      match h e st1 with (o, st2, ev2) => (o, st2, (ev1 ++ ev2)%list) end
  | r => r
  end.

(** [try { m } finally { fin }] *)
Definition try_finally {A} (m : M E A) (fin : M E unit) : M E A := fun st =>
  match m st with
  | (Starved, st1, ev1) => (Starved, st1, ev1)
  | (o, st1, ev1) =>
      match fin st1 with
      | (Done _, st2, ev2) => (o, st2, (ev1 ++ ev2)%list)
      | (Raised e, st2, ev2) => (Raised e, st2, (ev1 ++ ev2)%list)
      | (Starved, st2, ev2) => (Starved, st2, (ev1 ++ ev2)%list)
      end
  end.

(** Calling an [async] function without [await]: the call returns when
    the function reaches its first [await].  What it has printed by then
    is in the record of the caller; nothing of what it does later is, and
    its promise is dropped. *)
Definition unawaited (f : Callback) : M E unit := fun st =>
  (Done tt, st, EvStarted (leaves f) :: begins f).

(** [for (const item of items) { body item }] *)
Fixpoint forOf {A} (items : list A) (body : A -> M E unit) : M E unit :=
  match items with
  | [] => ret tt
  | item :: rest => bind (body item) (fun _ => forOf rest body)
  end.

Definition outcome {A} (m : M E A) (st : St E) : Outcome A := fst (fst (m st)).
Definition final {A} (m : M E A) (st : St E) : St E := snd (fst (m st)).
Definition events {A} (m : M E A) (st : St E) : list Event := snd (m st).

(** The event loop, as far as it is determined.  With one task pending it
    takes the task up, as [resume] says, and goes on with what that has
    started; a task that ends in an exception is a promise nobody has
    awaited, and the process ends with it.  With nothing pending the
    process is over; with more than one activity pending the loop stops
    and hands them back. *)
Fixpoint event_loop (resume : Task -> M E unit) (turns : nat) (queue : list Task)
    : M E (list Task) :=
  match queue with
  | [task] =>
      match turns with
      | 0 => starve
      | S turns' => fun st =>
          match resume task st with
          | (Done _, st1, ev1) =>
              match event_loop resume turns' (started ev1) st1 with
              | (o, st2, ev2) => (o, st2, (ev1 ++ ev2)%list)
              end
          | (Raised e, st1, ev1) => (Raised e, st1, ev1)
          | (Starved, st1, ev1) => (Starved, st1, ev1)
          end
      end
  | _ => ret queue
  end.
End Monad.

Declare Scope js_scope.
Delimit Scope js_scope with js.
Notation "x <- m ;; k" := (bind m (fun x => k))
  (at level 61, m at next level, right associativity) : js_scope.
Notation "m ;; k" := (bind m (fun _ => k))
  (at level 61, right associativity) : js_scope.
Open Scope js_scope.

(** ** The library calls as computations *)

Section Calls.
Context {E : Type} `{Capabilities E}.

(** A call that may throw: the world moves on, the call is recorded. *)
Definition call {A} (f : E -> Result A * E) (record : Result A -> Event) : M E A :=
  fun st =>
    match f (env st) with
    | (Ok a, e1) => (Done a, mkSt e1 (rl st), [record (Ok a)])
    | (Throw err, e1) => (Raised err, mkSt e1 (rl st), [record (Throw err)])
    end.

Definition succeeded {A} (r : Result A) : bool :=
  match r with Ok _ => true | Throw _ => false end.

Definition ftpClient_access : M E unit :=
  call ftp_access (fun r => EvFtpAccess (succeeded r)).

Definition ftpClient_cd (dir : string) : M E unit :=
  call (ftp_cd dir) (fun r => EvCd dir (succeeded r)).

Definition ftpClient_list : M E (list FileInfo) :=
  call ftp_list
    (fun r => EvList match r with Ok files => Some files | Throw _ => None end).

Definition ftpClient_downloadTo (localPath remoteName : string) : M E unit :=
  call (ftp_downloadTo localPath remoteName)
    (fun r => EvDownloadTo localPath remoteName (succeeded r)).

Definition ftpClient_remove (remoteName : string) : M E unit :=
  call (ftp_remove remoteName) (fun r => EvRemove remoteName (succeeded r)).

Definition ftpClient_removeDir (dir : string) : M E unit :=
  call (ftp_removeDir dir) (fun r => EvRemoveDir dir (succeeded r)).

Definition ftpClient_close : M E unit := fun st =>
  (Done tt, mkSt (ftp_close (env st)) (rl st), [EvFtpClose]).

Definition ftpClient_closed : M E bool := fun st =>
  (Done (ftp_closed (env st)), st, []).

Definition fs_promises_access (path : string) : M E unit :=
  call (fs_access path) (fun r => EvFsAccess path (succeeded r)).

Definition existsSync (path : string) : M E bool := fun st =>
  let found := fs_existsSync path (env st) in
  (Done found, st, [EvExistsSync path found]).

Definition mkdirSync (path : string) : M E unit :=
  call (fs_mkdirSync path) (fun r => EvMkdirSync path (succeeded r)).

Definition readFileSync (path : string) : M E (list Byte.byte) :=
  call (fs_readFileSync path) (fun r => EvReadFileSync path (succeeded r)).

Definition question (prompt : string) : M E string :=
  call (rl_question prompt)
    (fun r => EvRlQuestion match r with Ok a => Some a | Throw _ => None end).

Definition conn_connect (cfg : SshConfig) : M E SshOutcome := fun st =>
  match ssh_connect cfg (env st) with
  | (SshReady, e1) => (Done SshReady, mkSt e1 (rl st), [EvSshConnect cfg true])
  | (SshError err, e1) =>
      (Done (SshError err), mkSt e1 (rl st), [EvSshConnect cfg false])
  end.

(** [conn.exec(command, (err, stream) => ...)]: [Throw] stands for the
    callback being handed an [err]. *)
Definition conn_exec (command : string) : M E (Result (list StreamChunk)) := fun st =>
  match ssh_exec command (env st) with
  | (r, e1) => (Done r, mkSt e1 (rl st), [EvSshExec command (succeeded r)])
  end.

Definition conn_end : M E unit := fun st =>
  (Done tt, mkSt (ssh_end (env st)) (rl st), [EvSshEnd]).

(** [console.log(a)], [console.log(a, b)]: the arguments are printed with a
    blank between them. *)
Definition console_log (a : string) : M E unit := emit (EvLog a).
Definition console_log2 (a b : string) : M E unit := emit (EvLog (a ++ " " ++ b)).
Definition console_error2 (a b : string) : M E unit := emit (EvError (a ++ " " ++ b)).

Definition get_rl : M E RlHandle := fun st => (Done (rl st), st, []).
Definition set_rl (h : RlHandle) : M E unit := fun st => (Done tt, mkSt (env st) h, []).
End Calls.

(** [String(n)] for an array length. *)
Definition string_of_nat (n : nat) : string :=
  NilEmpty.string_of_uint (Nat.to_uint n).

(** [s.replaceAll(from, to)] for one-character [from] and [to]. *)
Fixpoint replaceAll (from to : ascii) (s : string) : string :=
  match s with
  | EmptyString => EmptyString
  | String c rest =>
      String (if Ascii.eqb c from then to else c) (replaceAll from to rest)
  end.

(** * The hardened revision ([src/unnamed/part_000]) *)

Module Hardened.

(** The fields of [config.json] the script reads.  The FTP credentials only
    travel to [ftpClient.access], which is a capability of the world. *)
Record Config : Type := mkConfig {
  cfg_remoteDir : string;               (* config.ftpConfig.remoteDir *)
  cfg_localDir : string;                (* config.ftpConfig.localDir *)
  sshConfig : option SshConfig;         (* config.sshConfig *)
  deleteRemoteFiles : bool              (* config.deleteRemoteFiles *)
}.

Section Script.
Context {E : Type} `{Capabilities E}.
Variable config : Config.

(** [handleFileDownload(ftpClient, remoteFileName, currentRemoteFtpDir,
    localFilePath, deleteRemote)] *)
Definition handleFileDownload (remoteFileName currentRemoteFtpDir localFilePath : string)
    (deleteRemote : bool) : M E unit :=
  try_catch
    (fs_promises_access localFilePath ;;
     (* File exists locally *)
     if deleteRemote then
       let fullRemotePath := path_posix_join currentRemoteFtpDir remoteFileName in
       console_log2 "Deleting remote file:" fullRemotePath ;;
       try_catch
         (ftpClient_remove remoteFileName)
         (fun delErr =>
            console_error2 ("Error deleting remote file " ++ fullRemotePath ++ ":")
              (message delErr))
     else ret tt)
    (fun error =>
       (* File does not exist locally, proceed with download *)
       console_log ("Downloading file " ++ remoteFileName ++ " to "
                    ++ localFilePath ++ "...") ;;
       try_catch
         (ftpClient_downloadTo localFilePath remoteFileName ;;
          console_log ("File " ++ remoteFileName ++ " downloaded successfully to "
                       ++ localFilePath ++ ".") ;;
          if deleteRemote then
            let fullRemotePath := path_posix_join currentRemoteFtpDir remoteFileName in
            console_log2 "Deleting remote file:" fullRemotePath ;;
            try_catch
              (ftpClient_remove remoteFileName)
              (fun delErr =>
                 console_error2 ("Error deleting remote file " ++ fullRemotePath ++ ":")
                   (message delErr))
          else ret tt)
         (fun downloadErr =>
            (* Do not attempt to delete if download failed *)
            console_error2 ("Error downloading file " ++ remoteFileName ++ " to "
                            ++ localFilePath ++ ":")
              (message downloadErr))).

(** The body of [for (const item of files)] in [downloadDirectory]; [self]
    is [downloadDirectory] itself. *)
Definition downloadDirectory_item (self : string -> string -> bool -> M E unit)
    (remoteDir localDir : string) (item : FileInfo) : M E unit :=
  if isDirectory item then
    let subDirPathLocal := path_join localDir (name item) in
    found <- existsSync subDirPathLocal ;;
    created <- (if negb found then
                  try_catch
                    (mkdirSync subDirPathLocal ;; ret true)
                    (fun mkdirErr =>
                       console_error2 ("Error creating local directory "
                                       ++ subDirPathLocal ++ ":")
                         (message mkdirErr) ;;
                       ret false)
                else ret true) ;;
    if created then
      let subDirPathRemote := path_posix_join remoteDir (name item) in
      self subDirPathRemote subDirPathLocal true
    else ret tt (* continue: skip this directory if creation failed *)
  else if isFile item then
    let localFilePath := path_join localDir (name item) in
    handleFileDownload (name item) remoteDir localFilePath (deleteRemoteFiles config)
  else ret tt.

(** One invocation of [downloadDirectory(ftpClient, remoteDir, localDir,
    remoteEmpty)], with the recursive calls going to [self]. *)
Definition downloadDirectory_body (self : string -> string -> bool -> M E unit)
    (remoteDir localDir : string) (remoteEmpty : bool) : M E unit :=
  console_log2 "Download " remoteDir ;;
  entered <- try_catch
               (ftpClient_cd remoteDir ;; ret true)
               (fun cdErr =>
                  console_error2 ("Error changing to remote directory "
                                  ++ remoteDir ++ ":")
                    (message cdErr) ;;
                  ret false) ;;
  if entered then
    files <- ftpClient_list ;;
    (if Nat.eqb (List.length files) 0 then
       console_log2 "Empty dir " remoteDir ;;
       if remoteEmpty then
         try_catch
           (ftpClient_removeDir remoteDir)
           (fun error =>
              console_error2 "Error removing remote directory:" (message error))
       else ret tt
     else ret tt) ;;
    forOf files (downloadDirectory_item self remoteDir localDir)
  else ret tt. (* return: cannot proceed if we can't change directory *)

(** [downloadDirectory]; [depth] bounds how deep the descent may go. *)
Fixpoint downloadDirectory (depth : nat) (remoteDir localDir : string)
    (remoteEmpty : bool) : M E unit :=
  match depth with
  | 0 => starve
  | S depth' =>
      downloadDirectory_body (downloadDirectory depth') remoteDir localDir remoteEmpty
  end.

(** [if (rl && !rl.closed) { rl.close(); }] *)
Definition closeRlIfOpen : M E unit :=
  h <- get_rl ;;
  match h with
  | RlOpen => emit EvRlClose ;; set_rl RlClosed
  | _ => ret tt
  end.

(** [if (ftpClient && ftpClient.ftp && !ftpClient.closed) { ftpClient.close(); }] *)
Definition closeFtpIfOpen : M E unit :=
  closed <- ftpClient_closed ;;
  if negb closed then ftpClient_close else ret tt.

(** The session configuration [restartFTP] builds before it connects. *)
Definition sshConnectionConfig : M E SshConfig :=
  (* Start with a copy of the base sshConfig *)
  let base := match sshConfig config with
              | Some c => c
              | None => emptySshConfig
              end in
  match sshConfig config with
  | Some c =>
      if truthy (privateKeyPath c) then
        try_catch
          (key <- readFileSync (match privateKeyPath c with
                                | Some p => p
                                | None => ""
                                end) ;;
           let withKey :=
             mkSshConfig (host base) (port base) (username base)
               (* Remove agent if private key is successfully loaded *)
               (if truthy (agent base) then None else agent base)
               (privateKeyPath base) (restartCommand base) (Some key) in
           console_log "Using private key for SSH connection." ;;
           ret withKey)
          (fun error =>
             console_error2 "Error reading private key file:" (message error) ;;
             console_log "Falling back to other SSH authentication methods (e.g., agent)." ;;
             (* If key reading fails, ensure privateKey property is not set *)
             ret (mkSshConfig (host base) (port base) (username base) (agent base)
                    (privateKeyPath base) (restartCommand base) None))
      else ret base
  | None => ret base
  end.

(** What the handlers registered on the command stream do with it. *)
Definition streamHandlers (chunks : list StreamChunk) : M E unit :=
  forOf chunks (fun chunk =>
    match chunk with
    | StdoutData data => console_log2 "Вывод:" data
    | StderrData data => console_error2 "Ошибка:" data
    end) ;;
  conn_end.

(** The handlers [restartFTP] registers with [conn.on]: what runs when
    the session reports. *)
Definition sessionHandlers (session : SshOutcome) : M E unit :=
  match session with
  | SshReady =>
      console_log "SSH соединение установлено." ;;
      (* Use restartCommand from config, fallback to a default if not specified *)
      let command :=
        match sshConfig config with
        | Some c => if truthy (restartCommand c)
                    then match restartCommand c with Some s => s | None => "" end
                    else "sudo systemctl restart vsftpd"
        | None => "sudo systemctl restart vsftpd"
        end in
      r <- conn_exec command ;;
      match r with
      | Throw err =>
          console_error2 "Ошибка выполнения команды:" (message err) ;;
          conn_end
      | Ok chunks => streamHandlers chunks
      end
  | SshError err => console_error2 "Ошибка SSH соединения:" (message err)
  end.

(** [restartFTP()] and its session when nothing else runs in between:
    the calls of the handlers are recorded behind the [connect] that
    leads to them. *)
Definition restartFTP : M E unit :=
  sshConnectionConfig_ <- sshConnectionConfig ;;
  session <- conn_connect sshConnectionConfig_ ;;
  sessionHandlers session.

(** [restartFTP()] as the answer handler calls it: the function returns
    when [conn.connect] has been called, and the session is left to the
    event loop. *)
Definition restartFTP_call : M E unit :=
  sshConnectionConfig_ <- sshConnectionConfig ;;
  session <- conn_connect sshConnectionConfig_ ;;
  emit (EvStarted (Session session)).

Definition prompt : string :=
  String.append "Press 1 to retry, 2 to restart FTP and retry, or other to exit"
    (String (ascii_of_nat 10) EmptyString).

Definition defined (callback : option Callback) : bool :=
  match callback with Some _ => true | None => false end.

(** [callback()] *)
Definition invoke (callback : option Callback) : M E unit :=
  match callback with
  | Some cb => unawaited cb
  | None => ret tt
  end.

(** What [waitForExit] does with the line the operator typed. *)
Definition onAnswer (callback : option Callback) (answer : string) : M E unit :=
  if (answer =? "1") && defined callback then
    (* Don't close rl, will retry *)
    invoke callback
  else if (answer =? "2") && defined callback then
    (* Don't close rl, will retry after FTP restart *)
    restartFTP_call ;;
    invoke callback
  else
    (* User chose to exit or entered other input *)
    closeRlIfOpen.

(** [waitForExit({callback})], up to the [resolve()] that settles its
    promise.  The answer handler runs outside the [try] that surrounds
    [rl.question]. *)
Definition waitForExit (callback : option Callback) : M E unit :=
  asked <- try_catch
             (h <- get_rl ;;
              match h with
              | RlOpen => ret tt
              | _ => emit EvRlCreate ;; set_rl RlOpen
              end ;;
              answer <- question prompt ;;
              ret (Some answer))
             (fun error =>
                console_error2 "Error in waitForExit:" (message error) ;;
                closeRlIfOpen ;;
                ret None) ;;
  match asked with
  | Some answer => onAnswer callback answer
  | None => ret tt
  end.

(** The [try] block of [main] from its first [await] on. *)
Definition main_try_resumed (depth : nat) : M E unit :=
  ftpClient_access ;;
  console_log "Success" ;;
  downloadDirectory depth (cfg_remoteDir config) (cfg_localDir config) false.

(** The [try] block of [main]. *)
Definition main_try (depth : nat) : M E unit :=
  console_log "Try to connect..." ;;
  main_try_resumed depth.

(** [main] as the callback of [waitForExit]: a call of it prints the
    first line of [main] and leaves the rest of [main] to the event loop;
    [fuel] is what that [main] may use. *)
Definition again (fuel depth : nat) : Callback :=
  mkCallback [EvLog "Try to connect..."] (ResumeMain fuel depth).

(** The body of [main] around its [try] block. *)
Definition main_around (try_block : M E unit) (fuel depth : nat) : M E unit :=
  try_finally
    (try_catch
       try_block
       (fun err =>
          console_error2 "Ошибка скачивания > " (message err) ;;
          closeFtpIfOpen ;;
          waitForExit (Some (again fuel depth))))
    (closeFtpIfOpen ;;
     (* Close readline interface if it's open *)
     closeRlIfOpen).

(** [main()], up to the settling of its promise; [fuel] bounds how often
    the operator may ask for a retry. *)
Definition main (fuel depth : nat) : M E unit :=
  match fuel with
  | 0 => starve
  | S fuel' => main_around (main_try depth) fuel' depth
  end.

(** A [main()] that was called without [await], from its first [await]
    on. *)
Definition main_resumed (fuel depth : nat) : M E unit :=
  match fuel with
  | 0 => starve
  | S fuel' => main_around (main_try_resumed depth) fuel' depth
  end.

(** What the event loop does with a task. *)
Definition resume (task : Task) : M E unit :=
  match task with
  | ResumeMain fuel depth => main_resumed fuel depth
  | Session session => sessionHandlers session
  end.

(** The statements at the end of the file: [try { main(); } catch (e) { ... }]. *)
Definition script (fuel depth : nat) : M E unit :=
  try_catch
    (unawaited (again fuel depth))
    (fun e =>
       console_log "ERROR!" ;;
       console_log (message e) ;;
       (* Ensure readline is closed on unhandled main exception *)
       closeRlIfOpen).

(** [node ftpScript.js]: the statements of the file, then the event loop. *)
Definition process (fuel depth : nat) : M E (list Task) :=
  script fuel depth ;;
  event_loop resume (S fuel) [ResumeMain fuel depth].
End Script.

End Hardened.

(** * The simple revision ([src/ftpScript.js]) *)

Module Simple.

Definition HOST : string := "45.146.164.50".

Definition DELETE_REMOTE_FILES : bool := true.

Definition sshConfig : SshConfig :=
  mkSshConfig (Some HOST) (Some 22) (Some "root") (Some "pageant") None None None.

Section Script.
Context {E : Type} `{Capabilities E}.

(** The [else] branch of the loop of [downloadDirectory]: an entry that is
    not a directory. *)
Definition downloadDirectory_file (localDir : string) (item : FileInfo) : M E unit :=
  let localFilePath := localDir ++ "/" ++ name item in
  try_catch
    (let localfile := replaceAll "/"%char "\"%char localFilePath in
     fs_promises_access localfile ;;
     console_log ("File " ++ name item ++ " already downloaded.") ;;
     if DELETE_REMOTE_FILES then
       console_log2 "Deleting remote file " (name item) ;;
       ftpClient_remove (name item)
     else ret tt)
    (fun error =>
       (* Если файл не существует, скачиваем его *)
       ftpClient_downloadTo localFilePath (name item) ;;
       console_log ("File " ++ name item ++ " downloaded to " ++ localFilePath) ;;
       if DELETE_REMOTE_FILES then
         console_log2 "Deleting remote file " (name item) ;;
         ftpClient_remove (name item)
       else ret tt).

(** The body of [for (const item of files)]; [self] is [downloadDirectory]
    itself. *)
Definition downloadDirectory_item (self : string -> string -> bool -> M E unit)
    (remoteDir localDir : string) (item : FileInfo) : M E unit :=
  if isDirectory item then
    let dirPath := localDir ++ "/" ++ name item in
    found <- existsSync dirPath ;;
    (if negb found then
       mkdirSync dirPath ;;
       console_log2 "Created local directory:" (name item)
     else ret tt) ;;
    self (remoteDir ++ "/" ++ name item) dirPath true
  else
    downloadDirectory_file localDir item.

(** One invocation of [downloadDirectory(ftpClient, remoteDir, localDir,
    remoteEmpty)], with the recursive calls going to [self]. *)
Definition downloadDirectory_body (self : string -> string -> bool -> M E unit)
    (remoteDir localDir : string) (remoteEmpty : bool) : M E unit :=
  console_log2 "Download " remoteDir ;;
  ftpClient_cd remoteDir ;;
  files <- ftpClient_list ;;
  console_log2 ("Files in " ++ remoteDir ++ " : ") (string_of_nat (List.length files)) ;;
  (if Nat.eqb (List.length files) 0 then
     console_log2 "Empty dir " remoteDir ;;
     if remoteEmpty then ftpClient_removeDir remoteDir else ret tt
   else ret tt) ;;
  forOf files (downloadDirectory_item self remoteDir localDir).

(** [downloadDirectory]; [depth] bounds how deep the descent may go. *)
Fixpoint downloadDirectory (depth : nat) (remoteDir localDir : string)
    (remoteEmpty : bool) : M E unit :=
  match depth with
  | 0 => starve
  | S depth' =>
      downloadDirectory_body (downloadDirectory depth') remoteDir localDir remoteEmpty
  end.

(** What the handlers registered on the command stream do with it. *)
Definition streamHandlers (chunks : list StreamChunk) : M E unit :=
  forOf chunks (fun chunk =>
    match chunk with
    | StdoutData data => console_log2 "Вывод:" data
    | StderrData data => console_error2 "Ошибка:" data
    end) ;;
  conn_end.

(** The handlers [restartFTP] registers with [conn.on]: what runs when
    the session reports. *)
Definition sessionHandlers (session : SshOutcome) : M E unit :=
  match session with
  | SshReady =>
      console_log "SSH соединение установлено." ;;
      (* Команда для перезапуска FTP демона *)
      let command := "sudo systemctl restart vsftpd" in
      r <- conn_exec command ;;
      match r with
      | Throw err =>
          console_error2 "Ошибка выполнения команды:" (message err) ;;
          conn_end
      | Ok chunks => streamHandlers chunks
      end
  | SshError err => console_error2 "Ошибка SSH соединения:" (message err)
  end.

(** [restartFTP()] and its session when nothing else runs in between:
    the calls of the handlers are recorded behind the [connect] that
    leads to them. *)
Definition restartFTP : M E unit :=
  session <- conn_connect sshConfig ;;
  sessionHandlers session.

(** [restartFTP()] as the answer handler calls it: the function returns
    when [conn.connect] has been called, and the session is left to the
    event loop. *)
Definition restartFTP_call : M E unit :=
  session <- conn_connect sshConfig ;;
  emit (EvStarted (Session session)).

Definition prompt : string :=
  String.append "Press 1 to retry, 2 to restart FTP and retry, or other to exit"
    (String (ascii_of_nat 10) EmptyString).

Definition defined (callback : option Callback) : bool :=
  match callback with Some _ => true | None => false end.

(** [callback()] *)
Definition invoke (callback : option Callback) : M E unit :=
  match callback with
  | Some cb => unawaited cb
  | None => ret tt
  end.

(** What the answer handler does once [rl.close()] is behind it. *)
Definition onAnswer (callback : option Callback) (answer : string) : M E unit :=
  if (answer =? "1") && defined callback then
    invoke callback
  else if (answer =? "2") && defined callback then
    restartFTP_call ;;
    invoke callback
  else ret tt.

(** [waitForExit({callback})], up to the [resolve()] that settles its
    promise; its [rl] is a local of the call. *)
Definition waitForExit (callback : option Callback) : M E unit :=
  emit EvRlCreate ;;
  answer <- question prompt ;;
  emit EvRlClose ;;
  onAnswer callback answer.

(** The [try] block of [main] from its first [await] on. *)
Definition main_try_resumed (depth : nat) : M E unit :=
  ftpClient_access ;;
  console_log "Success" ;;
  downloadDirectory depth "/cam192.168.2.50_001217b8e137" "E:\Cam" false.

(** The [try] block of [main]. *)
Definition main_try (depth : nat) : M E unit :=
  console_log "Try to connect..." ;;
  main_try_resumed depth.

(** [main] as the callback of [waitForExit]: a call of it prints the
    first line of [main] and leaves the rest of [main] to the event loop;
    [fuel] is what that [main] may use. *)
Definition again (fuel depth : nat) : Callback :=
  mkCallback [EvLog "Try to connect..."] (ResumeMain fuel depth).

(** The body of [main] around its [try] block. *)
Definition main_around (try_block : M E unit) (fuel depth : nat) : M E unit :=
  try_finally
    (try_catch
       try_block
       (fun err =>
          console_error2 "Ошибка скачивания > " (message err) ;;
          ftpClient_close ;;
          waitForExit (Some (again fuel depth)))) (* Задержка перед закрытием *)
    ftpClient_close.

(** [main()], up to the settling of its promise; [fuel] bounds how often
    the operator may ask for a retry. *)
Definition main (fuel depth : nat) : M E unit :=
  match fuel with
  | 0 => starve
  | S fuel' => main_around (main_try depth) fuel' depth
  end.

(** A [main()] that was called without [await], from its first [await]
    on. *)
Definition main_resumed (fuel depth : nat) : M E unit :=
  match fuel with
  | 0 => starve
  | S fuel' => main_around (main_try_resumed depth) fuel' depth
  end.

(** What the event loop does with a task. *)
Definition resume (task : Task) : M E unit :=
  match task with
  | ResumeMain fuel depth => main_resumed fuel depth
  | Session session => sessionHandlers session
  end.

(** The statements at the end of the file: [try { main(); } catch (e) { ... }]. *)
Definition script (fuel depth : nat) : M E unit :=
  try_catch
    (unawaited (again fuel depth))
    (fun e =>
       console_log "ERROR!" ;;
       console_log (message e)).

(** [node ftpScript.js]: the statements of the file, then the event loop. *)
Definition process (fuel depth : nat) : M E (list Task) :=
  script fuel depth ;;
  event_loop resume (S fuel) [ResumeMain fuel depth].
End Script.

End Simple.

(** * A scripted world

    A small, computable instance of the capabilities, to run the two
    revisions on concrete inputs: a remote tree given by the listing of each
    directory, a local disk given by the paths it holds, and lists of the
    calls that are to fail. *)

Module Sim.

Record World : Type := mkWorld {
  connect_fails : bool;
  connected : bool;
  cwd : string;
  remote : list (string * list FileInfo);
  local_files : list string;
  local_dirs : list string;
  key_files : list (string * list Byte.byte);
  bad_cd : list string;
  bad_fetch : list string;
  bad_remove : list string;
  bad_rmdir : list string;
  bad_mkdir : list string;
  answers : list string;
  ssh_up : bool
}.

Definition mem (s : string) (l : list string) : bool := existsb (String.eqb s) l.

Fixpoint lookup {A} (k : string) (l : list (string * A)) : option A :=
  match l with
  | [] => None
  | (k', v) :: rest => if String.eqb k k' then Some v else lookup k rest
  end.

(** The local disk takes either separator. *)
Definition norm (p : string) : string := replaceAll "\"%char "/"%char p.

Definition set_connected (b : bool) (w : World) : World :=
  mkWorld (connect_fails w) b (cwd w) (remote w) (local_files w) (local_dirs w)
    (key_files w) (bad_cd w) (bad_fetch w) (bad_remove w) (bad_rmdir w) (bad_mkdir w)
    (answers w) (ssh_up w).

Definition set_cwd (d : string) (w : World) : World :=
  mkWorld (connect_fails w) (connected w) d (remote w) (local_files w) (local_dirs w)
    (key_files w) (bad_cd w) (bad_fetch w) (bad_remove w) (bad_rmdir w) (bad_mkdir w)
    (answers w) (ssh_up w).

Definition set_remote (r : list (string * list FileInfo)) (w : World) : World :=
  mkWorld (connect_fails w) (connected w) (cwd w) r (local_files w) (local_dirs w)
    (key_files w) (bad_cd w) (bad_fetch w) (bad_remove w) (bad_rmdir w) (bad_mkdir w)
    (answers w) (ssh_up w).

Definition set_local_files (l : list string) (w : World) : World :=
  mkWorld (connect_fails w) (connected w) (cwd w) (remote w) l (local_dirs w)
    (key_files w) (bad_cd w) (bad_fetch w) (bad_remove w) (bad_rmdir w) (bad_mkdir w)
    (answers w) (ssh_up w).

Definition set_local_dirs (l : list string) (w : World) : World :=
  mkWorld (connect_fails w) (connected w) (cwd w) (remote w) (local_files w) l
    (key_files w) (bad_cd w) (bad_fetch w) (bad_remove w) (bad_rmdir w) (bad_mkdir w)
    (answers w) (ssh_up w).

Definition set_answers (l : list string) (w : World) : World :=
  mkWorld (connect_fails w) (connected w) (cwd w) (remote w) (local_files w) (local_dirs w)
    (key_files w) (bad_cd w) (bad_fetch w) (bad_remove w) (bad_rmdir w) (bad_mkdir w)
    l (ssh_up w).

Definition fails {A} (what : string) (w : World) : Result A * World :=
  (Throw (mkError what), w).

Definition access (w : World) : Result unit * World :=
  if connect_fails w then fails "connect ECONNREFUSED" w
  else (Ok tt, set_connected true w).

Definition cd (dir : string) (w : World) : Result unit * World :=
  if mem dir (bad_cd w) then fails "550 Failed to change directory." w
  else match lookup dir (remote w) with
       | Some _ => (Ok tt, set_cwd dir w)
       | None => fails "550 Failed to change directory." w
       end.

Definition listing (w : World) : Result (list FileInfo) * World :=
  match lookup (cwd w) (remote w) with
  | Some files => (Ok files, w)
  | None => (Ok [], w)
  end.

Definition downloadTo (localPath remoteName : string) (w : World) : Result unit * World :=
  if mem remoteName (bad_fetch w) then fails "426 Transfer aborted." w
  else (Ok tt, set_local_files (norm localPath :: local_files w) w).

Definition drop (remoteName : string) (files : list FileInfo) : list FileInfo :=
  filter (fun f => negb (String.eqb (name f) remoteName)) files.

Definition remove (remoteName : string) (w : World) : Result unit * World :=
  if mem remoteName (bad_remove w) then fails "550 Delete operation failed." w
  else (Ok tt,
        set_remote
          (map (fun kv => if String.eqb (fst kv) (cwd w)
                          then (fst kv, drop remoteName (snd kv)) else kv)
             (remote w)) w).

Definition removeDir (dir : string) (w : World) : Result unit * World :=
  if mem dir (bad_rmdir w) then fails "550 Remove directory operation failed." w
  else (Ok tt,
        set_remote (filter (fun kv => negb (String.eqb (fst kv) dir)) (remote w)) w).

Definition fsAccess (path : string) (w : World) : Result unit * World :=
  if mem (norm path) (local_files w) then (Ok tt, w)
  else fails "ENOENT: no such file or directory" w.

Definition existsSync (path : string) (w : World) : bool :=
  mem (norm path) (local_dirs w).

Definition mkdirSync (path : string) (w : World) : Result unit * World :=
  if mem (norm path) (bad_mkdir w) then fails "EACCES: permission denied" w
  else (Ok tt, set_local_dirs (norm path :: local_dirs w) w).

Definition readFileSync (path : string) (w : World) : Result (list Byte.byte) * World :=
  match lookup path (key_files w) with
  | Some key => (Ok key, w)
  | None => fails "ENOENT: no such file or directory" w
  end.

Definition ask (prompt : string) (w : World) : Result string * World :=
  match answers w with
  | [] => (Ok "", w)
  | a :: rest => (Ok a, set_answers rest w)
  end.

Definition sshConnect (cfg : SshConfig) (w : World) : SshOutcome * World :=
  if ssh_up w then (SshReady, w)
  else (SshError (mkError "connect ECONNREFUSED"), w).

Definition sshExec (command : string) (w : World) : Result (list StreamChunk) * World :=
  (Ok [], w).

Definition join (a b : string) : string := a ++ "/" ++ b.

#[global] Instance capabilities : Capabilities World := {
  ftp_access := access;
  ftp_cd := cd;
  ftp_list := listing;
  ftp_downloadTo := downloadTo;
  ftp_remove := remove;
  ftp_removeDir := removeDir;
  ftp_close := set_connected false;
  ftp_closed := fun w => negb (connected w);
  fs_access := fsAccess;
  fs_existsSync := existsSync;
  fs_mkdirSync := mkdirSync;
  fs_readFileSync := readFileSync;
  rl_question := ask;
  ssh_connect := sshConnect;
  ssh_exec := sshExec;
  ssh_end := fun w => w;
  path_join := join;
  path_posix_join := join
}.

(** A world with nothing in it and nothing failing. *)
Definition blank : World :=
  mkWorld false false "/" [] [] [] [] [] [] [] [] [] [] true.

Definition file (n : string) : FileInfo := mkFileInfo n File.
Definition dir (n : string) : FileInfo := mkFileInfo n Directory.

Definition start (w : World) : St World := mkSt w RlNull.

End Sim.

Unset Implicit Arguments.

(** * Reading the record of a run *)

(** The result of a computation with [evs] recorded in front of it. *)
Definition prefixed {E A : Type} (evs : list Event) (r : Outcome A * St E * list Event)
    : Outcome A * St E * list Event :=
  match r with (o, st, ev) => (o, st, (evs ++ ev)%list) end.

(** What [waitForExit] of the hardened revision records before it asks: a
    [createInterface] unless [rl] is open already. *)
Definition opening (h : RlHandle) : list Event :=
  match h with
  | RlOpen => []
  | _ => [EvRlCreate]
  end.

Definition is_console (ev : Event) : bool :=
  match ev with
  | EvLog _ | EvError _ => true
  | _ => false
  end.

(** What the last call before a remote deletion has established. *)
Inductive License : Type :=
| NoLicense
| Present (path : string)              (* fs.promises.access succeeded *)
| Fetched (path remoteName : string).  (* ftpClient.downloadTo succeeded *)

Definition permits (lic : License) (remoteName : string) : bool :=
  match lic with
  | NoLicense => false
  | Present _ => true
  | Fetched _ n => String.eqb n remoteName
  end.

(** Reads a record from left to right: every [ftpClient.remove] must come
    right after (console lines apart) a successful probe of a local path or
    a successful download of the very file it removes. *)
Fixpoint licensed (lic : License) (tr : list Event) : bool :=
  match tr with
  | [] => true
  | ev :: rest =>
      match ev with
      | EvLog _ | EvError _ => licensed lic rest
      | EvFsAccess p true => licensed (Present p) rest
      | EvDownloadTo p n true => licensed (Fetched p n) rest
      | EvRemove n _ => permits lic n && licensed NoLicense rest
      | _ => licensed NoLicense rest
      end
  end.

(** The same, said of the record as a whole. *)
Definition deletions_licensed (tr : list Event) : Prop :=
  forall pre n ok post,
    tr = (pre ++ EvRemove n ok :: post)%list ->
    exists before grant lines,
      pre = (before ++ grant :: lines)%list /\
      forallb is_console lines = true /\
      ((exists p, grant = EvFsAccess p true) \/
       (exists p, grant = EvDownloadTo p n true)).

Definition is_download (ev : Event) : bool :=
  match ev with EvDownloadTo _ _ _ => true | _ => false end.

Definition is_failed_probe (ev : Event) : bool :=
  match ev with EvFsAccess _ false => true | _ => false end.

Definition is_remove (ev : Event) : bool :=
  match ev with EvRemove _ _ => true | _ => false end.

Definition is_removeDir (ev : Event) : bool :=
  match ev with EvRemoveDir _ _ => true | _ => false end.

Definition is_question (ev : Event) : bool :=
  match ev with EvRlQuestion _ => true | _ => false end.

Definition is_connect (ev : Event) : bool :=
  match ev with EvSshConnect _ _ => true | _ => false end.

(** Whether the session [conn.connect] has opened reports ['ready']. *)
Definition ready (session : SshOutcome) : bool :=
  match session with SshReady => true | SshError _ => false end.

(** Releasing a handle the process holds: [ftpClient.close()], [rl.close()]. *)
Definition is_release (ev : Event) : bool :=
  match ev with EvFtpClose | EvRlClose => true | _ => false end.

(** [below join root d]: [d] is [root] extended by one or more entry names,
    the way the descent builds the paths it recurses into. *)
Inductive below (join : string -> string -> string) (root : string) : string -> Prop :=
| below_child : forall n, below join root (join root n)
| below_deeper : forall d n, below join root d -> below join root (join d n).

(** The remote path the simple revision builds for a subdirectory. *)
Definition slash (d n : string) : string := d ++ "/" ++ n.

(** Every [ftpClient.removeDir] of the record removes a directory in [Q]. *)
Definition removes_only (Q : string -> Prop) (tr : list Event) : Prop :=
  forall d ok, In (EvRemoveDir d ok) tr -> Q d.

(** What an invocation of [downloadDirectory] on [dir] may remove: [dir]
    itself when [remoteEmpty] is set, and directories below [dir]. *)
Definition cleanup_target (join : string -> string -> string) (dir : string)
    (remoteEmpty : bool) (d : string) : Prop :=
  (d = dir /\ remoteEmpty = true) \/ below join dir d.

(** The calls that handle one file: [fs.promises.access],
    [ftpClient.downloadTo] and [ftpClient.remove]. *)
Definition is_file_step (ev : Event) : bool :=
  match ev with
  | EvFsAccess _ _ | EvDownloadTo _ _ _ | EvRemove _ _ => true
  | _ => false
  end.

(** * Worlds to run the script on *)

Module Worlds.
Import Sim.

(** [out/a.txt] is on the local disk already. *)
Definition a_present : World := set_local_files ["out/a.txt"] blank.

(** [/data] lists [a.txt] and [b.txt]; downloading [a.txt] fails. *)
Definition fetch_fails : World :=
  mkWorld false false "/" [("/data", [file "a.txt"; file "b.txt"])]
    [] [] [] [] ["a.txt"] [] [] [] [] true.

(** The same listing; removing [a.txt] fails. *)
Definition remove_fails : World :=
  mkWorld false false "/" [("/data", [file "a.txt"; file "b.txt"])]
    [] [] [] [] [] ["a.txt"] [] [] [] true.

(** [/data] lists the directory [sub] and then [b.txt]; [out/sub] cannot be
    created. *)
Definition mkdir_fails : World :=
  mkWorld false false "/" [("/data", [dir "sub"; file "b.txt"]); ("/data/sub", [])]
    [] [] [] [] [] [] [] ["out/sub"] [] true.

(** The same tree with [out/sub] in place; the server refuses to enter
    [/data/sub]. *)
Definition sub_refused : World :=
  mkWorld false false "/" [("/data", [dir "sub"; file "b.txt"]); ("/data/sub", [])]
    [] ["out/sub"] [] ["/data/sub"] [] [] [] [] [] true.

(** The server accepts the connection and has no [/data]. *)
Definition root_missing : World := blank.

(** [config.json] with [/data] as the remote root and [out] as the local one. *)
Definition config (deleteRemote : bool) : Hardened.Config :=
  Hardened.mkConfig "/data" "out" None deleteRemote.

(** The scenario of the specification: [/data] holds [a.txt] and the empty
    subdirectory [empty]. *)
Definition scenario : World :=
  set_remote [("/data", [file "a.txt"; dir "empty"]); ("/data/empty", [])] blank.

(** [/data] is there and lists nothing. *)
Definition empty_root : World := set_remote [("/data", [])] blank.

(** The root of the simple revision is there and lists nothing. *)
Definition empty_cam : World :=
  set_remote [("/cam192.168.2.50_001217b8e137", [])] blank.

(** The server refuses the connection; the operator will type [answers]. *)
Definition refused (answers : list string) : World :=
  mkWorld true false "/" [] [] [] [] [] [] [] [] [] answers true.

(** A key file at [/home/cam/.ssh/id_rsa]. *)
Definition with_key : World :=
  mkWorld false false "/" [] [] [] [("/home/cam/.ssh/id_rsa", [Byte.x2d; Byte.x2d])]
    [] [] [] [] [] [] true.

(** [sshConfig] of [config.json] with an agent and a key path. *)
Definition ssh_both (keyPath : string) : SshConfig :=
  mkSshConfig (Some "cam.example") (Some 22) (Some "root") (Some "pageant")
    (Some keyPath) (Some "sudo systemctl restart vsftpd") None.

Definition config_ssh (c : SshConfig) : Hardened.Config :=
  Hardened.mkConfig "/data" "out" (Some c) true.

(** [out/a.txt] is on the local disk, [/data] still lists [a.txt] and
    [b.txt], and the server refuses to delete [a.txt]. *)
Definition present_undeletable : World := set_local_files ["out/a.txt"] remove_fails.

End Worlds.

(** * A world with more ways to fail

    The scripted world with three more switches: directories whose listing
    fails, a prompt that throws, and a [conn.exec] that hands its callback
    an error or a stream of chunks. *)

Module Faulty.

Record World : Type := mkWorld {
  base : Sim.World;
  bad_list : list string;
  question_fails : bool;
  exec_result : Result (list StreamChunk)
}.

Definition over (w : World) (b : Sim.World) : World :=
  mkWorld b (bad_list w) (question_fails w) (exec_result w).

Definition lift {A} (f : Sim.World -> Result A * Sim.World) (w : World)
    : Result A * World :=
  match f (base w) with (r, b) => (r, over w b) end.

Definition listing (w : World) : Result (list FileInfo) * World :=
  if Sim.mem (Sim.cwd (base w)) (bad_list w)
  then (Throw (mkError "425 Can't open data connection."), w)
  else lift Sim.listing w.

Definition ask (prompt : string) (w : World) : Result string * World :=
  if question_fails w
  then (Throw (mkError "readline was closed"), w)
  else lift (Sim.ask prompt) w.

Definition sshConnect (cfg : SshConfig) (w : World) : SshOutcome * World :=
  match Sim.sshConnect cfg (base w) with (r, b) => (r, over w b) end.

Definition sshExec (command : string) (w : World) : Result (list StreamChunk) * World :=
  (exec_result w, w).

#[global] Instance capabilities : Capabilities World := {
  ftp_access := lift Sim.access;
  ftp_cd := fun dir => lift (Sim.cd dir);
  ftp_list := listing;
  ftp_downloadTo := fun localPath remoteName => lift (Sim.downloadTo localPath remoteName);
  ftp_remove := fun remoteName => lift (Sim.remove remoteName);
  ftp_removeDir := fun dir => lift (Sim.removeDir dir);
  ftp_close := fun w => over w (Sim.set_connected false (base w));
  ftp_closed := fun w => negb (Sim.connected (base w));
  fs_access := fun path => lift (Sim.fsAccess path);
  fs_existsSync := fun path w => Sim.existsSync path (base w);
  fs_mkdirSync := fun path => lift (Sim.mkdirSync path);
  fs_readFileSync := fun path => lift (Sim.readFileSync path);
  rl_question := ask;
  ssh_connect := sshConnect;
  ssh_exec := sshExec;
  ssh_end := fun w => w;
  path_join := Sim.join;
  path_posix_join := Sim.join
}.

Definition start (w : World) : St World := mkSt w RlNull.

(** The scenario of the specification on a server that cannot list [/data]. *)
Definition unlistable : World :=
  mkWorld Worlds.scenario ["/data"] false (Ok []).

(** The connection is refused and the prompt throws. *)
Definition no_prompt : World :=
  mkWorld (Worlds.refused []) [] true (Ok []).

(** [conn.exec] hands its callback an error. *)
Definition exec_refused : World :=
  mkWorld Sim.blank [] false (Throw (mkError "Unable to exec")).

(** [conn.exec] gives a stream with a line on each channel. *)
Definition exec_talks : World :=
  mkWorld Sim.blank [] false (Ok [StdoutData "restarting"; StderrData "warning"]).

End Faulty.

(** * A server that resolves names

    The scripted world behind a server that looks a name up in the
    directory the client is in: [downloadTo] and [remove] fail for a name
    that directory does not list.  [partial] names the files whose
    transfer breaks off midway: the transport throws and leaves what it
    has written so far on the local disk. *)

Module Strict.

Record World : Type := mkWorld {
  base : Sim.World;
  partial : list string
}.

Definition over (w : World) (b : Sim.World) : World := mkWorld b (partial w).

Definition lift {A} (f : Sim.World -> Result A * Sim.World) (w : World)
    : Result A * World :=
  match f (base w) with (r, b) => (r, over w b) end.

(** Whether the directory the client is in lists [remoteName]. *)
Definition listed (remoteName : string) (b : Sim.World) : bool :=
  match Sim.lookup (Sim.cwd b) (Sim.remote b) with
  | Some files => existsb (fun f => String.eqb (name f) remoteName) files
  | None => false
  end.

Definition downloadTo (localPath remoteName : string) (w : World) : Result unit * World :=
  if negb (listed remoteName (base w))
  then (Throw (mkError "550 Failed to open file."), w)
  else if Sim.mem remoteName (partial w)
  then (Throw (mkError "426 Failure reading network stream."),
        over w (Sim.set_local_files
                  (Sim.norm localPath :: Sim.local_files (base w)) (base w)))
  else lift (Sim.downloadTo localPath remoteName) w.

Definition remove (remoteName : string) (w : World) : Result unit * World :=
  if negb (listed remoteName (base w))
  then (Throw (mkError "550 Delete operation failed."), w)
  else lift (Sim.remove remoteName) w.

#[global] Instance capabilities : Capabilities World := {
  ftp_access := lift Sim.access;
  ftp_cd := fun dir => lift (Sim.cd dir);
  ftp_list := lift Sim.listing;
  ftp_downloadTo := downloadTo;
  ftp_remove := remove;
  ftp_removeDir := fun dir => lift (Sim.removeDir dir);
  ftp_close := fun w => over w (Sim.set_connected false (base w));
  ftp_closed := fun w => negb (Sim.connected (base w));
  fs_access := fun path => lift (Sim.fsAccess path);
  fs_existsSync := fun path w => Sim.existsSync path (base w);
  fs_mkdirSync := fun path => lift (Sim.mkdirSync path);
  fs_readFileSync := fun path => lift (Sim.readFileSync path);
  rl_question := fun prompt => lift (Sim.ask prompt);
  ssh_connect := fun cfg w =>
    match Sim.sshConnect cfg (base w) with (r, b) => (r, over w b) end;
  ssh_exec := fun command w => (Ok [], w);
  ssh_end := fun w => w;
  path_join := Sim.join;
  path_posix_join := Sim.join
}.

Definition start (w : World) : St World := mkSt w RlNull.

(** [/data] holds the directory [sub] and the file [a.txt]; [sub] holds a
    file [a.txt] of its own.  A copy of [/data/a.txt] is on the local disk
    as [out/a.txt]; the transfer of an [a.txt] fails. *)
Definition same_name : World :=
  mkWorld
    (Sim.mkWorld false false "/"
       [("/data", [Sim.dir "sub"; Sim.file "a.txt"]); ("/data/sub", [Sim.file "a.txt"])]
       ["out/a.txt"] ["out/sub"] [] [] ["a.txt"] [] [] [] [] true)
    [].

(** [/data] holds [a.txt], whose transfer breaks off midway. *)
Definition breaks_off : World :=
  mkWorld (Sim.set_remote [("/data", [Sim.file "a.txt"])] Sim.blank) ["a.txt"].

(** [/data] lists the directory [sub] and then [b.txt]; [sub] holds
    [c.txt]. *)
Definition after_sub : World :=
  mkWorld
    (Sim.set_remote
       [("/data", [Sim.dir "sub"; Sim.file "b.txt"]); ("/data/sub", [Sim.file "c.txt"])]
       Sim.blank)
    [].

End Strict.

(** * More ways to read a record *)

Definition is_probe (ev : Event) : bool :=
  match ev with EvFsAccess _ _ => true | _ => false end.

Definition is_failed_list (ev : Event) : bool :=
  match ev with EvList None => true | _ => false end.

Definition is_failed_question (ev : Event) : bool :=
  match ev with EvRlQuestion None => true | _ => false end.

Definition is_failed_connect (ev : Event) : bool :=
  match ev with EvFtpAccess false => true | _ => false end.

Definition is_cd (ev : Event) : bool :=
  match ev with EvCd _ _ => true | _ => false end.

Definition nobody (ev : Event) : bool := false.

(** A computation that throws only after a call marked by [allowed] has
    been recorded. *)
Definition raises_only {E A : Type} (allowed : Event -> bool) (m : M E A) : Prop :=
  forall st e, outcome m st = Raised e -> existsb allowed (events m st) = true.

(** Every [ftpClient.cd] of the record enters a directory in [Q]. *)
Definition enters_only (Q : string -> Prop) (tr : list Event) : Prop :=
  forall d ok, In (EvCd d ok) tr -> Q d.

(** [dir] itself or a directory below it. *)
Definition reach (join : string -> string -> string) (dir d : string) : Prop :=
  d = dir \/ below join dir d.

(** What the handlers of the command stream print for one chunk. *)
Definition chunk_line (chunk : StreamChunk) : Event :=
  match chunk with
  | StdoutData data => EvLog ("Вывод:" ++ " " ++ data)
  | StderrData data => EvError ("Ошибка:" ++ " " ++ data)
  end.

(** The command [restartFTP] of the hardened revision executes. *)
Definition restart_command (config : Hardened.Config) : string :=
  match Hardened.sshConfig config with
  | Some c => if truthy (restartCommand c)
              then match restartCommand c with Some s => s | None => "" end
              else "sudo systemctl restart vsftpd"
  | None => "sudo systemctl restart vsftpd"
  end.

(** Every command the record executes over SSH is [s]. *)
Definition executes_only (s : string) (tr : list Event) : bool :=
  forallb (fun ev => match ev with
                     | EvSshExec cmd _ => String.eqb cmd s
                     | _ => true
                     end) tr.

(** The local path a call creates or writes, if it does. *)
Definition local_target (ev : Event) : option string :=
  match ev with
  | EvMkdirSync p _ => Some p
  | EvDownloadTo p _ _ => Some p
  | _ => None
  end.

(** Every local path the record creates or writes is in [Q]. *)
Definition writes_only (Q : string -> Prop) (tr : list Event) : Prop :=
  forall ev p, In ev tr -> local_target ev = Some p -> Q p.

(** * Running the script by hand

    [js_red] unfolds the script and the monad down to the library calls;
    [js_step H] then takes one call whose result [H] gives. *)

Ltac js_red :=
  cbv beta iota zeta delta
    [Hardened.handleFileDownload Hardened.downloadDirectory_item
     Hardened.downloadDirectory_body Hardened.closeRlIfOpen Hardened.closeFtpIfOpen
     Hardened.sshConnectionConfig Hardened.restartFTP Hardened.streamHandlers
     Hardened.sessionHandlers Hardened.restartFTP_call
     Hardened.waitForExit Hardened.onAnswer Hardened.invoke Hardened.defined
     Hardened.main_try Hardened.main_try_resumed Hardened.again
     Simple.downloadDirectory_file Simple.downloadDirectory_item
     Simple.downloadDirectory_body Simple.restartFTP Simple.streamHandlers
     Simple.sessionHandlers Simple.restartFTP_call
     Simple.waitForExit Simple.onAnswer Simple.invoke Simple.defined
     Simple.main_try Simple.main_try_resumed Simple.again Simple.DELETE_REMOTE_FILES
     try_catch try_finally bind ret emit throw starve call unawaited prefixed
     outcome final events
     ftpClient_access ftpClient_cd ftpClient_list ftpClient_downloadTo
     ftpClient_remove ftpClient_removeDir ftpClient_close ftpClient_closed
     fs_promises_access existsSync mkdirSync readFileSync question
     conn_connect conn_exec conn_end
     console_log console_log2 console_error2 get_rl set_rl];
  cbn [env rl succeeded app fst snd negb andb].

Ltac js_step H := rewrite H; js_red.

(** Splits the result of a computation the goal still has to run. *)
Ltac js_run m :=
  let o := fresh "o" in
  let s := fresh "s" in
  let ev := fresh "ev" in
  destruct m as [[o s] ev] eqn:?.

(** * Properties of records that survive sequencing

    A property of records that holds of the empty record and of [a ++ b]
    whenever it holds of [a] and of [b] holds of a computation as soon as it
    holds of its parts. *)

Section Closure.
Context {E : Type} `{Capabilities E}.
Variable P : list Event -> Prop.
Hypothesis P_nil : P [].
Hypothesis P_app : forall a b, P a -> P b -> P (a ++ b)%list.

Lemma closed_ret : forall A (a : A) (st : St E), P (events (ret a) st).
Proof. intros; exact P_nil. Qed.

Lemma closed_bind : forall A B (m : M E A) (k : A -> M E B) st,
    P (events m st) ->
    (forall a st', P (events (k a) st')) ->
    P (events (bind m k) st).
Proof.
  intros A B m k st Hm Hk. unfold events, bind in *.
  destruct (m st) as [[o st1] ev1]; simpl in Hm.
  destruct o as [a | e | ]; simpl; auto.
  specialize (Hk a st1). destruct (k a st1) as [[o2 st2] ev2]; simpl in *.
  auto.
Qed.

Lemma closed_try_catch : forall A (m : M E A) (h : JsError -> M E A) st,
    P (events m st) ->
    (forall e st', P (events (h e) st')) ->
    P (events (try_catch m h) st).
Proof.
  intros A m h st Hm Hh. unfold events, try_catch in *.
  destruct (m st) as [[o st1] ev1]; simpl in Hm.
  destruct o as [a | e | ]; simpl; auto.
  specialize (Hh e st1). destruct (h e st1) as [[o2 st2] ev2]; simpl in *.
  auto.
Qed.

Lemma closed_try_finally : forall A (m : M E A) (fin : M E unit) st,
    P (events m st) ->
    (forall st', P (events fin st')) ->
    P (events (try_finally m fin) st).
Proof.
  intros A m fin st Hm Hf. unfold events, try_finally in *.
  destruct (m st) as [[o st1] ev1]; simpl in Hm.
  specialize (Hf st1).
  destruct o as [a | e | ]; simpl; auto;
    destruct (fin st1) as [[[u | e' | ] st2] ev2]; simpl in *; auto.
Qed.

Lemma closed_unawaited : forall (f : Callback) (st : St E),
    P [EvStarted (leaves f)] -> P (begins f) -> P (events (unawaited f) st).
Proof.
  intros f st Hcall Hbegins. unfold events, unawaited. cbn [snd].
  apply (P_app [EvStarted (leaves f)] (begins f)); assumption.
Qed.

Lemma closed_forOf : forall A (body : A -> M E unit),
    (forall item st, P (events (body item) st)) ->
    forall items st, P (events (forOf items body) st).
Proof.
  intros A body Hbody items.
  induction items as [| item rest IH]; intros st; simpl.
  - apply closed_ret.
  - apply closed_bind; auto.
Qed.

Lemma closed_emit : forall ev (st : St E), P [ev] -> P (events (emit ev) st).
Proof. intros; assumption. Qed.

Lemma closed_call : forall A (f : E -> Result A * E) (record : Result A -> Event) st,
    (forall r, P [record r]) -> P (events (call f record) st).
Proof.
  intros A f record st Hr. unfold events, call.
  destruct (f (env st)) as [[a | err] e1]; simpl; apply Hr.
Qed.
End Closure.

(** ** A property of every run

    A property that survives sequencing, holds of every single call that is
    neither a file step nor an [ftpClient.removeDir], holds of the handling
    of one file and holds of the descent from the configured root holds of
    [main]; if it holds of every single [ftpClient.removeDir] too, it holds
    of every descent. *)

Ltac calls :=
  cbv delta
    [console_log console_log2 console_error2
     ftpClient_access ftpClient_cd ftpClient_list ftpClient_downloadTo
     ftpClient_remove ftpClient_removeDir fs_promises_access mkdirSync
     readFileSync question].

Ltac closed_by P_nil P_app P_one :=
  repeat (calls;
          first
            [ apply closed_ret
            | apply closed_emit
            | apply closed_call
            | apply closed_bind
            | apply closed_try_catch
            | apply closed_try_finally
            | apply closed_unawaited
            | apply closed_forOf
            | match goal with
              | |- _ (events (if ?b then _ else _) _) => destruct b
              | |- _ (events (match ?x with _ => _ end) _) => destruct x
              end ];
          try exact P_nil; try exact P_app; intros;
          try (apply P_one; reflexivity);
          try assumption).

Section RunInvariant.
Context {E : Type} `{Capabilities E}.
Variable P : list Event -> Prop.
Hypothesis P_nil : P [].
Hypothesis P_app : forall a b, P a -> P b -> P (a ++ b)%list.
Hypothesis P_one : forall ev, is_file_step ev = false -> is_removeDir ev = false -> P [ev].

Ltac closed := closed_by P_nil P_app P_one.

Lemma closed_closeRlIfOpen : forall st : St E, P (events Hardened.closeRlIfOpen st).
Proof.
  intros st. unfold Hardened.closeRlIfOpen, events, bind, get_rl.
  destruct (rl st); simpl; auto; apply (P_one EvRlClose); reflexivity.
Qed.

Lemma closed_closeFtpIfOpen : forall st : St E, P (events Hardened.closeFtpIfOpen st).
Proof.
  intros st. unfold Hardened.closeFtpIfOpen, events, bind, ftpClient_closed, ftpClient_close.
  destruct (ftp_closed (env st)); simpl; auto; apply (P_one EvFtpClose); reflexivity.
Qed.

Lemma closed_ftpClient_close : forall st : St E, P (events ftpClient_close st).
Proof. intros st. apply (P_one EvFtpClose); reflexivity. Qed.

Lemma closed_existsSync : forall path (st : St E), P (events (existsSync path) st).
Proof. intros path st. apply (P_one (EvExistsSync path _)); reflexivity. Qed.

Lemma closed_conn_connect : forall cfg (st : St E), P (events (conn_connect cfg) st).
Proof.
  intros cfg st. unfold events, conn_connect.
  destruct (ssh_connect cfg (env st)) as [[err | ] e1]; simpl;
    apply (P_one (EvSshConnect cfg _)); reflexivity.
Qed.

Lemma closed_conn_exec : forall command (st : St E), P (events (conn_exec command) st).
Proof.
  intros command st. unfold events, conn_exec.
  destruct (ssh_exec command (env st)) as [r e1]; simpl.
  apply (P_one (EvSshExec command _)); reflexivity.
Qed.

Lemma closed_conn_end : forall st : St E, P (events conn_end st).
Proof. intros st. apply (P_one EvSshEnd); reflexivity. Qed.

Lemma closed_streamHandlers_hardened : forall chunks (st : St E),
    P (events (Hardened.streamHandlers chunks) st).
Proof. intros chunks st. unfold Hardened.streamHandlers. closed. Qed.

Lemma closed_streamHandlers_simple : forall chunks (st : St E),
    P (events (Simple.streamHandlers chunks) st).
Proof. intros chunks st. unfold Simple.streamHandlers. closed. Qed.

Lemma closed_sshConnectionConfig : forall config (st : St E),
    P (events (Hardened.sshConnectionConfig config) st).
Proof. intros config st. unfold Hardened.sshConnectionConfig. closed. Qed.

Lemma closed_sessionHandlers_hardened : forall config session (st : St E),
    P (events (Hardened.sessionHandlers config session) st).
Proof.
  intros config session st. unfold Hardened.sessionHandlers.
  closed; auto using closed_conn_exec, closed_streamHandlers_hardened.
Qed.

Lemma closed_sessionHandlers_simple : forall session (st : St E),
    P (events (Simple.sessionHandlers session) st).
Proof.
  intros session st. unfold Simple.sessionHandlers.
  closed; auto using closed_conn_exec, closed_streamHandlers_simple.
Qed.

Lemma closed_restartFTP_hardened : forall config (st : St E),
    P (events (Hardened.restartFTP config) st).
Proof.
  intros config st. unfold Hardened.restartFTP.
  closed;
    auto using closed_sshConnectionConfig, closed_conn_connect,
      closed_sessionHandlers_hardened.
Qed.

Lemma closed_restartFTP_simple : forall st : St E, P (events Simple.restartFTP st).
Proof.
  intros st. unfold Simple.restartFTP.
  closed; auto using closed_conn_connect, closed_sessionHandlers_simple.
Qed.

Lemma closed_restartFTP_call_hardened : forall config (st : St E),
    P (events (Hardened.restartFTP_call config) st).
Proof.
  intros config st. unfold Hardened.restartFTP_call.
  closed; auto using closed_sshConnectionConfig, closed_conn_connect.
Qed.

Lemma closed_restartFTP_call_simple : forall st : St E,
    P (events Simple.restartFTP_call st).
Proof.
  intros st. unfold Simple.restartFTP_call.
  closed; auto using closed_conn_connect.
Qed.

Section HardenedRuns.
Variable config : Hardened.Config.

Lemma closed_waitForExit_hardened : forall callback,
    (forall cb, callback = Some cb -> P (begins cb)) ->
    forall st, P (events (Hardened.waitForExit config callback) st).
Proof.
  intros callback Hcb st.
  unfold Hardened.waitForExit, Hardened.onAnswer, Hardened.invoke.
  closed;
    auto using closed_closeRlIfOpen, closed_restartFTP_call_hardened;
    destruct callback as [cb | ]; closed; apply (Hcb cb); reflexivity.
Qed.

Lemma closed_main_around_hardened : forall try_block fuel depth,
    (forall st, P (events try_block st)) ->
    forall st, P (events (Hardened.main_around config try_block fuel depth) st).
Proof.
  intros try_block fuel depth Htry st. unfold Hardened.main_around.
  closed; auto using closed_closeRlIfOpen, closed_closeFtpIfOpen.
  apply closed_waitForExit_hardened. intros cb Hcb.
  injection Hcb as <-. apply (P_one (EvLog _)); reflexivity.
Qed.

Lemma closed_main_from_descent_hardened :
    (forall depth st,
        P (events (Hardened.downloadDirectory config depth
                     (Hardened.cfg_remoteDir config) (Hardened.cfg_localDir config) false)
             st)) ->
    forall fuel depth st, P (events (Hardened.main config fuel depth) st).
Proof.
  intros Hdescent.
  destruct fuel as [| fuel]; intros depth st; simpl.
  - exact P_nil.
  - apply closed_main_around_hardened. intros st0.
    unfold Hardened.main_try, Hardened.main_try_resumed. closed; auto.
Qed.

Lemma closed_resume_from_descent_hardened :
    (forall depth st,
        P (events (Hardened.downloadDirectory config depth
                     (Hardened.cfg_remoteDir config) (Hardened.cfg_localDir config) false)
             st)) ->
    forall task st, P (events (Hardened.resume config task) st).
Proof.
  intros Hdescent [[| fuel] depth | session] st; simpl.
  - exact P_nil.
  - apply closed_main_around_hardened. intros st0.
    unfold Hardened.main_try_resumed. closed; auto.
  - apply closed_sessionHandlers_hardened.
Qed.

Hypothesis P_removeDir : forall dir ok, P [EvRemoveDir dir ok].
Hypothesis P_file : forall remoteFileName dir lp st,
    P (events (Hardened.handleFileDownload remoteFileName dir lp
                 (Hardened.deleteRemoteFiles config)) st).

Lemma closed_item_hardened : forall self,
    (forall r l b st, P (events (self r l b) st)) ->
    forall dir l item st,
      P (events (Hardened.downloadDirectory_item config self dir l item) st).
Proof.
  intros self Hself dir l item st. unfold Hardened.downloadDirectory_item.
  closed; auto using closed_existsSync.
Qed.

Lemma closed_body_hardened : forall self,
    (forall r l b st, P (events (self r l b) st)) ->
    forall dir l b st,
      P (events (Hardened.downloadDirectory_body config self dir l b) st).
Proof.
  intros self Hself dir l b st. unfold Hardened.downloadDirectory_body.
  closed; auto using closed_item_hardened.
Qed.

Lemma closed_downloadDirectory_hardened : forall depth dir l b st,
    P (events (Hardened.downloadDirectory config depth dir l b) st).
Proof.
  induction depth as [| depth IH]; intros dir l b st; simpl.
  - exact P_nil.
  - apply closed_body_hardened. exact IH.
Qed.

Lemma closed_main_hardened : forall fuel depth st,
    P (events (Hardened.main config fuel depth) st).
Proof.
  apply closed_main_from_descent_hardened.
  intros depth st. apply closed_downloadDirectory_hardened.
Qed.
End HardenedRuns.

Section SimpleRuns.

Lemma closed_waitForExit_simple : forall callback,
    (forall cb, callback = Some cb -> P (begins cb)) ->
    forall st, P (events (Simple.waitForExit callback) st).
Proof.
  intros callback Hcb st.
  unfold Simple.waitForExit, Simple.onAnswer, Simple.invoke.
  closed;
    auto using closed_restartFTP_call_simple;
    destruct callback as [cb | ]; closed; apply (Hcb cb); reflexivity.
Qed.

Lemma closed_main_around_simple : forall try_block fuel depth,
    (forall st, P (events try_block st)) ->
    forall st, P (events (Simple.main_around try_block fuel depth) st).
Proof.
  intros try_block fuel depth Htry st. unfold Simple.main_around.
  closed; auto.
  apply closed_waitForExit_simple. intros cb Hcb.
  injection Hcb as <-. apply (P_one (EvLog _)); reflexivity.
Qed.

Lemma closed_main_from_descent_simple :
    (forall depth st,
        P (events (Simple.downloadDirectory depth
                     "/cam192.168.2.50_001217b8e137" "E:\Cam" false) st)) ->
    forall fuel depth st, P (events (Simple.main fuel depth) st).
Proof.
  intros Hdescent.
  destruct fuel as [| fuel]; intros depth st; simpl.
  - exact P_nil.
  - apply closed_main_around_simple. intros st0.
    unfold Simple.main_try, Simple.main_try_resumed. closed; auto.
Qed.

Lemma closed_resume_from_descent_simple :
    (forall depth st,
        P (events (Simple.downloadDirectory depth
                     "/cam192.168.2.50_001217b8e137" "E:\Cam" false) st)) ->
    forall task st, P (events (Simple.resume task) st).
Proof.
  intros Hdescent [[| fuel] depth | session] st; simpl.
  - exact P_nil.
  - apply closed_main_around_simple. intros st0.
    unfold Simple.main_try_resumed. closed; auto.
  - apply closed_sessionHandlers_simple.
Qed.

Hypothesis P_removeDir : forall dir ok, P [EvRemoveDir dir ok].
Hypothesis P_file : forall localDir item st,
    P (events (Simple.downloadDirectory_file localDir item) st).

Lemma closed_item_simple : forall self,
    (forall r l b st, P (events (self r l b) st)) ->
    forall dir l item st,
      P (events (Simple.downloadDirectory_item self dir l item) st).
Proof.
  intros self Hself dir l item st. unfold Simple.downloadDirectory_item.
  closed; auto using closed_existsSync.
Qed.

Lemma closed_body_simple : forall self,
    (forall r l b st, P (events (self r l b) st)) ->
    forall dir l b st,
      P (events (Simple.downloadDirectory_body self dir l b) st).
Proof.
  intros self Hself dir l b st. unfold Simple.downloadDirectory_body.
  closed; auto using closed_item_simple.
Qed.

Lemma closed_downloadDirectory_simple : forall depth dir l b st,
    P (events (Simple.downloadDirectory depth dir l b) st).
Proof.
  induction depth as [| depth IH]; intros dir l b st; simpl.
  - exact P_nil.
  - apply closed_body_simple. exact IH.
Qed.

Lemma closed_main_simple : forall fuel depth st,
    P (events (Simple.main fuel depth) st).
Proof.
  apply closed_main_from_descent_simple.
  intros depth st. apply closed_downloadDirectory_simple.
Qed.
End SimpleRuns.
End RunInvariant.

(** Takes the next library call of the goal both ways. *)
Ltac js_case :=
  match goal with
  | |- context [match ?c with pair _ _ => _ end] =>
      destruct c as [[? | ?] ?] eqn:?; js_red
  end.

Ltac js_cases := js_red; repeat js_case.

(** * Licensed deletions *)

Lemma licensed_weaken : forall tr,
    licensed NoLicense tr = true -> forall lic, licensed lic tr = true.
Proof.
  induction tr as [| ev rest IH]; intros Hl lic; [ reflexivity | ].
  destruct ev; simpl in *; try assumption; try discriminate; auto.
Qed.

Lemma licensed_app : forall a b lic,
    licensed lic a = true ->
    licensed NoLicense b = true ->
    licensed lic (a ++ b) = true.
Proof.
  induction a as [| ev a IH]; intros b lic Ha Hb; simpl.
  - apply licensed_weaken; assumption.
  - destruct ev; simpl in *; auto;
      try (apply andb_true_iff in Ha as [Hp Ha]; rewrite Hp; simpl; auto);
      match goal with b : bool |- _ => destruct b; auto end.
Qed.

Lemma licensed_sound : forall tr lic,
    licensed lic tr = true ->
    forall pre n ok post,
      tr = (pre ++ EvRemove n ok :: post)%list ->
      (forallb is_console pre = true /\ permits lic n = true) \/
      (exists before grant lines,
          pre = (before ++ grant :: lines)%list /\
          forallb is_console lines = true /\
          ((exists p, grant = EvFsAccess p true) \/
           (exists p, grant = EvDownloadTo p n true))).
Proof.
  induction tr as [| ev rest IH]; intros lic Hl pre n ok post Heq.
  - destruct pre; discriminate.
  - destruct pre as [| ev' pre'].
    + injection Heq as -> ->. simpl in Hl.
      apply andb_true_iff in Hl as [Hp _]. left; split; [ reflexivity | assumption ].
    + injection Heq as <- Hrest.
      assert (Hext : forall lic',
                 licensed lic' rest = true ->
                 (is_console ev = true /\ lic' = lic) \/
                 (forall m, permits lic' m = true ->
                            (exists p, ev = EvFsAccess p true) \/
                            (exists p, ev = EvDownloadTo p m true)) ->
                 (forallb is_console (ev :: pre') = true /\ permits lic n = true) \/
                 (exists before grant lines,
                     (ev :: pre' = before ++ grant :: lines)%list /\
                     forallb is_console lines = true /\
                     ((exists p, grant = EvFsAccess p true) \/
                      (exists p, grant = EvDownloadTo p n true)))).
      { intros lic' Hl' Hev.
        destruct (IH lic' Hl' pre' n ok post Hrest)
          as [[Hc Hp] | (before & grant & lines & Hpre & Hlines & Hgrant)].
        - destruct Hev as [[Hcons ->] | Hgive].
          + left. simpl. rewrite Hcons, Hc. split; [ reflexivity | assumption ].
          + right. exists [], ev, pre'. split; [ reflexivity | ].
            split; [ assumption | ]. apply Hgive; assumption.
        - right. exists (ev :: before), grant, lines. rewrite Hpre.
          split; [ reflexivity | ]. split; assumption. }
      destruct ev; simpl in Hl;
        try (apply (Hext lic Hl); left; split; reflexivity);
        try (apply (Hext NoLicense Hl); right; intros m Hm; discriminate).
      * destruct ok0;
          [ | apply (Hext NoLicense Hl); right; intros m Hm; discriminate ].
        apply (Hext (Fetched localPath remoteName) Hl). right. intros m Hm.
        simpl in Hm. apply String.eqb_eq in Hm as ->. right. eexists; reflexivity.
      * apply andb_true_iff in Hl as [_ Hl].
        apply (Hext NoLicense Hl); right; intros m Hm; discriminate.
      * destruct ok0;
          [ | apply (Hext NoLicense Hl); right; intros m Hm; discriminate ].
        apply (Hext (Present path) Hl). right. intros m Hm.
        left. eexists; reflexivity.
Qed.

Lemma licensed_deletions : forall tr,
    licensed NoLicense tr = true -> deletions_licensed tr.
Proof.
  intros tr Hl pre n ok post Heq.
  destruct (licensed_sound tr NoLicense Hl pre n ok post Heq) as [[_ Hp] | Hex].
  - discriminate.
  - exact Hex.
Qed.

Section LicensedRuns.
Context {E : Type} `{Capabilities E}.

Lemma handleFileDownload_licensed : forall remoteFileName dir lp del (st : St E),
    licensed NoLicense
      (events (Hardened.handleFileDownload remoteFileName dir lp del) st) = true.
Proof.
  intros. destruct del; js_cases; simpl; rewrite ?String.eqb_refl; reflexivity.
Qed.

Lemma downloadDirectory_file_licensed : forall localDir item (st : St E),
    licensed NoLicense (events (Simple.downloadDirectory_file localDir item) st) = true.
Proof.
  intros. js_cases; simpl; rewrite ?String.eqb_refl; reflexivity.
Qed.
End LicensedRuns.

Ltac in_record :=
  simpl; intros;
  repeat match goal with
         | H : _ \/ _ |- _ => destruct H
         | H : False |- _ => destruct H
         | H : _ = _ :> Event |- _ => first [ discriminate H | injection H as ? ? ; subst ]
         end.

Section DeletionSafety.
Context {E : Type} `{Capabilities E}.

Lemma handleFileDownload_removes : forall remoteFileName dir lp del (st : St E) n ok,
    In (EvRemove n ok)
       (events (Hardened.handleFileDownload remoteFileName dir lp del) st) ->
    n = remoteFileName /\ del = true /\
    (succeeded (fst (fs_access lp (env st))) = true \/
     In (EvDownloadTo lp remoteFileName true)
        (events (Hardened.handleFileDownload remoteFileName dir lp del) st)).
Proof.
  intros remoteFileName dir lp del st n ok.
  destruct del; js_cases; in_record; simpl; auto 10.
Qed.

Lemma downloadDirectory_file_removes : forall localDir item (st : St E) n ok,
    In (EvRemove n ok) (events (Simple.downloadDirectory_file localDir item) st) ->
    n = name item /\
    (succeeded (fst (fs_access (replaceAll "/"%char "\"%char (localDir ++ "/" ++ name item))
                       (env st))) = true \/
     In (EvDownloadTo (localDir ++ "/" ++ name item) (name item) true)
        (events (Simple.downloadDirectory_file localDir item) st)).
Proof.
  intros localDir item st n ok.
  js_cases; in_record; simpl; auto 10.
Qed.

Lemma hardened_run_licensed : forall config depth remoteDir localDir remoteEmpty (st : St E),
    licensed NoLicense
      (events (Hardened.downloadDirectory config depth remoteDir localDir remoteEmpty) st)
    = true.
Proof.
  intros config. 
  apply (closed_downloadDirectory_hardened (fun tr => licensed NoLicense tr = true)).
  - reflexivity.
  - intros a b Ha Hb. apply licensed_app; assumption.
  - intros ev Hev _. destruct ev; try discriminate Hev; reflexivity.
  - reflexivity.
  - intros. apply handleFileDownload_licensed.
Qed.

Lemma simple_run_licensed : forall depth remoteDir localDir remoteEmpty (st : St E),
    licensed NoLicense
      (events (Simple.downloadDirectory depth remoteDir localDir remoteEmpty) st) = true.
Proof.
  apply (closed_downloadDirectory_simple (fun tr => licensed NoLicense tr = true)).
  - reflexivity.
  - intros a b Ha Hb. apply licensed_app; assumption.
  - intros ev Hev _. destruct ev; try discriminate Hev; reflexivity.
  - reflexivity.
  - intros. apply downloadDirectory_file_licensed.
Qed.

Lemma hardened_main_licensed : forall config fuel depth (st : St E),
    licensed NoLicense (events (Hardened.main config fuel depth) st) = true.
Proof.
  intros config.
  apply (closed_main_hardened (fun tr => licensed NoLicense tr = true)).
  - reflexivity.
  - intros a b Ha Hb. apply licensed_app; assumption.
  - intros ev Hev _. destruct ev; try discriminate Hev; reflexivity.
  - reflexivity.
  - intros. apply handleFileDownload_licensed.
Qed.

Lemma simple_main_licensed : forall fuel depth (st : St E),
    licensed NoLicense (events (Simple.main fuel depth) st) = true.
Proof.
  apply (closed_main_simple (fun tr => licensed NoLicense tr = true)).
  - reflexivity.
  - intros a b Ha Hb. apply licensed_app; assumption.
  - intros ev Hev _. destruct ev; try discriminate Hev; reflexivity.
  - reflexivity.
  - intros. apply downloadDirectory_file_licensed.
Qed.
End DeletionSafety.

(** X18.  When [ftpClient.remove] is called.  Whenever the handling of one
    file entry calls [ftpClient.remove], the name it passes is the name of
    that entry, and either the probe of the local path made on entry
    succeeded or the same invocation has downloaded that name to that path
    with success; this holds of [handleFileDownload] and of the file
    branch of the simple revision.  In the record of any descent and of
    any [main], of either revision, every [ftpClient.remove] comes
    directly (console lines apart) after a successful probe of a local
    path or after a successful download under the name it passes.  This
    is a statement about the calls and their arguments; which file of the
    server a name stands for is decided by the directory the client is
    in. *)
Theorem removal_guard : forall (E : Type) (C : Capabilities E),
    (forall remoteFileName dir lp del (st : St E) n ok,
        In (EvRemove n ok)
           (events (Hardened.handleFileDownload remoteFileName dir lp del) st) ->
        n = remoteFileName /\ del = true /\
        (succeeded (fst (fs_access lp (env st))) = true \/
         In (EvDownloadTo lp remoteFileName true)
            (events (Hardened.handleFileDownload remoteFileName dir lp del) st)))
    /\
    (forall localDir item (st : St E) n ok,
        In (EvRemove n ok) (events (Simple.downloadDirectory_file localDir item) st) ->
        n = name item /\
        (succeeded
           (fst (fs_access (replaceAll "/"%char "\"%char (localDir ++ "/" ++ name item))
                   (env st))) = true \/
         In (EvDownloadTo (localDir ++ "/" ++ name item) (name item) true)
            (events (Simple.downloadDirectory_file localDir item) st)))
    /\
    (forall config depth remoteDir localDir remoteEmpty (st : St E),
        deletions_licensed
          (events (Hardened.downloadDirectory config depth remoteDir localDir remoteEmpty) st))
    /\
    (forall depth remoteDir localDir remoteEmpty (st : St E),
        deletions_licensed
          (events (Simple.downloadDirectory depth remoteDir localDir remoteEmpty) st))
    /\
    (forall config fuel depth (st : St E),
        deletions_licensed (events (Hardened.main config fuel depth) st))
    /\
    (forall fuel depth (st : St E),
        deletions_licensed (events (Simple.main fuel depth) st)).
Proof.
  intros E C.
  split; [ | split; [ | split; [ | split; [ | split ] ] ] ].
  - apply handleFileDownload_removes.
  - apply downloadDirectory_file_removes.
  - intros. apply licensed_deletions, hardened_run_licensed.
  - intros. apply licensed_deletions, simple_run_licensed.
  - intros. apply licensed_deletions, hardened_main_licensed.
  - intros. apply licensed_deletions, simple_main_licensed.
Qed.

Lemma removal_guard_witness :
  In (EvRemove "a.txt" true)
     (events (Hardened.handleFileDownload "a.txt" "/data" "out/a.txt" true)
        (Sim.start Worlds.a_present)) /\
  ("a.txt" = "a.txt" /\ true = true /\
   (succeeded (fst (fs_access "out/a.txt" (env (Sim.start Worlds.a_present)))) = true \/
    In (EvDownloadTo "out/a.txt" "a.txt" true)
       (events (Hardened.handleFileDownload "a.txt" "/data" "out/a.txt" true)
          (Sim.start Worlds.a_present)))).
Proof.
  split.
  - vm_compute. auto.
  - apply (proj1 (removal_guard Sim.World Sim.capabilities)) with (ok := true).
    vm_compute. auto.
Defined.

(** C1.  Deletion safety: no file is to be deleted remotely while no
    local copy of it exists.  The hardened revision breaks this.
    [ftpClient.remove] takes a name, which the server resolves in the
    directory the client is in; [handleFileDownload] assumes that this is
    the directory of the entry, and [downloadDirectory] never changes back
    to a directory after it has descended into one of its subdirectories.
    Here [/data] lists [sub] and then [a.txt], and [sub] holds an [a.txt]
    of its own, whose download fails and is logged.  Back in the loop of
    [/data] the script finds [out/a.txt] on the local disk, logs that it
    deletes [/data/a.txt] and calls [remove] on [a.txt] with the client
    still in [/data/sub]: the server deletes [/data/sub/a.txt], of which
    there is no local copy, and [/data/a.txt] stays. *)
Example deletion_without_local_copy :
  events (Hardened.main (Worlds.config true) 1 2) (Strict.start Strict.same_name) =
  [EvLog "Try to connect..."; EvFtpAccess true; EvLog "Success";
   EvLog "Download  /data"; EvCd "/data" true;
   EvList (Some [Sim.dir "sub"; Sim.file "a.txt"]);
   EvExistsSync "out/sub" true;
   EvLog "Download  /data/sub"; EvCd "/data/sub" true;
   EvList (Some [Sim.file "a.txt"]);
   EvFsAccess "out/sub/a.txt" false;
   EvLog "Downloading file a.txt to out/sub/a.txt...";
   EvDownloadTo "out/sub/a.txt" "a.txt" false;
   EvError "Error downloading file a.txt to out/sub/a.txt: 426 Transfer aborted.";
   EvFsAccess "out/a.txt" true;
   EvLog "Deleting remote file: /data/a.txt";
   EvRemove "a.txt" true;
   EvFtpClose]
  /\
  Sim.cwd (Strict.base (env (final (Hardened.main (Worlds.config true) 1 2)
                               (Strict.start Strict.same_name)))) = "/data/sub"
  /\
  Sim.remote (Strict.base (env (final (Hardened.main (Worlds.config true) 1 2)
                                  (Strict.start Strict.same_name)))) =
  [("/data", [Sim.dir "sub"; Sim.file "a.txt"]); ("/data/sub", [])]
  /\
  Sim.local_files (Strict.base (env (final (Hardened.main (Worlds.config true) 1 2)
                                       (Strict.start Strict.same_name)))) =
  ["out/a.txt"].
Proof. vm_compute. repeat split; reflexivity. Qed.

(** * One entry of a listing at a time *)

Section Loop.
Context {E : Type} `{Capabilities E}.

Lemma forOf_cons_done : forall A (body : A -> M E unit) item rest st st1 evs,
    body item st = (Done tt, st1, evs) ->
    forOf (item :: rest) body st = prefixed evs (forOf rest body st1).
Proof.
  intros A body item rest st st1 evs Hb. simpl. unfold bind. rewrite Hb.
  unfold prefixed. reflexivity.
Qed.

Lemma forOf_cons_raised : forall A (body : A -> M E unit) item rest st st1 evs err,
    body item st = (Raised err, st1, evs) ->
    forOf (item :: rest) body st = (Raised err, st1, evs).
Proof.
  intros A body item rest st st1 evs err Hb. simpl. unfold bind. rewrite Hb.
  reflexivity.
Qed.

Lemma hardened_item_file : forall config self remoteDir localDir item,
    type item = File ->
    Hardened.downloadDirectory_item config self remoteDir localDir item =
    Hardened.handleFileDownload (name item) remoteDir (path_join localDir (name item))
      (Hardened.deleteRemoteFiles config).
Proof.
  intros config self remoteDir localDir item Ht.
  unfold Hardened.downloadDirectory_item, isDirectory, isFile. rewrite Ht. reflexivity.
Qed.

Lemma simple_item_file : forall self remoteDir localDir item,
    isDirectory item = false ->
    Simple.downloadDirectory_item self remoteDir localDir item =
    Simple.downloadDirectory_file localDir item.
Proof.
  intros self remoteDir localDir item Hd.
  unfold Simple.downloadDirectory_item. rewrite Hd. reflexivity.
Qed.

(** [handleFileDownload] catches whatever its calls throw. *)
Lemma handleFileDownload_returns : forall remoteFileName dir lp del (st : St E),
    outcome (Hardened.handleFileDownload remoteFileName dir lp del) st = Done tt.
Proof.
  intros remoteFileName dir lp del st.
  destruct del; js_cases; repeat match goal with u : unit |- _ => destruct u end;
    reflexivity.
Qed.

(** The simple revision up to its loop: a non-empty listing. *)
Lemma simple_body_enter : forall self remoteDir localDir remoteEmpty (st : St E)
    e1 item rest e2,
    ftp_cd remoteDir (env st) = (Ok tt, e1) ->
    ftp_list e1 = (Ok (item :: rest), e2) ->
    Simple.downloadDirectory_body self remoteDir localDir remoteEmpty st =
    prefixed
      [EvLog ("Download " ++ " " ++ remoteDir);
       EvCd remoteDir true;
       EvList (Some (item :: rest));
       EvLog (("Files in " ++ remoteDir ++ " : ") ++ " "
              ++ string_of_nat (List.length (item :: rest)))]
      (forOf (item :: rest) (Simple.downloadDirectory_item self remoteDir localDir)
         (mkSt e2 (rl st))).
Proof.
  intros self remoteDir localDir remoteEmpty st e1 item rest e2 Hcd Hls.
  js_red. js_step Hcd. js_step Hls. cbn [List.length Nat.eqb].
  destruct (forOf _ _ _) as [[o s] ev]. destruct o; reflexivity.
Qed.

(** The hardened revision up to its loop: a non-empty listing. *)
Lemma hardened_body_enter : forall config self remoteDir localDir remoteEmpty (st : St E)
    e1 item rest e2,
    ftp_cd remoteDir (env st) = (Ok tt, e1) ->
    ftp_list e1 = (Ok (item :: rest), e2) ->
    Hardened.downloadDirectory_body config self remoteDir localDir remoteEmpty st =
    prefixed
      [EvLog ("Download " ++ " " ++ remoteDir);
       EvCd remoteDir true;
       EvList (Some (item :: rest))]
      (forOf (item :: rest) (Hardened.downloadDirectory_item config self remoteDir localDir)
         (mkSt e2 (rl st))).
Proof.
  intros config self remoteDir localDir remoteEmpty st e1 item rest e2 Hcd Hls.
  js_red. js_step Hcd. js_step Hls. cbn [List.length Nat.eqb].
  destruct (forOf _ _ _) as [[o s] ev]. destruct o; reflexivity.
Qed.
End Loop.

(** * What a failed download does *)

Section FetchFailure.
Context {E : Type} `{Capabilities E}.

Lemma hardened_fetch_failure : forall remoteFileName dir lp del (st : St E) err0 e1 err e2,
    fs_access lp (env st) = (Throw err0, e1) ->
    ftp_downloadTo lp remoteFileName e1 = (Throw err, e2) ->
    Hardened.handleFileDownload remoteFileName dir lp del st =
    (Done tt, mkSt e2 (rl st),
     [EvFsAccess lp false;
      EvLog ("Downloading file " ++ remoteFileName ++ " to " ++ lp ++ "...");
      EvDownloadTo lp remoteFileName false;
      EvError (("Error downloading file " ++ remoteFileName ++ " to " ++ lp ++ ":")
               ++ " " ++ message err)]).
Proof.
  intros remoteFileName dir lp del st err0 e1 err e2 Hacc Hget.
  js_red. js_step Hacc. js_step Hget. reflexivity.
Qed.

Lemma simple_fetch_failure : forall localDir item (st : St E) err0 e1 err e2,
    fs_access (replaceAll "/"%char "\"%char (localDir ++ "/" ++ name item)) (env st)
    = (Throw err0, e1) ->
    ftp_downloadTo (localDir ++ "/" ++ name item) (name item) e1 = (Throw err, e2) ->
    Simple.downloadDirectory_file localDir item st =
    (Raised err, mkSt e2 (rl st),
     [EvFsAccess (replaceAll "/"%char "\"%char (localDir ++ "/" ++ name item)) false;
      EvDownloadTo (localDir ++ "/" ++ name item) (name item) false]).
Proof.
  intros localDir item st err0 e1 err e2 Hacc Hget.
  js_red. js_step Hacc. js_step Hget. reflexivity.
Qed.
End FetchFailure.

(** C2, as the code has it.  In the hardened revision, when the probe of
    the local path fails and the download fails, [handleFileDownload] logs
    the error and returns: the failed download is its last call, so no
    remote deletion is attempted and the world is left as the failed
    download left it, a partial local file included, and the loop of
    [downloadDirectory] goes on with the remaining entries.  What a later
    invocation does with the file depends on its probe alone: when the
    local path is still absent the download is attempted again; when a
    local file is found there, nothing is downloaded and, with
    [deleteRemote] set, the remote name is removed.  In the simple
    revision the download is not guarded: its failure leaves
    [downloadDirectory] as an exception, no deletion is attempted and the
    remaining entries are not processed. *)
Theorem fetch_failure_scope : forall (E : Type) (C : Capabilities E),
    (forall remoteFileName dir lp del (st : St E) err0 e1 err e2,
        fs_access lp (env st) = (Throw err0, e1) ->
        ftp_downloadTo lp remoteFileName e1 = (Throw err, e2) ->
        Hardened.handleFileDownload remoteFileName dir lp del st =
        (Done tt, mkSt e2 (rl st),
         [EvFsAccess lp false;
          EvLog ("Downloading file " ++ remoteFileName ++ " to " ++ lp ++ "...");
          EvDownloadTo lp remoteFileName false;
          EvError (("Error downloading file " ++ remoteFileName ++ " to " ++ lp ++ ":")
                   ++ " " ++ message err)]))
    /\
    (forall config self remoteDir localDir item rest (st : St E) err0 e1 err e2,
        type item = File ->
        fs_access (path_join localDir (name item)) (env st) = (Throw err0, e1) ->
        ftp_downloadTo (path_join localDir (name item)) (name item) e1 = (Throw err, e2) ->
        forOf (item :: rest)
          (Hardened.downloadDirectory_item config self remoteDir localDir) st =
        prefixed
          [EvFsAccess (path_join localDir (name item)) false;
           EvLog ("Downloading file " ++ name item ++ " to "
                  ++ path_join localDir (name item) ++ "...");
           EvDownloadTo (path_join localDir (name item)) (name item) false;
           EvError (("Error downloading file " ++ name item ++ " to "
                     ++ path_join localDir (name item) ++ ":")
                    ++ " " ++ message err)]
          (forOf rest (Hardened.downloadDirectory_item config self remoteDir localDir)
             (mkSt e2 (rl st))))
    /\
    (forall remoteFileName dir lp del (st : St E) err0 e1,
        fs_access lp (env st) = (Throw err0, e1) ->
        exists tail,
          events (Hardened.handleFileDownload remoteFileName dir lp del) st =
          EvFsAccess lp false
          :: EvLog ("Downloading file " ++ remoteFileName ++ " to " ++ lp ++ "...")
          :: EvDownloadTo lp remoteFileName
               (succeeded (fst (ftp_downloadTo lp remoteFileName e1)))
          :: tail)
    /\
    (forall remoteFileName dir lp del (st : St E) e1,
        fs_access lp (env st) = (Ok tt, e1) ->
        existsb is_download
          (events (Hardened.handleFileDownload remoteFileName dir lp del) st) = false /\
        exists tail,
          events (Hardened.handleFileDownload remoteFileName dir lp true) st =
          EvFsAccess lp true
          :: EvLog ("Deleting remote file:" ++ " " ++ path_posix_join dir remoteFileName)
          :: EvRemove remoteFileName (succeeded (fst (ftp_remove remoteFileName e1)))
          :: tail)
    /\
    (forall self remoteDir localDir remoteEmpty item rest (st : St E)
            e1 e2 err0 e3 err e4,
        isDirectory item = false ->
        ftp_cd remoteDir (env st) = (Ok tt, e1) ->
        ftp_list e1 = (Ok (item :: rest), e2) ->
        fs_access (replaceAll "/"%char "\"%char (localDir ++ "/" ++ name item)) e2
        = (Throw err0, e3) ->
        ftp_downloadTo (localDir ++ "/" ++ name item) (name item) e3 = (Throw err, e4) ->
        Simple.downloadDirectory_body self remoteDir localDir remoteEmpty st =
        (Raised err, mkSt e4 (rl st),
         [EvLog ("Download " ++ " " ++ remoteDir);
          EvCd remoteDir true;
          EvList (Some (item :: rest));
          EvLog (("Files in " ++ remoteDir ++ " : ") ++ " "
                 ++ string_of_nat (List.length (item :: rest)));
          EvFsAccess (replaceAll "/"%char "\"%char (localDir ++ "/" ++ name item)) false;
          EvDownloadTo (localDir ++ "/" ++ name item) (name item) false])).
Proof.
  intros E C. split; [ | split; [ | split; [ | split ] ] ].
  - apply hardened_fetch_failure.
  - intros config self remoteDir localDir item rest st err0 e1 err e2 Ht Hacc Hget.
    apply forOf_cons_done. rewrite hardened_item_file by assumption.
    apply (hardened_fetch_failure _ _ _ _ _ _ _ _ _ Hacc Hget).
  - intros remoteFileName dir lp del st err0 e1 Hacc.
    js_red. js_step Hacc.
    destruct (ftp_downloadTo lp remoteFileName e1) as [[[] | err] e2]; js_red;
      [ destruct del; js_cases | ]; eexists; reflexivity.
  - intros remoteFileName dir lp del st e1 Hacc. split.
    + js_red. js_step Hacc. destruct del; js_cases; reflexivity.
    + js_red. js_step Hacc.
      destruct (ftp_remove remoteFileName e1) as [[[] | err] e2]; js_red;
        eexists; reflexivity.
  - intros self remoteDir localDir remoteEmpty item rest st e1 e2 err0 e3 err e4
           Hd Hcd Hls Hacc Hget.
    rewrite (simple_body_enter _ _ _ _ _ _ _ _ _ Hcd Hls).
    rewrite (forOf_cons_raised _ _ item rest (mkSt e2 (rl st)) (mkSt e4 (rl st))
               [EvFsAccess (replaceAll "/"%char "\"%char (localDir ++ "/" ++ name item)) false;
                EvDownloadTo (localDir ++ "/" ++ name item) (name item) false] err).
    + reflexivity.
    + rewrite simple_item_file by assumption.
      apply (simple_fetch_failure _ _ (mkSt e2 (rl st)) _ _ _ _ Hacc Hget).
Qed.

Lemma fetch_failure_scope_witness :
  Hardened.handleFileDownload "a.txt" "/data" "out/a.txt" true
    (Sim.start Worlds.fetch_fails) =
  (Done tt, Sim.start Worlds.fetch_fails,
   [EvFsAccess "out/a.txt" false;
    EvLog "Downloading file a.txt to out/a.txt...";
    EvDownloadTo "out/a.txt" "a.txt" false;
    EvError "Error downloading file a.txt to out/a.txt: 426 Transfer aborted."])
  /\
  forOf [Sim.file "a.txt"; Sim.file "b.txt"]
    (Hardened.downloadDirectory_item (Worlds.config true) (fun _ _ _ => ret tt)
       "/data" "out")
    (Sim.start Worlds.fetch_fails) =
  prefixed
    [EvFsAccess "out/a.txt" false;
     EvLog "Downloading file a.txt to out/a.txt...";
     EvDownloadTo "out/a.txt" "a.txt" false;
     EvError "Error downloading file a.txt to out/a.txt: 426 Transfer aborted."]
    (forOf [Sim.file "b.txt"]
       (Hardened.downloadDirectory_item (Worlds.config true) (fun _ _ _ => ret tt)
          "/data" "out")
       (Sim.start Worlds.fetch_fails))
  /\
  Simple.downloadDirectory_body (fun _ _ _ => ret tt) "/data" "out" false
    (Sim.start Worlds.fetch_fails) =
  (Raised (mkError "426 Transfer aborted."),
   Sim.start (Sim.set_cwd "/data" Worlds.fetch_fails),
   [EvLog "Download  /data";
    EvCd "/data" true;
    EvList (Some [Sim.file "a.txt"; Sim.file "b.txt"]);
    EvLog "Files in /data :  2";
    EvFsAccess "out\a.txt" false;
    EvDownloadTo "out/a.txt" "a.txt" false])
  /\
  (exists tail,
      events (Hardened.handleFileDownload "a.txt" "/data" "out/a.txt" true)
        (Sim.start Worlds.fetch_fails) =
      EvFsAccess "out/a.txt" false
      :: EvLog "Downloading file a.txt to out/a.txt..."
      :: EvDownloadTo "out/a.txt" "a.txt" false
      :: tail)
  /\
  existsb is_download
    (events (Hardened.handleFileDownload "a.txt" "/data" "out/a.txt" true)
       (final (Hardened.main (Worlds.config true) 1 1)
          (Strict.start Strict.breaks_off))) = false
  /\
  (exists tail,
      events (Hardened.handleFileDownload "a.txt" "/data" "out/a.txt" true)
        (final (Hardened.main (Worlds.config true) 1 1)
           (Strict.start Strict.breaks_off)) =
      EvFsAccess "out/a.txt" true
      :: EvLog "Deleting remote file: /data/a.txt"
      :: EvRemove "a.txt" true
      :: tail).
Proof.
  destruct (fetch_failure_scope Sim.World Sim.capabilities)
    as (Hone & Hloop & Hretry & _ & Hsimple).
  destruct (fetch_failure_scope Strict.World Strict.capabilities)
    as (_ & _ & _ & Hfound & _).
  assert (Hprobe :
            fs_access "out/a.txt"
              (env (final (Hardened.main (Worlds.config true) 1 1)
                      (Strict.start Strict.breaks_off))) =
            (Ok tt, env (final (Hardened.main (Worlds.config true) 1 1)
                           (Strict.start Strict.breaks_off))))
    by (vm_compute; reflexivity).
  split; [ | split; [ | split; [ | split ] ] ];
    [ | | | apply (Hretry "a.txt" "/data" "out/a.txt" true (Sim.start Worlds.fetch_fails)
                     (mkError "ENOENT: no such file or directory") Worlds.fetch_fails);
            reflexivity
      | destruct (Hfound "a.txt" "/data" "out/a.txt" true
                    (final (Hardened.main (Worlds.config true) 1 1)
                       (Strict.start Strict.breaks_off))
                    (env (final (Hardened.main (Worlds.config true) 1 1)
                            (Strict.start Strict.breaks_off)))
                    Hprobe) as [Hnone [tail Htail]];
          split; [ exact Hnone | exists tail; exact Htail ] ].
  - apply (Hone "a.txt" "/data" "out/a.txt" true (Sim.start Worlds.fetch_fails)
             (mkError "ENOENT: no such file or directory") Worlds.fetch_fails
             (mkError "426 Transfer aborted.") Worlds.fetch_fails); reflexivity.
  - apply (Hloop (Worlds.config true) (fun _ _ _ => ret tt) "/data" "out"
             (Sim.file "a.txt") [Sim.file "b.txt"] (Sim.start Worlds.fetch_fails)
             (mkError "ENOENT: no such file or directory") Worlds.fetch_fails
             (mkError "426 Transfer aborted.") Worlds.fetch_fails); reflexivity.
  - apply (Hsimple (fun _ _ _ => ret tt) "/data" "out" false
             (Sim.file "a.txt") [Sim.file "b.txt"] (Sim.start Worlds.fetch_fails)
             (Sim.set_cwd "/data" Worlds.fetch_fails)
             (Sim.set_cwd "/data" Worlds.fetch_fails)
             (mkError "ENOENT: no such file or directory")
             (Sim.set_cwd "/data" Worlds.fetch_fails)
             (mkError "426 Transfer aborted.")
             (Sim.set_cwd "/data" Worlds.fetch_fails)); reflexivity.
Defined.

(** C2 fails on the code in two ways.  In the simple revision, with
    [a.txt] and [b.txt] listed and the download of [a.txt] failing, the
    descent ends in the exception and [b.txt] is never looked at.  In the
    hardened revision a transfer that breaks off after data has arrived
    leaves the partial file on the local disk: the run logs the failure
    and ends, [out/a.txt] is there; the next run finds it, downloads
    nothing and deletes [a.txt] on the server. *)
Lemma fetch_failure_not_retried :
  Simple.downloadDirectory 1 "/data" "out" false (Sim.start Worlds.fetch_fails) =
  (Raised (mkError "426 Transfer aborted."),
   Sim.start (Sim.set_cwd "/data" Worlds.fetch_fails),
   [EvLog "Download  /data";
    EvCd "/data" true;
    EvList (Some [Sim.file "a.txt"; Sim.file "b.txt"]);
    EvLog "Files in /data :  2";
    EvFsAccess "out\a.txt" false;
    EvDownloadTo "out/a.txt" "a.txt" false])
  /\
  events (Hardened.main (Worlds.config true) 1 1) (Strict.start Strict.breaks_off) =
  [EvLog "Try to connect..."; EvFtpAccess true; EvLog "Success";
   EvLog "Download  /data"; EvCd "/data" true;
   EvList (Some [Sim.file "a.txt"]);
   EvFsAccess "out/a.txt" false;
   EvLog "Downloading file a.txt to out/a.txt...";
   EvDownloadTo "out/a.txt" "a.txt" false;
   EvError "Error downloading file a.txt to out/a.txt: 426 Failure reading network stream.";
   EvFtpClose]
  /\
  Sim.local_files
    (Strict.base (env (final (Hardened.main (Worlds.config true) 1 1)
                         (Strict.start Strict.breaks_off)))) = ["out/a.txt"]
  /\
  events (Hardened.main (Worlds.config true) 1 1)
    (final (Hardened.main (Worlds.config true) 1 1) (Strict.start Strict.breaks_off)) =
  [EvLog "Try to connect..."; EvFtpAccess true; EvLog "Success";
   EvLog "Download  /data"; EvCd "/data" true;
   EvList (Some [Sim.file "a.txt"]);
   EvFsAccess "out/a.txt" true;
   EvLog "Deleting remote file: /data/a.txt";
   EvRemove "a.txt" true;
   EvFtpClose]
  /\
  Sim.remote
    (Strict.base
       (env (final (Hardened.main (Worlds.config true) 1 1)
               (final (Hardened.main (Worlds.config true) 1 1)
                  (Strict.start Strict.breaks_off))))) = [("/data", [])].
Proof. vm_compute. repeat split; reflexivity. Qed.

(** * What a failed remote deletion does *)

Section RemovalFailure.
Context {E : Type} `{Capabilities E}.

Lemma hardened_removal_failure_present : forall remoteFileName dir lp (st : St E) e1 err e2,
    fs_access lp (env st) = (Ok tt, e1) ->
    ftp_remove remoteFileName e1 = (Throw err, e2) ->
    Hardened.handleFileDownload remoteFileName dir lp true st =
    (Done tt, mkSt e2 (rl st),
     [EvFsAccess lp true;
      EvLog ("Deleting remote file:" ++ " " ++ path_posix_join dir remoteFileName);
      EvRemove remoteFileName false;
      EvError (("Error deleting remote file " ++ path_posix_join dir remoteFileName ++ ":")
               ++ " " ++ message err)]).
Proof.
  intros remoteFileName dir lp st e1 err e2 Hacc Hrm.
  js_red. js_step Hacc. js_step Hrm. reflexivity.
Qed.

Lemma hardened_removal_failure_fetched : forall remoteFileName dir lp (st : St E)
    err0 e1 e2 err e3,
    fs_access lp (env st) = (Throw err0, e1) ->
    ftp_downloadTo lp remoteFileName e1 = (Ok tt, e2) ->
    ftp_remove remoteFileName e2 = (Throw err, e3) ->
    Hardened.handleFileDownload remoteFileName dir lp true st =
    (Done tt, mkSt e3 (rl st),
     [EvFsAccess lp false;
      EvLog ("Downloading file " ++ remoteFileName ++ " to " ++ lp ++ "...");
      EvDownloadTo lp remoteFileName true;
      EvLog ("File " ++ remoteFileName ++ " downloaded successfully to " ++ lp ++ ".");
      EvLog ("Deleting remote file:" ++ " " ++ path_posix_join dir remoteFileName);
      EvRemove remoteFileName false;
      EvError (("Error deleting remote file " ++ path_posix_join dir remoteFileName ++ ":")
               ++ " " ++ message err)]).
Proof.
  intros remoteFileName dir lp st err0 e1 e2 err e3 Hacc Hget Hrm.
  js_red. js_step Hacc. js_step Hget. js_step Hrm. reflexivity.
Qed.

Lemma simple_removal_failure_fetched : forall localDir item (st : St E) err0 e1 e2 err e3,
    fs_access (replaceAll "/"%char "\"%char (localDir ++ "/" ++ name item)) (env st)
    = (Throw err0, e1) ->
    ftp_downloadTo (localDir ++ "/" ++ name item) (name item) e1 = (Ok tt, e2) ->
    ftp_remove (name item) e2 = (Throw err, e3) ->
    Simple.downloadDirectory_file localDir item st =
    (Raised err, mkSt e3 (rl st),
     [EvFsAccess (replaceAll "/"%char "\"%char (localDir ++ "/" ++ name item)) false;
      EvDownloadTo (localDir ++ "/" ++ name item) (name item) true;
      EvLog ("File " ++ name item ++ " downloaded to " ++ (localDir ++ "/" ++ name item));
      EvLog ("Deleting remote file " ++ " " ++ name item);
      EvRemove (name item) false]).
Proof.
  intros localDir item st err0 e1 e2 err e3 Hacc Hget Hrm.
  js_red. js_step Hacc. js_step Hget. js_step Hrm. reflexivity.
Qed.
End RemovalFailure.

(** C3, as the code has it.  In the hardened revision, when
    [ftpClient.remove] fails, in the branch where the file was found
    locally and in the branch after a successful download alike,
    [handleFileDownload] logs the failure and returns: it makes no call
    after the failed removal, so the download is neither undone nor made
    again and the local file is not touched, and the loop of
    [downloadDirectory] goes on with the remaining entries.  In the simple
    revision a removal that fails after a successful download is not
    guarded: the failure leaves [downloadDirectory] as an exception and the
    remaining entries are not processed; nothing is done to the file that
    was downloaded. *)
Theorem removal_failure_scope : forall (E : Type) (C : Capabilities E),
    (forall remoteFileName dir lp (st : St E) e1 err e2,
        fs_access lp (env st) = (Ok tt, e1) ->
        ftp_remove remoteFileName e1 = (Throw err, e2) ->
        Hardened.handleFileDownload remoteFileName dir lp true st =
        (Done tt, mkSt e2 (rl st),
         [EvFsAccess lp true;
          EvLog ("Deleting remote file:" ++ " " ++ path_posix_join dir remoteFileName);
          EvRemove remoteFileName false;
          EvError (("Error deleting remote file "
                    ++ path_posix_join dir remoteFileName ++ ":")
                   ++ " " ++ message err)]))
    /\
    (forall remoteFileName dir lp (st : St E) err0 e1 e2 err e3,
        fs_access lp (env st) = (Throw err0, e1) ->
        ftp_downloadTo lp remoteFileName e1 = (Ok tt, e2) ->
        ftp_remove remoteFileName e2 = (Throw err, e3) ->
        Hardened.handleFileDownload remoteFileName dir lp true st =
        (Done tt, mkSt e3 (rl st),
         [EvFsAccess lp false;
          EvLog ("Downloading file " ++ remoteFileName ++ " to " ++ lp ++ "...");
          EvDownloadTo lp remoteFileName true;
          EvLog ("File " ++ remoteFileName ++ " downloaded successfully to " ++ lp ++ ".");
          EvLog ("Deleting remote file:" ++ " " ++ path_posix_join dir remoteFileName);
          EvRemove remoteFileName false;
          EvError (("Error deleting remote file "
                    ++ path_posix_join dir remoteFileName ++ ":")
                   ++ " " ++ message err)]))
    /\
    (forall config self remoteDir localDir item rest (st : St E) st1 evs,
        type item = File ->
        Hardened.handleFileDownload (name item) remoteDir
          (path_join localDir (name item)) (Hardened.deleteRemoteFiles config) st
        = (Done tt, st1, evs) ->
        forOf (item :: rest)
          (Hardened.downloadDirectory_item config self remoteDir localDir) st =
        prefixed evs
          (forOf rest (Hardened.downloadDirectory_item config self remoteDir localDir)
             st1))
    /\
    (forall self remoteDir localDir remoteEmpty item rest (st : St E)
            e1 e2 err0 e3 e4 err e5,
        isDirectory item = false ->
        ftp_cd remoteDir (env st) = (Ok tt, e1) ->
        ftp_list e1 = (Ok (item :: rest), e2) ->
        fs_access (replaceAll "/"%char "\"%char (localDir ++ "/" ++ name item)) e2
        = (Throw err0, e3) ->
        ftp_downloadTo (localDir ++ "/" ++ name item) (name item) e3 = (Ok tt, e4) ->
        ftp_remove (name item) e4 = (Throw err, e5) ->
        Simple.downloadDirectory_body self remoteDir localDir remoteEmpty st =
        (Raised err, mkSt e5 (rl st),
         [EvLog ("Download " ++ " " ++ remoteDir);
          EvCd remoteDir true;
          EvList (Some (item :: rest));
          EvLog (("Files in " ++ remoteDir ++ " : ") ++ " "
                 ++ string_of_nat (List.length (item :: rest)));
          EvFsAccess (replaceAll "/"%char "\"%char (localDir ++ "/" ++ name item)) false;
          EvDownloadTo (localDir ++ "/" ++ name item) (name item) true;
          EvLog ("File " ++ name item ++ " downloaded to "
                 ++ (localDir ++ "/" ++ name item));
          EvLog ("Deleting remote file " ++ " " ++ name item);
          EvRemove (name item) false])).
Proof.
  intros E C. split; [ | split; [ | split ] ].
  - apply hardened_removal_failure_present.
  - apply hardened_removal_failure_fetched.
  - intros config self remoteDir localDir item rest st st1 evs Ht Hone.
    apply forOf_cons_done. rewrite hardened_item_file by assumption. exact Hone.
  - intros self remoteDir localDir remoteEmpty item rest st e1 e2 err0 e3 e4 err e5
           Hd Hcd Hls Hacc Hget Hrm.
    rewrite (simple_body_enter _ _ _ _ _ _ _ _ _ Hcd Hls).
    rewrite (forOf_cons_raised _ _ item rest (mkSt e2 (rl st)) (mkSt e5 (rl st))
               [EvFsAccess (replaceAll "/"%char "\"%char (localDir ++ "/" ++ name item)) false;
                EvDownloadTo (localDir ++ "/" ++ name item) (name item) true;
                EvLog ("File " ++ name item ++ " downloaded to "
                       ++ (localDir ++ "/" ++ name item));
                EvLog ("Deleting remote file " ++ " " ++ name item);
                EvRemove (name item) false] err).
    + reflexivity.
    + rewrite simple_item_file by assumption.
      apply (simple_removal_failure_fetched _ _ (mkSt e2 (rl st)) _ _ _ _ _
               Hacc Hget Hrm).
Qed.

Lemma removal_failure_scope_witness :
  Hardened.handleFileDownload "a.txt" "/data" "out/a.txt" true
    (Sim.start (Sim.set_local_files ["out/a.txt"] Worlds.remove_fails)) =
  (Done tt, Sim.start (Sim.set_local_files ["out/a.txt"] Worlds.remove_fails),
   [EvFsAccess "out/a.txt" true;
    EvLog "Deleting remote file: /data/a.txt";
    EvRemove "a.txt" false;
    EvError "Error deleting remote file /data/a.txt: 550 Delete operation failed."])
  /\
  Hardened.handleFileDownload "a.txt" "/data" "out/a.txt" true
    (Sim.start Worlds.remove_fails) =
  (Done tt, Sim.start (Sim.set_local_files ["out/a.txt"] Worlds.remove_fails),
   [EvFsAccess "out/a.txt" false;
    EvLog "Downloading file a.txt to out/a.txt...";
    EvDownloadTo "out/a.txt" "a.txt" true;
    EvLog "File a.txt downloaded successfully to out/a.txt.";
    EvLog "Deleting remote file: /data/a.txt";
    EvRemove "a.txt" false;
    EvError "Error deleting remote file /data/a.txt: 550 Delete operation failed."])
  /\
  forOf [Sim.file "a.txt"; Sim.file "b.txt"]
    (Hardened.downloadDirectory_item (Worlds.config true) (fun _ _ _ => ret tt)
       "/data" "out")
    (Sim.start Worlds.remove_fails) =
  prefixed
    [EvFsAccess "out/a.txt" false;
     EvLog "Downloading file a.txt to out/a.txt...";
     EvDownloadTo "out/a.txt" "a.txt" true;
     EvLog "File a.txt downloaded successfully to out/a.txt.";
     EvLog "Deleting remote file: /data/a.txt";
     EvRemove "a.txt" false;
     EvError "Error deleting remote file /data/a.txt: 550 Delete operation failed."]
    (forOf [Sim.file "b.txt"]
       (Hardened.downloadDirectory_item (Worlds.config true) (fun _ _ _ => ret tt)
          "/data" "out")
       (Sim.start (Sim.set_local_files ["out/a.txt"] Worlds.remove_fails)))
  /\
  Simple.downloadDirectory_body (fun _ _ _ => ret tt) "/data" "out" false
    (Sim.start Worlds.remove_fails) =
  (Raised (mkError "550 Delete operation failed."),
   Sim.start (Sim.set_local_files ["out/a.txt"] (Sim.set_cwd "/data" Worlds.remove_fails)),
   [EvLog "Download  /data";
    EvCd "/data" true;
    EvList (Some [Sim.file "a.txt"; Sim.file "b.txt"]);
    EvLog "Files in /data :  2";
    EvFsAccess "out\a.txt" false;
    EvDownloadTo "out/a.txt" "a.txt" true;
    EvLog "File a.txt downloaded to out/a.txt";
    EvLog "Deleting remote file  a.txt";
    EvRemove "a.txt" false]).
Proof.
  destruct (removal_failure_scope Sim.World Sim.capabilities)
    as (Hpresent & Hfetched & Hloop & Hsimple).
  split; [ | split; [ | split ] ].
  - apply (Hpresent "a.txt" "/data" "out/a.txt"
             (Sim.start (Sim.set_local_files ["out/a.txt"] Worlds.remove_fails))
             (Sim.set_local_files ["out/a.txt"] Worlds.remove_fails)
             (mkError "550 Delete operation failed.")
             (Sim.set_local_files ["out/a.txt"] Worlds.remove_fails)); reflexivity.
  - apply (Hfetched "a.txt" "/data" "out/a.txt" (Sim.start Worlds.remove_fails)
             (mkError "ENOENT: no such file or directory") Worlds.remove_fails
             (Sim.set_local_files ["out/a.txt"] Worlds.remove_fails)
             (mkError "550 Delete operation failed.")
             (Sim.set_local_files ["out/a.txt"] Worlds.remove_fails)); reflexivity.
  - apply (Hloop (Worlds.config true) (fun _ _ _ => ret tt) "/data" "out"
             (Sim.file "a.txt") [Sim.file "b.txt"] (Sim.start Worlds.remove_fails));
      reflexivity.
  - apply (Hsimple (fun _ _ _ => ret tt) "/data" "out" false
             (Sim.file "a.txt") [Sim.file "b.txt"] (Sim.start Worlds.remove_fails)
             (Sim.set_cwd "/data" Worlds.remove_fails)
             (Sim.set_cwd "/data" Worlds.remove_fails)
             (mkError "ENOENT: no such file or directory")
             (Sim.set_cwd "/data" Worlds.remove_fails)
             (Sim.set_local_files ["out/a.txt"] (Sim.set_cwd "/data" Worlds.remove_fails))
             (mkError "550 Delete operation failed.")
             (Sim.set_local_files ["out/a.txt"] (Sim.set_cwd "/data" Worlds.remove_fails)));
      reflexivity.
Defined.

(** C3 fails on the simple revision: with [a.txt] and [b.txt] listed and
    the removal of [a.txt] failing after its download, the descent ends in
    the exception and [b.txt] is never looked at. *)
Lemma removal_failure_aborts_simple :
  Simple.downloadDirectory 1 "/data" "out" false (Sim.start Worlds.remove_fails) =
  (Raised (mkError "550 Delete operation failed."),
   Sim.start (Sim.set_local_files ["out/a.txt"] (Sim.set_cwd "/data" Worlds.remove_fails)),
   [EvLog "Download  /data";
    EvCd "/data" true;
    EvList (Some [Sim.file "a.txt"; Sim.file "b.txt"]);
    EvLog "Files in /data :  2";
    EvFsAccess "out\a.txt" false;
    EvDownloadTo "out/a.txt" "a.txt" true;
    EvLog "File a.txt downloaded to out/a.txt";
    EvLog "Deleting remote file  a.txt";
    EvRemove "a.txt" false]).
Proof. vm_compute. reflexivity. Qed.

(** Runs whatever computation the goal is still waiting for, all three ways. *)
Ltac js_split :=
  repeat match goal with
         | |- context [match ?c with pair _ _ => _ end] =>
             lazymatch c with
             | context [match _ with pair _ _ => _ end] => fail
             | _ =>
                 let o := fresh "o" in
                 destruct c as [[o ?] ?]; destruct o; cbv beta iota; cbn [app]
             end
         end.

(** * A directory entry *)

Section DirectoryEntry.
Context {E : Type} `{Capabilities E}.

Lemma hardened_directory_present : forall config self remoteDir localDir item rest (st : St E),
    type item = Directory ->
    fs_existsSync (path_join localDir (name item)) (env st) = true ->
    forOf (item :: rest) (Hardened.downloadDirectory_item config self remoteDir localDir) st =
    prefixed
      [EvExistsSync (path_join localDir (name item)) true]
      ((self (path_posix_join remoteDir (name item)) (path_join localDir (name item)) true ;;
        forOf rest (Hardened.downloadDirectory_item config self remoteDir localDir)) st).
Proof.
  intros config self remoteDir localDir item rest st Ht Hex.
  cbn [forOf]. unfold Hardened.downloadDirectory_item at 1, isDirectory. rewrite Ht.
  unfold bind, existsSync, ret, prefixed. rewrite Hex. cbn [negb app].
  js_split; reflexivity.
Qed.

Lemma hardened_directory_created : forall config self remoteDir localDir item rest
    (st : St E) e1,
    type item = Directory ->
    fs_existsSync (path_join localDir (name item)) (env st) = false ->
    fs_mkdirSync (path_join localDir (name item)) (env st) = (Ok tt, e1) ->
    forOf (item :: rest) (Hardened.downloadDirectory_item config self remoteDir localDir) st =
    prefixed
      [EvExistsSync (path_join localDir (name item)) false;
       EvMkdirSync (path_join localDir (name item)) true]
      ((self (path_posix_join remoteDir (name item)) (path_join localDir (name item)) true ;;
        forOf rest (Hardened.downloadDirectory_item config self remoteDir localDir))
         (mkSt e1 (rl st))).
Proof.
  intros config self remoteDir localDir item rest st e1 Ht Hex Hmk.
  cbn [forOf]. unfold Hardened.downloadDirectory_item at 1, isDirectory. rewrite Ht.
  unfold bind, existsSync, mkdirSync, try_catch, call, ret, prefixed.
  rewrite Hex. cbn [negb env]. rewrite Hmk. cbn [app succeeded].
  js_split; reflexivity.
Qed.

Lemma hardened_directory_refused : forall config self remoteDir localDir item rest
    (st : St E) err e1,
    type item = Directory ->
    fs_existsSync (path_join localDir (name item)) (env st) = false ->
    fs_mkdirSync (path_join localDir (name item)) (env st) = (Throw err, e1) ->
    forOf (item :: rest) (Hardened.downloadDirectory_item config self remoteDir localDir) st =
    prefixed
      [EvExistsSync (path_join localDir (name item)) false;
       EvMkdirSync (path_join localDir (name item)) false;
       EvError (("Error creating local directory " ++ path_join localDir (name item) ++ ":")
                ++ " " ++ message err)]
      (forOf rest (Hardened.downloadDirectory_item config self remoteDir localDir)
         (mkSt e1 (rl st))).
Proof.
  intros config self remoteDir localDir item rest st err e1 Ht Hex Hmk.
  cbn [forOf]. unfold Hardened.downloadDirectory_item at 1, isDirectory. rewrite Ht.
  unfold bind, existsSync, mkdirSync, try_catch, call, ret, prefixed,
    console_error2, emit.
  rewrite Hex. cbn [negb env]. rewrite Hmk. cbn [app succeeded].
  js_split; reflexivity.
Qed.

Lemma simple_directory_refused : forall self remoteDir localDir item (st : St E) err e1,
    isDirectory item = true ->
    fs_existsSync (localDir ++ "/" ++ name item) (env st) = false ->
    fs_mkdirSync (localDir ++ "/" ++ name item) (env st) = (Throw err, e1) ->
    Simple.downloadDirectory_item self remoteDir localDir item st =
    (Raised err, mkSt e1 (rl st),
     [EvExistsSync (localDir ++ "/" ++ name item) false;
      EvMkdirSync (localDir ++ "/" ++ name item) false]).
Proof.
  intros self remoteDir localDir item st err e1 Hd Hex Hmk.
  unfold Simple.downloadDirectory_item. rewrite Hd.
  js_red. rewrite Hex. js_red. js_step Hmk. reflexivity.
Qed.

Lemma simple_directory_present : forall self remoteDir localDir item rest (st : St E),
    isDirectory item = true ->
    fs_existsSync (localDir ++ "/" ++ name item) (env st) = true ->
    forOf (item :: rest) (Simple.downloadDirectory_item self remoteDir localDir) st =
    prefixed
      [EvExistsSync (localDir ++ "/" ++ name item) true]
      ((self (remoteDir ++ "/" ++ name item) (localDir ++ "/" ++ name item) true ;;
        forOf rest (Simple.downloadDirectory_item self remoteDir localDir)) st).
Proof.
  intros self remoteDir localDir item rest st Hd Hex.
  cbn [forOf]. unfold Simple.downloadDirectory_item at 1. rewrite Hd.
  unfold bind, existsSync, ret, prefixed. rewrite Hex. cbn [negb app].
  js_split; reflexivity.
Qed.

Lemma simple_directory_created : forall self remoteDir localDir item rest (st : St E) e1,
    isDirectory item = true ->
    fs_existsSync (localDir ++ "/" ++ name item) (env st) = false ->
    fs_mkdirSync (localDir ++ "/" ++ name item) (env st) = (Ok tt, e1) ->
    forOf (item :: rest) (Simple.downloadDirectory_item self remoteDir localDir) st =
    prefixed
      [EvExistsSync (localDir ++ "/" ++ name item) false;
       EvMkdirSync (localDir ++ "/" ++ name item) true;
       EvLog ("Created local directory:" ++ " " ++ name item)]
      ((self (remoteDir ++ "/" ++ name item) (localDir ++ "/" ++ name item) true ;;
        forOf rest (Simple.downloadDirectory_item self remoteDir localDir))
         (mkSt e1 (rl st))).
Proof.
  intros self remoteDir localDir item rest st e1 Hd Hex Hmk.
  cbn [forOf]. unfold Simple.downloadDirectory_item at 1. rewrite Hd.
  unfold bind, existsSync, mkdirSync, call, ret, prefixed, console_log2, console_log, emit.
  rewrite Hex. cbn [negb env]. rewrite Hmk. cbn [app succeeded].
  js_split; reflexivity.
Qed.

Lemma prefixed_prefixed : forall A (a b : list Event) (r : Outcome A * St E * list Event),
    prefixed a (prefixed b r) = prefixed (a ++ b) r.
Proof.
  intros A a b [[o s] ev]. unfold prefixed. rewrite app_assoc. reflexivity.
Qed.

Lemma hardened_descends_present : forall config depth remoteDir localDir remoteEmpty
    item rest (st : St E) e1 e2,
    type item = Directory ->
    ftp_cd remoteDir (env st) = (Ok tt, e1) ->
    ftp_list e1 = (Ok (item :: rest), e2) ->
    fs_existsSync (path_join localDir (name item)) e2 = true ->
    Hardened.downloadDirectory config (S depth) remoteDir localDir remoteEmpty st =
    prefixed
      [EvLog ("Download " ++ " " ++ remoteDir);
       EvCd remoteDir true;
       EvList (Some (item :: rest));
       EvExistsSync (path_join localDir (name item)) true]
      ((Hardened.downloadDirectory config depth
          (path_posix_join remoteDir (name item)) (path_join localDir (name item)) true ;;
        forOf rest
          (Hardened.downloadDirectory_item config (Hardened.downloadDirectory config depth)
             remoteDir localDir))
         (mkSt e2 (rl st))).
Proof.
  intros config depth remoteDir localDir remoteEmpty item rest st e1 e2 Ht Hcd Hls Hex.
  cbn [Hardened.downloadDirectory].
  rewrite (hardened_body_enter _ _ _ _ _ _ _ _ _ _ Hcd Hls).
  rewrite (hardened_directory_present config _ remoteDir localDir item rest
             (mkSt e2 (rl st)) Ht Hex).
  apply prefixed_prefixed.
Qed.

Lemma hardened_descends_created : forall config depth remoteDir localDir remoteEmpty
    item rest (st : St E) e1 e2 e3,
    type item = Directory ->
    ftp_cd remoteDir (env st) = (Ok tt, e1) ->
    ftp_list e1 = (Ok (item :: rest), e2) ->
    fs_existsSync (path_join localDir (name item)) e2 = false ->
    fs_mkdirSync (path_join localDir (name item)) e2 = (Ok tt, e3) ->
    Hardened.downloadDirectory config (S depth) remoteDir localDir remoteEmpty st =
    prefixed
      [EvLog ("Download " ++ " " ++ remoteDir);
       EvCd remoteDir true;
       EvList (Some (item :: rest));
       EvExistsSync (path_join localDir (name item)) false;
       EvMkdirSync (path_join localDir (name item)) true]
      ((Hardened.downloadDirectory config depth
          (path_posix_join remoteDir (name item)) (path_join localDir (name item)) true ;;
        forOf rest
          (Hardened.downloadDirectory_item config (Hardened.downloadDirectory config depth)
             remoteDir localDir))
         (mkSt e3 (rl st))).
Proof.
  intros config depth remoteDir localDir remoteEmpty item rest st e1 e2 e3
         Ht Hcd Hls Hex Hmk.
  cbn [Hardened.downloadDirectory].
  rewrite (hardened_body_enter _ _ _ _ _ _ _ _ _ _ Hcd Hls).
  rewrite (hardened_directory_created config _ remoteDir localDir item rest
             (mkSt e2 (rl st)) e3 Ht Hex Hmk).
  apply prefixed_prefixed.
Qed.

Lemma simple_descends_present : forall depth remoteDir localDir remoteEmpty
    item rest (st : St E) e1 e2,
    isDirectory item = true ->
    ftp_cd remoteDir (env st) = (Ok tt, e1) ->
    ftp_list e1 = (Ok (item :: rest), e2) ->
    fs_existsSync (localDir ++ "/" ++ name item) e2 = true ->
    Simple.downloadDirectory (S depth) remoteDir localDir remoteEmpty st =
    prefixed
      [EvLog ("Download " ++ " " ++ remoteDir);
       EvCd remoteDir true;
       EvList (Some (item :: rest));
       EvLog (("Files in " ++ remoteDir ++ " : ") ++ " "
              ++ string_of_nat (List.length (item :: rest)));
       EvExistsSync (localDir ++ "/" ++ name item) true]
      ((Simple.downloadDirectory depth
          (remoteDir ++ "/" ++ name item) (localDir ++ "/" ++ name item) true ;;
        forOf rest
          (Simple.downloadDirectory_item (Simple.downloadDirectory depth)
             remoteDir localDir))
         (mkSt e2 (rl st))).
Proof.
  intros depth remoteDir localDir remoteEmpty item rest st e1 e2 Hd Hcd Hls Hex.
  cbn [Simple.downloadDirectory].
  rewrite (simple_body_enter _ _ _ _ _ _ _ _ _ Hcd Hls).
  rewrite (simple_directory_present _ remoteDir localDir item rest
             (mkSt e2 (rl st)) Hd Hex).
  apply prefixed_prefixed.
Qed.

Lemma simple_descends_created : forall depth remoteDir localDir remoteEmpty
    item rest (st : St E) e1 e2 e3,
    isDirectory item = true ->
    ftp_cd remoteDir (env st) = (Ok tt, e1) ->
    ftp_list e1 = (Ok (item :: rest), e2) ->
    fs_existsSync (localDir ++ "/" ++ name item) e2 = false ->
    fs_mkdirSync (localDir ++ "/" ++ name item) e2 = (Ok tt, e3) ->
    Simple.downloadDirectory (S depth) remoteDir localDir remoteEmpty st =
    prefixed
      [EvLog ("Download " ++ " " ++ remoteDir);
       EvCd remoteDir true;
       EvList (Some (item :: rest));
       EvLog (("Files in " ++ remoteDir ++ " : ") ++ " "
              ++ string_of_nat (List.length (item :: rest)));
       EvExistsSync (localDir ++ "/" ++ name item) false;
       EvMkdirSync (localDir ++ "/" ++ name item) true;
       EvLog ("Created local directory:" ++ " " ++ name item)]
      ((Simple.downloadDirectory depth
          (remoteDir ++ "/" ++ name item) (localDir ++ "/" ++ name item) true ;;
        forOf rest
          (Simple.downloadDirectory_item (Simple.downloadDirectory depth)
             remoteDir localDir))
         (mkSt e3 (rl st))).
Proof.
  intros depth remoteDir localDir remoteEmpty item rest st e1 e2 e3 Hd Hcd Hls Hex Hmk.
  cbn [Simple.downloadDirectory].
  rewrite (simple_body_enter _ _ _ _ _ _ _ _ _ Hcd Hls).
  rewrite (simple_directory_created _ remoteDir localDir item rest
             (mkSt e2 (rl st)) e3 Hd Hex Hmk).
  apply prefixed_prefixed.
Qed.
End DirectoryEntry.

(** C8, as the code has it.  For a directory entry both revisions call
    [fs.mkdirSync] only when [fs.existsSync] has answered no: when it has
    answered yes, the descent into the subdirectory comes next with no
    [fs.mkdirSync] in between; when it has answered no, [fs.mkdirSync] is
    called once, and after its success the descent into the subdirectory
    comes next (the simple revision logs the creation first).  In the
    hardened revision a failed creation is logged, [downloadDirectory] is
    not called for that entry and the loop goes on with the remaining
    entries.  In the simple revision the creation is not guarded: its
    failure leaves [downloadDirectory] as an exception, nothing is logged
    and the remaining entries are not processed. *)
Theorem local_directory_scope : forall (E : Type) (C : Capabilities E),
    (forall config self remoteDir localDir item rest (st : St E),
        type item = Directory ->
        fs_existsSync (path_join localDir (name item)) (env st) = true ->
        forOf (item :: rest)
          (Hardened.downloadDirectory_item config self remoteDir localDir) st =
        prefixed
          [EvExistsSync (path_join localDir (name item)) true]
          ((self (path_posix_join remoteDir (name item))
              (path_join localDir (name item)) true ;;
            forOf rest (Hardened.downloadDirectory_item config self remoteDir localDir))
             st))
    /\
    (forall config self remoteDir localDir item rest (st : St E) e1,
        type item = Directory ->
        fs_existsSync (path_join localDir (name item)) (env st) = false ->
        fs_mkdirSync (path_join localDir (name item)) (env st) = (Ok tt, e1) ->
        forOf (item :: rest)
          (Hardened.downloadDirectory_item config self remoteDir localDir) st =
        prefixed
          [EvExistsSync (path_join localDir (name item)) false;
           EvMkdirSync (path_join localDir (name item)) true]
          ((self (path_posix_join remoteDir (name item))
              (path_join localDir (name item)) true ;;
            forOf rest (Hardened.downloadDirectory_item config self remoteDir localDir))
             (mkSt e1 (rl st))))
    /\
    (forall config self remoteDir localDir item rest (st : St E) err e1,
        type item = Directory ->
        fs_existsSync (path_join localDir (name item)) (env st) = false ->
        fs_mkdirSync (path_join localDir (name item)) (env st) = (Throw err, e1) ->
        forOf (item :: rest)
          (Hardened.downloadDirectory_item config self remoteDir localDir) st =
        prefixed
          [EvExistsSync (path_join localDir (name item)) false;
           EvMkdirSync (path_join localDir (name item)) false;
           EvError (("Error creating local directory "
                     ++ path_join localDir (name item) ++ ":")
                    ++ " " ++ message err)]
          (forOf rest (Hardened.downloadDirectory_item config self remoteDir localDir)
             (mkSt e1 (rl st))))
    /\
    (forall self remoteDir localDir remoteEmpty item rest (st : St E) e1 e2 err e3,
        isDirectory item = true ->
        ftp_cd remoteDir (env st) = (Ok tt, e1) ->
        ftp_list e1 = (Ok (item :: rest), e2) ->
        fs_existsSync (localDir ++ "/" ++ name item) e2 = false ->
        fs_mkdirSync (localDir ++ "/" ++ name item) e2 = (Throw err, e3) ->
        Simple.downloadDirectory_body self remoteDir localDir remoteEmpty st =
        (Raised err, mkSt e3 (rl st),
         [EvLog ("Download " ++ " " ++ remoteDir);
          EvCd remoteDir true;
          EvList (Some (item :: rest));
          EvLog (("Files in " ++ remoteDir ++ " : ") ++ " "
                 ++ string_of_nat (List.length (item :: rest)));
          EvExistsSync (localDir ++ "/" ++ name item) false;
          EvMkdirSync (localDir ++ "/" ++ name item) false]))
    /\
    (forall self remoteDir localDir item rest (st : St E),
        isDirectory item = true ->
        fs_existsSync (localDir ++ "/" ++ name item) (env st) = true ->
        forOf (item :: rest) (Simple.downloadDirectory_item self remoteDir localDir) st =
        prefixed
          [EvExistsSync (localDir ++ "/" ++ name item) true]
          ((self (remoteDir ++ "/" ++ name item) (localDir ++ "/" ++ name item) true ;;
            forOf rest (Simple.downloadDirectory_item self remoteDir localDir)) st))
    /\
    (forall self remoteDir localDir item rest (st : St E) e1,
        isDirectory item = true ->
        fs_existsSync (localDir ++ "/" ++ name item) (env st) = false ->
        fs_mkdirSync (localDir ++ "/" ++ name item) (env st) = (Ok tt, e1) ->
        forOf (item :: rest) (Simple.downloadDirectory_item self remoteDir localDir) st =
        prefixed
          [EvExistsSync (localDir ++ "/" ++ name item) false;
           EvMkdirSync (localDir ++ "/" ++ name item) true;
           EvLog ("Created local directory:" ++ " " ++ name item)]
          ((self (remoteDir ++ "/" ++ name item) (localDir ++ "/" ++ name item) true ;;
            forOf rest (Simple.downloadDirectory_item self remoteDir localDir))
             (mkSt e1 (rl st)))).
Proof.
  intros E C. split; [ | split; [ | split; [ | split; [ | split ] ] ] ];
    [ | | | | apply simple_directory_present | apply simple_directory_created ].
  - apply hardened_directory_present.
  - apply hardened_directory_created.
  - apply hardened_directory_refused.
  - intros self remoteDir localDir remoteEmpty item rest st e1 e2 err e3
           Hd Hcd Hls Hex Hmk.
    rewrite (simple_body_enter _ _ _ _ _ _ _ _ _ Hcd Hls).
    rewrite (forOf_cons_raised _ _ item rest (mkSt e2 (rl st)) (mkSt e3 (rl st))
               [EvExistsSync (localDir ++ "/" ++ name item) false;
                EvMkdirSync (localDir ++ "/" ++ name item) false] err).
    + reflexivity.
    + apply (simple_directory_refused _ _ _ _ (mkSt e2 (rl st)) _ _ Hd Hex Hmk).
Qed.

Lemma local_directory_scope_witness :
  forOf [Sim.dir "sub"; Sim.file "b.txt"]
    (Hardened.downloadDirectory_item (Worlds.config true) (fun _ _ _ => ret tt)
       "/data" "out")
    (Sim.start Worlds.sub_refused) =
  prefixed
    [EvExistsSync "out/sub" true]
    (((fun _ _ _ => ret tt) "/data/sub" "out/sub" true ;;
      forOf [Sim.file "b.txt"]
        (Hardened.downloadDirectory_item (Worlds.config true) (fun _ _ _ => ret tt)
           "/data" "out"))
       (Sim.start Worlds.sub_refused))
  /\
  forOf [Sim.dir "sub"]
    (Hardened.downloadDirectory_item (Worlds.config true) (fun _ _ _ => ret tt)
       "/data" "out")
    (Sim.start Sim.blank) =
  prefixed
    [EvExistsSync "out/sub" false; EvMkdirSync "out/sub" true]
    (((fun _ _ _ => ret tt) "/data/sub" "out/sub" true ;;
      forOf []
        (Hardened.downloadDirectory_item (Worlds.config true) (fun _ _ _ => ret tt)
           "/data" "out"))
       (Sim.start (Sim.set_local_dirs ["out/sub"] Sim.blank)))
  /\
  forOf [Sim.dir "sub"; Sim.file "b.txt"]
    (Hardened.downloadDirectory_item (Worlds.config true) (fun _ _ _ => ret tt)
       "/data" "out")
    (Sim.start Worlds.mkdir_fails) =
  prefixed
    [EvExistsSync "out/sub" false;
     EvMkdirSync "out/sub" false;
     EvError "Error creating local directory out/sub: EACCES: permission denied"]
    (forOf [Sim.file "b.txt"]
       (Hardened.downloadDirectory_item (Worlds.config true) (fun _ _ _ => ret tt)
          "/data" "out")
       (Sim.start Worlds.mkdir_fails))
  /\
  Simple.downloadDirectory_body (fun _ _ _ => ret tt) "/data" "out" false
    (Sim.start Worlds.mkdir_fails) =
  (Raised (mkError "EACCES: permission denied"),
   Sim.start (Sim.set_cwd "/data" Worlds.mkdir_fails),
   [EvLog "Download  /data";
    EvCd "/data" true;
    EvList (Some [Sim.dir "sub"; Sim.file "b.txt"]);
    EvLog "Files in /data :  2";
    EvExistsSync "out/sub" false;
    EvMkdirSync "out/sub" false])
  /\
  forOf [Sim.dir "sub"; Sim.file "b.txt"]
    (Simple.downloadDirectory_item (fun _ _ _ => ret tt) "/data" "out")
    (Sim.start Worlds.sub_refused) =
  prefixed
    [EvExistsSync "out/sub" true]
    (((fun _ _ _ => ret tt) "/data/sub" "out/sub" true ;;
      forOf [Sim.file "b.txt"]
        (Simple.downloadDirectory_item (fun _ _ _ => ret tt) "/data" "out"))
       (Sim.start Worlds.sub_refused))
  /\
  forOf [Sim.dir "sub"]
    (Simple.downloadDirectory_item (fun _ _ _ => ret tt) "/data" "out")
    (Sim.start Sim.blank) =
  prefixed
    [EvExistsSync "out/sub" false; EvMkdirSync "out/sub" true;
     EvLog "Created local directory: sub"]
    (((fun _ _ _ => ret tt) "/data/sub" "out/sub" true ;;
      forOf [] (Simple.downloadDirectory_item (fun _ _ _ => ret tt) "/data" "out"))
       (Sim.start (Sim.set_local_dirs ["out/sub"] Sim.blank))).
Proof.
  destruct (local_directory_scope Sim.World Sim.capabilities)
    as (Hpresent & Hcreated & Hrefused & Hsimple & Hthere & Hmade).
  split; [ | split; [ | split; [ | split; [ | split ] ] ] ];
    [ | | |
      | apply (Hthere (fun _ _ _ => ret tt) "/data" "out"
                 (Sim.dir "sub") [Sim.file "b.txt"] (Sim.start Worlds.sub_refused));
          reflexivity
      | apply (Hmade (fun _ _ _ => ret tt) "/data" "out"
                 (Sim.dir "sub") [] (Sim.start Sim.blank)
                 (Sim.set_local_dirs ["out/sub"] Sim.blank));
          reflexivity ].
  - apply (Hpresent (Worlds.config true) (fun _ _ _ => ret tt) "/data" "out"
             (Sim.dir "sub") [Sim.file "b.txt"] (Sim.start Worlds.sub_refused));
      reflexivity.
  - apply (Hcreated (Worlds.config true) (fun _ _ _ => ret tt) "/data" "out"
             (Sim.dir "sub") [] (Sim.start Sim.blank)
             (Sim.set_local_dirs ["out/sub"] Sim.blank)); reflexivity.
  - apply (Hrefused (Worlds.config true) (fun _ _ _ => ret tt) "/data" "out"
             (Sim.dir "sub") [Sim.file "b.txt"] (Sim.start Worlds.mkdir_fails)
             (mkError "EACCES: permission denied") Worlds.mkdir_fails); reflexivity.
  - apply (Hsimple (fun _ _ _ => ret tt) "/data" "out" false
             (Sim.dir "sub") [Sim.file "b.txt"] (Sim.start Worlds.mkdir_fails)
             (Sim.set_cwd "/data" Worlds.mkdir_fails)
             (Sim.set_cwd "/data" Worlds.mkdir_fails)
             (mkError "EACCES: permission denied")
             (Sim.set_cwd "/data" Worlds.mkdir_fails)); reflexivity.
Defined.

(** C8 fails on the simple revision: with the directory [sub] listed before
    [b.txt] and [out/sub] impossible to create, the descent ends in the
    exception, without a log line, and [b.txt] is never looked at. *)
Lemma mkdir_failure_aborts_simple :
  Simple.downloadDirectory 2 "/data" "out" false (Sim.start Worlds.mkdir_fails) =
  (Raised (mkError "EACCES: permission denied"),
   Sim.start (Sim.set_cwd "/data" Worlds.mkdir_fails),
   [EvLog "Download  /data";
    EvCd "/data" true;
    EvList (Some [Sim.dir "sub"; Sim.file "b.txt"]);
    EvLog "Files in /data :  2";
    EvExistsSync "out/sub" false;
    EvMkdirSync "out/sub" false]).
Proof. vm_compute. reflexivity. Qed.

(** * A directory the server refuses to enter *)

Section Navigation.
Context {E : Type} `{Capabilities E}.

Lemma hardened_cd_failure : forall config self remoteDir localDir remoteEmpty
    (st : St E) err e1,
    ftp_cd remoteDir (env st) = (Throw err, e1) ->
    Hardened.downloadDirectory_body config self remoteDir localDir remoteEmpty st =
    (Done tt, mkSt e1 (rl st),
     [EvLog ("Download " ++ " " ++ remoteDir);
      EvCd remoteDir false;
      EvError (("Error changing to remote directory " ++ remoteDir ++ ":")
               ++ " " ++ message err)]).
Proof.
  intros config self remoteDir localDir remoteEmpty st err e1 Hcd.
  js_red. js_step Hcd. reflexivity.
Qed.

Lemma simple_cd_failure : forall self remoteDir localDir remoteEmpty (st : St E) err e1,
    ftp_cd remoteDir (env st) = (Throw err, e1) ->
    Simple.downloadDirectory_body self remoteDir localDir remoteEmpty st =
    (Raised err, mkSt e1 (rl st),
     [EvLog ("Download " ++ " " ++ remoteDir); EvCd remoteDir false]).
Proof.
  intros self remoteDir localDir remoteEmpty st err e1 Hcd.
  js_red. js_step Hcd. reflexivity.
Qed.

Lemma hardened_sibling_continues : forall config depth remoteDir localDir item rest
    (st : St E) err e1,
    type item = Directory ->
    fs_existsSync (path_join localDir (name item)) (env st) = true ->
    ftp_cd (path_posix_join remoteDir (name item)) (env st) = (Throw err, e1) ->
    forOf (item :: rest)
      (Hardened.downloadDirectory_item config
         (Hardened.downloadDirectory config (S depth)) remoteDir localDir) st =
    prefixed
      [EvExistsSync (path_join localDir (name item)) true;
       EvLog ("Download " ++ " " ++ path_posix_join remoteDir (name item));
       EvCd (path_posix_join remoteDir (name item)) false;
       EvError (("Error changing to remote directory "
                 ++ path_posix_join remoteDir (name item) ++ ":")
                ++ " " ++ message err)]
      (forOf rest
         (Hardened.downloadDirectory_item config
            (Hardened.downloadDirectory config (S depth)) remoteDir localDir)
         (mkSt e1 (rl st))).
Proof.
  intros config depth remoteDir localDir item rest st err e1 Ht Hex Hcd.
  rewrite (hardened_directory_present _ _ _ _ _ _ _ Ht Hex).
  unfold bind. cbn [Hardened.downloadDirectory].
  rewrite (hardened_cd_failure _ _ _ _ _ _ _ _ Hcd).
  unfold prefixed. js_split; reflexivity.
Qed.

Lemma simple_sibling_abandoned : forall depth remoteDir localDir item rest
    (st : St E) err e1,
    isDirectory item = true ->
    fs_existsSync (localDir ++ "/" ++ name item) (env st) = true ->
    ftp_cd (remoteDir ++ "/" ++ name item) (env st) = (Throw err, e1) ->
    forOf (item :: rest)
      (Simple.downloadDirectory_item (Simple.downloadDirectory (S depth))
         remoteDir localDir) st =
    (Raised err, mkSt e1 (rl st),
     [EvExistsSync (localDir ++ "/" ++ name item) true;
      EvLog ("Download " ++ " " ++ (remoteDir ++ "/" ++ name item));
      EvCd (remoteDir ++ "/" ++ name item) false]).
Proof.
  intros depth remoteDir localDir item rest st err e1 Hd Hex Hcd.
  apply forOf_cons_raised.
  unfold Simple.downloadDirectory_item. rewrite Hd.
  unfold bind, existsSync, ret. rewrite Hex. cbn [negb app].
  cbn [Simple.downloadDirectory].
  rewrite (simple_cd_failure _ _ _ _ _ _ _ Hcd). reflexivity.
Qed.

Lemma release_only : forall (st : St E),
    outcome (Hardened.closeFtpIfOpen ;; Hardened.closeRlIfOpen) st = Done tt /\
    forallb is_release (events (Hardened.closeFtpIfOpen ;; Hardened.closeRlIfOpen) st)
    = true.
Proof.
  intros [e h]. js_red.
  destruct (ftp_closed e); destruct h; js_red; split; reflexivity.
Qed.

Lemma hardened_try_root_refused : forall config depth (st : St E) e1 err e2,
    ftp_access (env st) = (Ok tt, e1) ->
    ftp_cd (Hardened.cfg_remoteDir config) e1 = (Throw err, e2) ->
    Hardened.main_try config (S depth) st =
    (Done tt, mkSt e2 (rl st),
     [EvLog "Try to connect...";
      EvFtpAccess true;
      EvLog "Success";
      EvLog ("Download " ++ " " ++ Hardened.cfg_remoteDir config);
      EvCd (Hardened.cfg_remoteDir config) false;
      EvError (("Error changing to remote directory "
                ++ Hardened.cfg_remoteDir config ++ ":")
               ++ " " ++ message err)]).
Proof.
  intros config depth st e1 err e2 Hacc Hcd.
  unfold Hardened.main_try, Hardened.main_try_resumed. cbn [Hardened.downloadDirectory].
  js_red. js_step Hacc. js_step Hcd. reflexivity.
Qed.

Lemma hardened_main_root_refused : forall config fuel depth (st : St E) e1 err e2,
    ftp_access (env st) = (Ok tt, e1) ->
    ftp_cd (Hardened.cfg_remoteDir config) e1 = (Throw err, e2) ->
    Hardened.main config (S fuel) (S depth) st =
    prefixed
      [EvLog "Try to connect...";
       EvFtpAccess true;
       EvLog "Success";
       EvLog ("Download " ++ " " ++ Hardened.cfg_remoteDir config);
       EvCd (Hardened.cfg_remoteDir config) false;
       EvError (("Error changing to remote directory "
                 ++ Hardened.cfg_remoteDir config ++ ":")
                ++ " " ++ message err)]
      ((Hardened.closeFtpIfOpen ;; Hardened.closeRlIfOpen) (mkSt e2 (rl st))).
Proof.
  intros config fuel depth st e1 err e2 Hacc Hcd.
  unfold Hardened.main, Hardened.main_around. unfold try_finally, try_catch.
  rewrite (hardened_try_root_refused _ _ _ _ _ _ Hacc Hcd).
  destruct (release_only (mkSt e2 (rl st))) as [Ho _]. unfold outcome in Ho.
  unfold prefixed.
  destruct ((Hardened.closeFtpIfOpen;; Hardened.closeRlIfOpen) _) as [[o s] ev].
  cbn [fst] in Ho. subst o. reflexivity.
Qed.

(** The [catch] of the simple [main]: whatever the [try] block throws, the
    client is closed and the operator is asked. *)
Lemma simple_main_escalates : forall fuel depth (st st1 : St E) err ev1,
    Simple.main_try depth st = (Raised err, st1, ev1) ->
    Simple.main (S fuel) depth st =
    prefixed
      (ev1 ++ [EvError ("Ошибка скачивания > " ++ " " ++ message err); EvFtpClose])
      (try_finally
         (Simple.waitForExit (Some (Simple.again fuel depth)))
         ftpClient_close
         (mkSt (ftp_close (env st1)) (rl st1))).
Proof.
  intros fuel depth st st1 err ev1 Htry.
  unfold Simple.main, Simple.main_around. unfold try_finally at 1, try_catch. rewrite Htry.
  unfold bind at 1. unfold console_error2 at 1, emit at 1.
  unfold bind at 1. unfold ftpClient_close at 1. cbn [env rl].
  unfold try_finally, prefixed.
  destruct (Simple.waitForExit _ _) as [[o s] ev].
  destruct o; cbn [app]; unfold ftpClient_close;
    rewrite <- ?app_assoc; reflexivity.
Qed.
End Navigation.

Lemma releases_ask_nothing : forall tr,
    forallb is_release tr = true -> existsb is_question tr = false.
Proof.
  induction tr as [| ev tr IH]; intros Hr; [ reflexivity | ].
  simpl in Hr. apply andb_true_iff in Hr as [Hev Htr].
  simpl. rewrite (IH Htr). destruct ev; try discriminate Hev; reflexivity.
Qed.

(** C7, as the code has it.  In the hardened revision a failing
    [ftpClient.cd] at the start of [downloadDirectory] is logged and the
    invocation returns, at any depth and with either value of
    [remoteEmpty]: after a subdirectory that cannot be entered the loop of
    the parent goes on with the remaining entries, and when the configured
    root itself cannot be entered [main] ends normally, having released
    its handles, without asking the operator anything.  In the simple
    revision [ftpClient.cd] is not guarded at any depth: its failure leaves
    [downloadDirectory] as an exception, the remaining entries of the
    parent are not processed, and whatever leaves the [try] block of
    [main] as an exception makes [main] close the client and call
    [waitForExit]. *)
Theorem navigation_failure_scope : forall (E : Type) (C : Capabilities E),
    (forall config self remoteDir localDir remoteEmpty (st : St E) err e1,
        ftp_cd remoteDir (env st) = (Throw err, e1) ->
        Hardened.downloadDirectory_body config self remoteDir localDir remoteEmpty st =
        (Done tt, mkSt e1 (rl st),
         [EvLog ("Download " ++ " " ++ remoteDir);
          EvCd remoteDir false;
          EvError (("Error changing to remote directory " ++ remoteDir ++ ":")
                   ++ " " ++ message err)]))
    /\
    (forall config depth remoteDir localDir item rest (st : St E) err e1,
        type item = Directory ->
        fs_existsSync (path_join localDir (name item)) (env st) = true ->
        ftp_cd (path_posix_join remoteDir (name item)) (env st) = (Throw err, e1) ->
        forOf (item :: rest)
          (Hardened.downloadDirectory_item config
             (Hardened.downloadDirectory config (S depth)) remoteDir localDir) st =
        prefixed
          [EvExistsSync (path_join localDir (name item)) true;
           EvLog ("Download " ++ " " ++ path_posix_join remoteDir (name item));
           EvCd (path_posix_join remoteDir (name item)) false;
           EvError (("Error changing to remote directory "
                     ++ path_posix_join remoteDir (name item) ++ ":")
                    ++ " " ++ message err)]
          (forOf rest
             (Hardened.downloadDirectory_item config
                (Hardened.downloadDirectory config (S depth)) remoteDir localDir)
             (mkSt e1 (rl st))))
    /\
    (forall config fuel depth (st : St E) e1 err e2,
        ftp_access (env st) = (Ok tt, e1) ->
        ftp_cd (Hardened.cfg_remoteDir config) e1 = (Throw err, e2) ->
        Hardened.main config (S fuel) (S depth) st =
        prefixed
          [EvLog "Try to connect...";
           EvFtpAccess true;
           EvLog "Success";
           EvLog ("Download " ++ " " ++ Hardened.cfg_remoteDir config);
           EvCd (Hardened.cfg_remoteDir config) false;
           EvError (("Error changing to remote directory "
                     ++ Hardened.cfg_remoteDir config ++ ":")
                    ++ " " ++ message err)]
          ((Hardened.closeFtpIfOpen ;; Hardened.closeRlIfOpen) (mkSt e2 (rl st)))
        /\
        outcome (Hardened.main config (S fuel) (S depth)) st = Done tt /\
        existsb is_question (events (Hardened.main config (S fuel) (S depth)) st) = false)
    /\
    (forall self remoteDir localDir remoteEmpty (st : St E) err e1,
        ftp_cd remoteDir (env st) = (Throw err, e1) ->
        Simple.downloadDirectory_body self remoteDir localDir remoteEmpty st =
        (Raised err, mkSt e1 (rl st),
         [EvLog ("Download " ++ " " ++ remoteDir); EvCd remoteDir false]))
    /\
    (forall depth remoteDir localDir item rest (st : St E) err e1,
        isDirectory item = true ->
        fs_existsSync (localDir ++ "/" ++ name item) (env st) = true ->
        ftp_cd (remoteDir ++ "/" ++ name item) (env st) = (Throw err, e1) ->
        forOf (item :: rest)
          (Simple.downloadDirectory_item (Simple.downloadDirectory (S depth))
             remoteDir localDir) st =
        (Raised err, mkSt e1 (rl st),
         [EvExistsSync (localDir ++ "/" ++ name item) true;
          EvLog ("Download " ++ " " ++ (remoteDir ++ "/" ++ name item));
          EvCd (remoteDir ++ "/" ++ name item) false]))
    /\
    (forall fuel depth (st st1 : St E) err ev1,
        Simple.main_try depth st = (Raised err, st1, ev1) ->
        Simple.main (S fuel) depth st =
        prefixed
          (ev1 ++ [EvError ("Ошибка скачивания > " ++ " " ++ message err); EvFtpClose])
          (try_finally
             (Simple.waitForExit (Some (Simple.again fuel depth)))
             ftpClient_close
             (mkSt (ftp_close (env st1)) (rl st1)))).
Proof.
  intros E C. split; [ | split; [ | split; [ | split; [ | split ] ] ] ].
  - apply hardened_cd_failure.
  - apply hardened_sibling_continues.
  - intros config fuel depth st e1 err e2 Hacc Hcd.
    pose proof (hardened_main_root_refused config fuel depth st e1 err e2 Hacc Hcd)
      as Hmain.
    split; [ exact Hmain | ].
    unfold outcome, events. rewrite Hmain.
    destruct (release_only (mkSt e2 (rl st))) as [Ho Hrel].
    unfold outcome, events in Ho, Hrel. unfold prefixed.
    destruct ((Hardened.closeFtpIfOpen;; Hardened.closeRlIfOpen) _) as [[o s] ev].
    cbn [fst snd] in *. split; [ exact Ho | ].
    cbn [app existsb is_question orb]. apply releases_ask_nothing; assumption.
  - apply simple_cd_failure.
  - apply simple_sibling_abandoned.
  - apply simple_main_escalates.
Qed.

Lemma navigation_failure_scope_witness :
  Hardened.downloadDirectory_body (Worlds.config true) (fun _ _ _ => ret tt)
    "/data" "out" false (Sim.start Worlds.root_missing) =
  (Done tt, Sim.start Worlds.root_missing,
   [EvLog "Download  /data";
    EvCd "/data" false;
    EvError "Error changing to remote directory /data: 550 Failed to change directory."])
  /\
  forOf [Sim.dir "sub"; Sim.file "b.txt"]
    (Hardened.downloadDirectory_item (Worlds.config true)
       (Hardened.downloadDirectory (Worlds.config true) 1) "/data" "out")
    (Sim.start Worlds.sub_refused) =
  prefixed
    [EvExistsSync "out/sub" true;
     EvLog "Download  /data/sub";
     EvCd "/data/sub" false;
     EvError "Error changing to remote directory /data/sub: 550 Failed to change directory."]
    (forOf [Sim.file "b.txt"]
       (Hardened.downloadDirectory_item (Worlds.config true)
          (Hardened.downloadDirectory (Worlds.config true) 1) "/data" "out")
       (Sim.start Worlds.sub_refused))
  /\
  (Hardened.main (Worlds.config true) 1 1 (Sim.start Worlds.root_missing) =
   prefixed
     [EvLog "Try to connect...";
      EvFtpAccess true;
      EvLog "Success";
      EvLog "Download  /data";
      EvCd "/data" false;
      EvError "Error changing to remote directory /data: 550 Failed to change directory."]
     ((Hardened.closeFtpIfOpen ;; Hardened.closeRlIfOpen)
        (Sim.start (Sim.set_connected true Worlds.root_missing)))
   /\
   outcome (Hardened.main (Worlds.config true) 1 1) (Sim.start Worlds.root_missing)
   = Done tt /\
   existsb is_question
     (events (Hardened.main (Worlds.config true) 1 1) (Sim.start Worlds.root_missing))
   = false)
  /\
  Simple.downloadDirectory_body (fun _ _ _ => ret tt) "/data" "out" false
    (Sim.start Worlds.root_missing) =
  (Raised (mkError "550 Failed to change directory."), Sim.start Worlds.root_missing,
   [EvLog "Download  /data"; EvCd "/data" false])
  /\
  forOf [Sim.dir "sub"; Sim.file "b.txt"]
    (Simple.downloadDirectory_item (Simple.downloadDirectory 1) "/data" "out")
    (Sim.start Worlds.sub_refused) =
  (Raised (mkError "550 Failed to change directory."), Sim.start Worlds.sub_refused,
   [EvExistsSync "out/sub" true;
    EvLog "Download  /data/sub";
    EvCd "/data/sub" false])
  /\
  Simple.main 1 1 (Sim.start Worlds.root_missing) =
  prefixed
    ([EvLog "Try to connect...";
      EvFtpAccess true;
      EvLog "Success";
      EvLog "Download  /cam192.168.2.50_001217b8e137";
      EvCd "/cam192.168.2.50_001217b8e137" false]
     ++ [EvError "Ошибка скачивания >  550 Failed to change directory."; EvFtpClose])
    (try_finally
       (Simple.waitForExit (Some (Simple.again 0 1)))
       ftpClient_close
       (Sim.start Worlds.root_missing)).
Proof.
  destruct (navigation_failure_scope Sim.World Sim.capabilities)
    as (Hcd & Hsib & Hroot & Hscd & Hssib & Hsmain).
  split; [ | split; [ | split; [ | split; [ | split ] ] ] ].
  - apply (Hcd (Worlds.config true) (fun _ _ _ => ret tt) "/data" "out" false
             (Sim.start Worlds.root_missing)
             (mkError "550 Failed to change directory.") Worlds.root_missing);
      reflexivity.
  - apply (Hsib (Worlds.config true) 0 "/data" "out" (Sim.dir "sub") [Sim.file "b.txt"]
             (Sim.start Worlds.sub_refused)
             (mkError "550 Failed to change directory.") Worlds.sub_refused);
      reflexivity.
  - apply (Hroot (Worlds.config true) 0 0 (Sim.start Worlds.root_missing)
             (Sim.set_connected true Worlds.root_missing)
             (mkError "550 Failed to change directory.")
             (Sim.set_connected true Worlds.root_missing)); reflexivity.
  - apply (Hscd (fun _ _ _ => ret tt) "/data" "out" false
             (Sim.start Worlds.root_missing)
             (mkError "550 Failed to change directory.") Worlds.root_missing);
      reflexivity.
  - apply (Hssib 0 "/data" "out" (Sim.dir "sub") [Sim.file "b.txt"]
             (Sim.start Worlds.sub_refused)
             (mkError "550 Failed to change directory.") Worlds.sub_refused);
      reflexivity.
  - apply (Hsmain 0 1 (Sim.start Worlds.root_missing)
             (Sim.start (Sim.set_connected true Worlds.root_missing))
             (mkError "550 Failed to change directory.")
             [EvLog "Try to connect...";
              EvFtpAccess true;
              EvLog "Success";
              EvLog "Download  /cam192.168.2.50_001217b8e137";
              EvCd "/cam192.168.2.50_001217b8e137" false]); reflexivity.
Defined.

(** C7 fails on both revisions.  Hardened: when the configured root cannot
    be entered, [main] logs it, closes the client and ends normally; the
    operator is never asked.  Simple: when the subdirectory [sub] cannot be
    entered, the descent into [/data] ends in the exception and [b.txt],
    listed after [sub], is never looked at. *)
Lemma navigation_failure_counterexample :
  Hardened.main (Worlds.config true) 1 1 (Sim.start Worlds.root_missing) =
  (Done tt, Sim.start Worlds.root_missing,
   [EvLog "Try to connect...";
    EvFtpAccess true;
    EvLog "Success";
    EvLog "Download  /data";
    EvCd "/data" false;
    EvError "Error changing to remote directory /data: 550 Failed to change directory.";
    EvFtpClose])
  /\
  Simple.downloadDirectory 2 "/data" "out" false (Sim.start Worlds.sub_refused) =
  (Raised (mkError "550 Failed to change directory."),
   Sim.start (Sim.set_cwd "/data" Worlds.sub_refused),
   [EvLog "Download  /data";
    EvCd "/data" true;
    EvList (Some [Sim.dir "sub"; Sim.file "b.txt"]);
    EvLog "Files in /data :  2";
    EvExistsSync "out/sub" true;
    EvLog "Download  /data/sub";
    EvCd "/data/sub" false]).
Proof. split; vm_compute; reflexivity. Qed.

(** * Empty directories *)

Lemma removes_only_nil : forall Q, removes_only Q [].
Proof. intros Q d ok []. Qed.

Lemma removes_only_app : forall Q a b,
    removes_only Q a -> removes_only Q b -> removes_only Q (a ++ b).
Proof.
  intros Q a b Ha Hb d ok Hin. apply in_app_or in Hin as [Hin | Hin]; eauto.
Qed.

Lemma removes_only_one : forall Q ev, is_removeDir ev = false -> removes_only Q [ev].
Proof.
  intros Q ev Hev d ok [Heq | []]. subst ev. discriminate Hev.
Qed.

Lemma removes_only_weaken : forall (Q1 Q2 : string -> Prop) tr,
    (forall d, Q1 d -> Q2 d) -> removes_only Q1 tr -> removes_only Q2 tr.
Proof. intros Q1 Q2 tr Hq Htr d ok Hin. eauto. Qed.

Lemma below_through_child : forall join dir n d,
    below join (join dir n) d -> below join dir d.
Proof.
  intros join dir n d Hb. induction Hb as [m | d m Hb IH].
  - apply below_deeper, below_child.
  - apply below_deeper, IH.
Qed.

Lemma cleanup_target_child : forall join dir remoteEmpty n d,
    cleanup_target join (join dir n) true d -> cleanup_target join dir remoteEmpty d.
Proof.
  intros join dir remoteEmpty n d [[-> _] | Hb]; right.
  - apply below_child.
  - eapply below_through_child; eassumption.
Qed.

Lemma string_length_app : forall a b : string,
    String.length (a ++ b) = String.length a + String.length b.
Proof.
  induction a as [| c a IH]; intros b; simpl; [ reflexivity | ].
  rewrite IH. reflexivity.
Qed.

Lemma below_slash_longer : forall root d,
    below slash root d -> String.length root < String.length d.
Proof.
  intros root d Hb. induction Hb as [n | d n Hb IH]; unfold slash;
    rewrite !string_length_app; simpl; lia.
Qed.

Lemma below_slash_differs : forall root d, below slash root d -> d <> root.
Proof.
  intros root d Hb ->. apply below_slash_longer in Hb. lia.
Qed.

Section Cleanup.
Context {E : Type} `{Capabilities E}.

Lemma bind_ext : forall A B (m : M E A) (k1 k2 : A -> M E B) st,
    (forall a st', k1 a st' = k2 a st') -> bind m k1 st = bind m k2 st.
Proof.
  intros A B m k1 k2 st Hk. unfold bind.
  destruct (m st) as [[[a | e | ] st1] ev1]; try reflexivity.
  rewrite Hk. reflexivity.
Qed.

Lemma forOf_ext : forall A (b1 b2 : A -> M E unit),
    (forall item st, b1 item st = b2 item st) ->
    forall items st, forOf items b1 st = forOf items b2 st.
Proof.
  intros A b1 b2 Hb. induction items as [| item rest IH]; intros st; simpl.
  - reflexivity.
  - unfold bind. rewrite Hb.
    destruct (b2 item st) as [[[a | e | ] st1] ev1]; try reflexivity.
    rewrite IH. reflexivity.
Qed.

Lemma hardened_item_only_fresh : forall config self1 self2,
    (forall r l st, self1 r l true st = self2 r l true st) ->
    forall remoteDir localDir item (st : St E),
      Hardened.downloadDirectory_item config self1 remoteDir localDir item st =
      Hardened.downloadDirectory_item config self2 remoteDir localDir item st.
Proof.
  intros config self1 self2 Hself remoteDir localDir item st.
  unfold Hardened.downloadDirectory_item.
  destruct (isDirectory item); [ | reflexivity ].
  apply bind_ext; intros found st1. apply bind_ext; intros created st2.
  destruct created; [ apply Hself | reflexivity ].
Qed.

Lemma hardened_body_only_fresh : forall config self1 self2,
    (forall r l st, self1 r l true st = self2 r l true st) ->
    forall remoteDir localDir remoteEmpty (st : St E),
      Hardened.downloadDirectory_body config self1 remoteDir localDir remoteEmpty st =
      Hardened.downloadDirectory_body config self2 remoteDir localDir remoteEmpty st.
Proof.
  intros config self1 self2 Hself remoteDir localDir remoteEmpty st.
  unfold Hardened.downloadDirectory_body.
  apply bind_ext; intros u st1. apply bind_ext; intros entered st2.
  destruct entered; [ | reflexivity ].
  apply bind_ext; intros files st3. apply bind_ext; intros u' st4.
  apply forOf_ext. intros item st5. apply hardened_item_only_fresh; assumption.
Qed.

Lemma simple_item_only_fresh : forall self1 self2,
    (forall r l st, self1 r l true st = self2 r l true st) ->
    forall remoteDir localDir item (st : St E),
      Simple.downloadDirectory_item self1 remoteDir localDir item st =
      Simple.downloadDirectory_item self2 remoteDir localDir item st.
Proof.
  intros self1 self2 Hself remoteDir localDir item st.
  unfold Simple.downloadDirectory_item.
  destruct (isDirectory item); [ | reflexivity ].
  apply bind_ext; intros found st1. apply bind_ext; intros u st2. apply Hself.
Qed.

Lemma simple_body_only_fresh : forall self1 self2,
    (forall r l st, self1 r l true st = self2 r l true st) ->
    forall remoteDir localDir remoteEmpty (st : St E),
      Simple.downloadDirectory_body self1 remoteDir localDir remoteEmpty st =
      Simple.downloadDirectory_body self2 remoteDir localDir remoteEmpty st.
Proof.
  intros self1 self2 Hself remoteDir localDir remoteEmpty st.
  unfold Simple.downloadDirectory_body.
  apply bind_ext; intros u st1. apply bind_ext; intros u0 st2.
  apply bind_ext; intros files st3. apply bind_ext; intros u1 st4.
  apply bind_ext; intros u2 st5.
  apply forOf_ext. intros item st6. apply simple_item_only_fresh; assumption.
Qed.
End Cleanup.

Section EmptyDirectory.
Context {E : Type} `{Capabilities E}.

Lemma hardened_empty_directory : forall config self remoteDir localDir remoteEmpty
    (st : St E) e1 e2,
    ftp_cd remoteDir (env st) = (Ok tt, e1) ->
    ftp_list e1 = (Ok [], e2) ->
    Hardened.downloadDirectory_body config self remoteDir localDir remoteEmpty st =
    if remoteEmpty then
      match ftp_removeDir remoteDir e2 with
      | (Ok _, e3) =>
          (Done tt, mkSt e3 (rl st),
           [EvLog ("Download " ++ " " ++ remoteDir);
            EvCd remoteDir true;
            EvList (Some []);
            EvLog ("Empty dir " ++ " " ++ remoteDir);
            EvRemoveDir remoteDir true])
      | (Throw err, e3) =>
          (Done tt, mkSt e3 (rl st),
           [EvLog ("Download " ++ " " ++ remoteDir);
            EvCd remoteDir true;
            EvList (Some []);
            EvLog ("Empty dir " ++ " " ++ remoteDir);
            EvRemoveDir remoteDir false;
            EvError ("Error removing remote directory:" ++ " " ++ message err)])
      end
    else
      (Done tt, mkSt e2 (rl st),
       [EvLog ("Download " ++ " " ++ remoteDir);
        EvCd remoteDir true;
        EvList (Some []);
        EvLog ("Empty dir " ++ " " ++ remoteDir)]).
Proof.
  intros config self remoteDir localDir remoteEmpty st e1 e2 Hcd Hls.
  js_red. js_step Hcd. js_step Hls. cbn [List.length Nat.eqb forOf].
  destruct remoteEmpty; js_red; [ | reflexivity ].
  destruct (ftp_removeDir remoteDir e2) as [[[] | err] e3]; js_red; reflexivity.
Qed.

Lemma simple_empty_directory : forall self remoteDir localDir remoteEmpty
    (st : St E) e1 e2,
    ftp_cd remoteDir (env st) = (Ok tt, e1) ->
    ftp_list e1 = (Ok [], e2) ->
    Simple.downloadDirectory_body self remoteDir localDir remoteEmpty st =
    if remoteEmpty then
      match ftp_removeDir remoteDir e2 with
      | (Ok _, e3) =>
          (Done tt, mkSt e3 (rl st),
           [EvLog ("Download " ++ " " ++ remoteDir);
            EvCd remoteDir true;
            EvList (Some []);
            EvLog (("Files in " ++ remoteDir ++ " : ") ++ " " ++ string_of_nat 0);
            EvLog ("Empty dir " ++ " " ++ remoteDir);
            EvRemoveDir remoteDir true])
      | (Throw err, e3) =>
          (Raised err, mkSt e3 (rl st),
           [EvLog ("Download " ++ " " ++ remoteDir);
            EvCd remoteDir true;
            EvList (Some []);
            EvLog (("Files in " ++ remoteDir ++ " : ") ++ " " ++ string_of_nat 0);
            EvLog ("Empty dir " ++ " " ++ remoteDir);
            EvRemoveDir remoteDir false])
      end
    else
      (Done tt, mkSt e2 (rl st),
       [EvLog ("Download " ++ " " ++ remoteDir);
        EvCd remoteDir true;
        EvList (Some []);
        EvLog (("Files in " ++ remoteDir ++ " : ") ++ " " ++ string_of_nat 0);
        EvLog ("Empty dir " ++ " " ++ remoteDir)]).
Proof.
  intros self remoteDir localDir remoteEmpty st e1 e2 Hcd Hls.
  js_red. js_step Hcd. js_step Hls. cbn [List.length Nat.eqb forOf].
  destruct remoteEmpty; js_red; [ | reflexivity ].
  destruct (ftp_removeDir remoteDir e2) as [[[] | err] e3]; js_red; reflexivity.
Qed.

(** No file step is an [ftpClient.removeDir]. *)
Lemma handleFileDownload_keeps_directories : forall Q remoteFileName dir lp del (st : St E),
    removes_only Q (events (Hardened.handleFileDownload remoteFileName dir lp del) st).
Proof.
  intros Q remoteFileName dir lp del st.
  pose proof (removes_only_nil Q) as P_nil.
  pose proof (removes_only_app Q) as P_app.
  pose proof (removes_only_one Q) as P_one.
  unfold Hardened.handleFileDownload. closed_by P_nil P_app P_one.
Qed.

Lemma downloadDirectory_file_keeps_directories : forall Q localDir item (st : St E),
    removes_only Q (events (Simple.downloadDirectory_file localDir item) st).
Proof.
  intros Q localDir item st.
  pose proof (removes_only_nil Q) as P_nil.
  pose proof (removes_only_app Q) as P_app.
  pose proof (removes_only_one Q) as P_one.
  unfold Simple.downloadDirectory_file, Simple.DELETE_REMOTE_FILES.
  closed_by P_nil P_app P_one.
Qed.

Lemma hardened_descent_cleanup : forall config depth remoteDir localDir remoteEmpty
    (st : St E),
    removes_only (cleanup_target path_posix_join remoteDir remoteEmpty)
      (events (Hardened.downloadDirectory config depth remoteDir localDir remoteEmpty) st).
Proof.
  intros config. induction depth as [| depth IH];
    intros remoteDir localDir remoteEmpty st; cbn [Hardened.downloadDirectory].
  - apply removes_only_nil.
  - pose proof (removes_only_nil (cleanup_target path_posix_join remoteDir remoteEmpty))
      as P_nil.
    pose proof (removes_only_app (cleanup_target path_posix_join remoteDir remoteEmpty))
      as P_app.
    pose proof (removes_only_one (cleanup_target path_posix_join remoteDir remoteEmpty))
      as P_one.
    unfold Hardened.downloadDirectory_body, Hardened.downloadDirectory_item.
    closed_by P_nil P_app P_one;
      first
        [ solve [ apply (P_one (EvExistsSync _ _)); reflexivity ]
        | solve [ apply handleFileDownload_keeps_directories ]
        | solve [ eapply removes_only_weaken; [ | apply IH ];
                  intros d; apply cleanup_target_child ]
        | intros d ok [Heq | []]; injection Heq as <- _; left; split; reflexivity ].
Qed.

Lemma simple_descent_cleanup : forall depth remoteDir localDir remoteEmpty (st : St E),
    removes_only (cleanup_target slash remoteDir remoteEmpty)
      (events (Simple.downloadDirectory depth remoteDir localDir remoteEmpty) st).
Proof.
  induction depth as [| depth IH];
    intros remoteDir localDir remoteEmpty st; cbn [Simple.downloadDirectory].
  - apply removes_only_nil.
  - pose proof (removes_only_nil (cleanup_target slash remoteDir remoteEmpty)) as P_nil.
    pose proof (removes_only_app (cleanup_target slash remoteDir remoteEmpty)) as P_app.
    pose proof (removes_only_one (cleanup_target slash remoteDir remoteEmpty)) as P_one.
    unfold Simple.downloadDirectory_body, Simple.downloadDirectory_item.
    closed_by P_nil P_app P_one;
      first
        [ solve [ apply (P_one (EvExistsSync _ _)); reflexivity ]
        | solve [ apply downloadDirectory_file_keeps_directories ]
        | solve [ eapply removes_only_weaken; [ | apply IH ];
                  intros d; apply (cleanup_target_child slash) ]
        | intros d ok [Heq | []]; injection Heq as <- _; left; split; reflexivity ].
Qed.
End EmptyDirectory.

Lemma releases_remove_nothing : forall tr,
    forallb is_release tr = true -> existsb is_removeDir tr = false.
Proof.
  induction tr as [| ev tr IH]; intros Hr; [ reflexivity | ].
  simpl in Hr. apply andb_true_iff in Hr as [Hev Htr].
  simpl. rewrite (IH Htr). destruct ev; try discriminate Hev; reflexivity.
Qed.

Section RootCleanup.
Context {E : Type} `{Capabilities E}.

Lemma hardened_main_cleanup : forall config fuel depth (st : St E),
    removes_only (below path_posix_join (Hardened.cfg_remoteDir config))
      (events (Hardened.main config fuel depth) st).
Proof.
  intros config.
  apply (closed_main_from_descent_hardened
           (removes_only (below path_posix_join (Hardened.cfg_remoteDir config)))).
  - apply removes_only_nil.
  - apply removes_only_app.
  - intros ev _ Hev. apply removes_only_one; assumption.
  - intros depth st. eapply removes_only_weaken; [ | apply hardened_descent_cleanup ].
    intros d [[_ Hf] | Hb]; [ discriminate Hf | exact Hb ].
Qed.

Lemma hardened_root_kept : forall config fuel depth (st : St E),
    (forall d, below path_posix_join (Hardened.cfg_remoteDir config) d ->
               d <> Hardened.cfg_remoteDir config) ->
    removes_only (fun d => d <> Hardened.cfg_remoteDir config)
      (events (Hardened.main config fuel depth) st).
Proof.
  intros config fuel depth st Hjoin.
  eapply removes_only_weaken; [ exact Hjoin | apply hardened_main_cleanup ].
Qed.

Lemma simple_root_kept : forall depth remoteDir localDir (st : St E),
    removes_only (fun d => d <> remoteDir)
      (events (Simple.downloadDirectory depth remoteDir localDir false) st).
Proof.
  intros depth remoteDir localDir st.
  eapply removes_only_weaken; [ | apply simple_descent_cleanup ].
  intros d [[_ Hf] | Hb]; [ discriminate Hf | apply below_slash_differs; exact Hb ].
Qed.

Lemma simple_main_cleanup : forall fuel depth (st : St E),
    removes_only (fun d => d <> "/cam192.168.2.50_001217b8e137")
      (events (Simple.main fuel depth) st).
Proof.
  apply (closed_main_from_descent_simple
           (removes_only (fun d => d <> "/cam192.168.2.50_001217b8e137"))).
  - apply removes_only_nil.
  - apply removes_only_app.
  - intros ev _ Hev. apply removes_only_one; assumption.
  - intros depth st. apply simple_root_kept.
Qed.

Lemma hardened_main_empty_root : forall config fuel depth (st : St E) e1 e2 e3,
    ftp_access (env st) = (Ok tt, e1) ->
    ftp_cd (Hardened.cfg_remoteDir config) e1 = (Ok tt, e2) ->
    ftp_list e2 = (Ok [], e3) ->
    outcome (Hardened.main config (S fuel) (S depth)) st = Done tt /\
    existsb is_removeDir (events (Hardened.main config (S fuel) (S depth)) st) = false.
Proof.
  intros config fuel depth st e1 e2 e3 Hacc Hcd Hls.
  assert (Htry : Hardened.main_try config (S depth) st =
                 (Done tt, mkSt e3 (rl st),
                  [EvLog "Try to connect...";
                   EvFtpAccess true;
                   EvLog "Success";
                   EvLog ("Download " ++ " " ++ Hardened.cfg_remoteDir config);
                   EvCd (Hardened.cfg_remoteDir config) true;
                   EvList (Some []);
                   EvLog ("Empty dir " ++ " " ++ Hardened.cfg_remoteDir config)])).
  { unfold Hardened.main_try, Hardened.main_try_resumed. cbn [Hardened.downloadDirectory].
    js_red. js_step Hacc. js_step Hcd. js_step Hls. reflexivity. }
  unfold outcome, events. unfold Hardened.main, Hardened.main_around. unfold try_finally, try_catch.
  rewrite Htry.
  destruct (release_only (mkSt e3 (rl st))) as [Ho Hrel].
  unfold outcome, events in Ho, Hrel.
  destruct ((Hardened.closeFtpIfOpen;; Hardened.closeRlIfOpen) _) as [[o s] ev].
  cbn [fst snd] in *. subst o. cbn [fst snd]. split; [ reflexivity | ].
  cbn [app existsb is_removeDir orb]. apply releases_remove_nothing; assumption.
Qed.

Lemma simple_main_empty_root : forall fuel depth (st : St E) e1 e2 e3,
    ftp_access (env st) = (Ok tt, e1) ->
    ftp_cd "/cam192.168.2.50_001217b8e137" e1 = (Ok tt, e2) ->
    ftp_list e2 = (Ok [], e3) ->
    Simple.main (S fuel) (S depth) st =
    (Done tt, mkSt (ftp_close e3) (rl st),
     [EvLog "Try to connect...";
      EvFtpAccess true;
      EvLog "Success";
      EvLog ("Download " ++ " " ++ "/cam192.168.2.50_001217b8e137");
      EvCd "/cam192.168.2.50_001217b8e137" true;
      EvList (Some []);
      EvLog (("Files in " ++ "/cam192.168.2.50_001217b8e137" ++ " : ") ++ " "
             ++ string_of_nat 0);
      EvLog ("Empty dir " ++ " " ++ "/cam192.168.2.50_001217b8e137");
      EvFtpClose]).
Proof.
  intros fuel depth st e1 e2 e3 Hacc Hcd Hls.
  unfold Simple.main, Simple.main_around. unfold Simple.main_try, Simple.main_try_resumed. cbn [Simple.downloadDirectory].
  js_red. js_step Hacc. js_step Hcd. js_step Hls. reflexivity.
Qed.
End RootCleanup.



(** * The deletion policy *)

Section Policy.
Context {E : Type} `{Capabilities E}.

Lemma no_remove_app : forall a b,
    existsb is_remove a = false -> existsb is_remove b = false ->
    existsb is_remove (a ++ b) = false.
Proof. intros a b Ha Hb. rewrite existsb_app, Ha, Hb. reflexivity. Qed.

Lemma handleFileDownload_keeps : forall remoteFileName dir lp (st : St E),
    existsb is_remove (events (Hardened.handleFileDownload remoteFileName dir lp false) st)
    = false.
Proof. intros. js_cases; reflexivity. Qed.

Lemma hardened_descent_keeps_files : forall config,
    Hardened.deleteRemoteFiles config = false ->
    forall depth remoteDir localDir remoteEmpty (st : St E),
      existsb is_remove
        (events (Hardened.downloadDirectory config depth remoteDir localDir remoteEmpty) st)
      = false.
Proof.
  intros config Hpolicy.
  apply (closed_downloadDirectory_hardened (fun tr => existsb is_remove tr = false)).
  - reflexivity.
  - apply no_remove_app.
  - intros ev Hev _. destruct ev; try discriminate Hev; reflexivity.
  - reflexivity.
  - intros. rewrite Hpolicy. apply handleFileDownload_keeps.
Qed.

Lemma hardened_main_keeps_files : forall config,
    Hardened.deleteRemoteFiles config = false ->
    forall fuel depth (st : St E),
      existsb is_remove (events (Hardened.main config fuel depth) st) = false.
Proof.
  intros config Hpolicy.
  apply (closed_main_hardened (fun tr => existsb is_remove tr = false)).
  - reflexivity.
  - apply no_remove_app.
  - intros ev Hev _. destruct ev; try discriminate Hev; reflexivity.
  - reflexivity.
  - intros. rewrite Hpolicy. apply handleFileDownload_keeps.
Qed.
End Policy.

(** C10.  The removal of empty directories does not depend on the deletion
    policy.  In the hardened revision, whatever [config.json] says, an
    invocation of [downloadDirectory] with [remoteEmpty = true] that enters
    its directory and finds the listing empty calls [ftpClient.removeDir]
    on it, and two configurations give the same result on an empty
    listing; with [deleteRemoteFiles = false] no descent and no [main]
    ever calls [ftpClient.remove].  In the simple revision the removal of
    an empty directory is likewise made without looking at
    [DELETE_REMOTE_FILES]. *)
Theorem directory_cleanup_ignores_policy : forall (E : Type) (C : Capabilities E),
    (forall config depth remoteDir localDir (st : St E) e1 e2,
        ftp_cd remoteDir (env st) = (Ok tt, e1) ->
        ftp_list e1 = (Ok [], e2) ->
        outcome (Hardened.downloadDirectory config (S depth) remoteDir localDir true) st
        = Done tt /\
        In (EvRemoveDir remoteDir (succeeded (fst (ftp_removeDir remoteDir e2))))
           (events (Hardened.downloadDirectory config (S depth) remoteDir localDir true)
              st))
    /\
    (forall config1 config2 self remoteDir localDir remoteEmpty (st : St E) e1 e2,
        ftp_cd remoteDir (env st) = (Ok tt, e1) ->
        ftp_list e1 = (Ok [], e2) ->
        Hardened.downloadDirectory_body config1 self remoteDir localDir remoteEmpty st =
        Hardened.downloadDirectory_body config2 self remoteDir localDir remoteEmpty st)
    /\
    (forall config,
        Hardened.deleteRemoteFiles config = false ->
        forall depth remoteDir localDir remoteEmpty (st : St E),
          existsb is_remove
            (events (Hardened.downloadDirectory config depth remoteDir localDir
                       remoteEmpty) st)
          = false)
    /\
    (forall config,
        Hardened.deleteRemoteFiles config = false ->
        forall fuel depth (st : St E),
          existsb is_remove (events (Hardened.main config fuel depth) st) = false)
    /\
    (forall depth remoteDir localDir (st : St E) e1 e2,
        ftp_cd remoteDir (env st) = (Ok tt, e1) ->
        ftp_list e1 = (Ok [], e2) ->
        In (EvRemoveDir remoteDir (succeeded (fst (ftp_removeDir remoteDir e2))))
           (events (Simple.downloadDirectory (S depth) remoteDir localDir true) st)).
Proof.
  intros E C. split; [ | split; [ | split; [ | split ] ] ].
  - intros config depth remoteDir localDir st e1 e2 Hcd Hls.
    cbn [Hardened.downloadDirectory]. unfold outcome, events.
    rewrite (hardened_empty_directory _ _ _ _ _ _ _ _ Hcd Hls).
    destruct (ftp_removeDir remoteDir e2) as [[[] | err] e3]; simpl; auto 10.
  - intros config1 config2 self remoteDir localDir remoteEmpty st e1 e2 Hcd Hls.
    rewrite !(hardened_empty_directory _ _ _ _ _ _ _ _ Hcd Hls). reflexivity.
  - apply hardened_descent_keeps_files.
  - apply hardened_main_keeps_files.
  - intros depth remoteDir localDir st e1 e2 Hcd Hls.
    cbn [Simple.downloadDirectory]. unfold events.
    rewrite (simple_empty_directory _ _ _ _ _ _ _ Hcd Hls).
    destruct (ftp_removeDir remoteDir e2) as [[[] | err] e3]; simpl; auto 10.
Qed.

Lemma directory_cleanup_ignores_policy_witness :
  (outcome (Hardened.downloadDirectory (Worlds.config false) 1 "/data/empty" "out/empty" true)
     (Sim.start Worlds.scenario) = Done tt /\
   In (EvRemoveDir "/data/empty" true)
      (events (Hardened.downloadDirectory (Worlds.config false) 1
                 "/data/empty" "out/empty" true)
         (Sim.start Worlds.scenario)))
  /\
  Hardened.downloadDirectory_body (Worlds.config false) (fun _ _ _ => ret tt)
    "/data/empty" "out/empty" true (Sim.start Worlds.scenario) =
  Hardened.downloadDirectory_body (Worlds.config true) (fun _ _ _ => ret tt)
    "/data/empty" "out/empty" true (Sim.start Worlds.scenario)
  /\
  existsb is_remove
    (events (Hardened.downloadDirectory (Worlds.config false) 2 "/data" "out" false)
       (Sim.start Worlds.scenario)) = false
  /\
  existsb is_remove
    (events (Hardened.main (Worlds.config false) 1 2) (Sim.start Worlds.scenario)) = false
  /\
  In (EvRemoveDir "/data/empty" true)
     (events (Simple.downloadDirectory 1 "/data/empty" "out/empty" true)
        (Sim.start Worlds.scenario)).
Proof.
  destruct (directory_cleanup_ignores_policy Sim.World Sim.capabilities)
    as (Hfresh & Hsame & Hdescent & Hmain & Sfresh).
  split; [ | split; [ | split; [ | split ] ] ].
  - apply (Hfresh (Worlds.config false) 0 "/data/empty" "out/empty"
             (Sim.start Worlds.scenario)
             (Sim.set_cwd "/data/empty" Worlds.scenario)
             (Sim.set_cwd "/data/empty" Worlds.scenario)); reflexivity.
  - apply (Hsame (Worlds.config false) (Worlds.config true) (fun _ _ _ => ret tt)
             "/data/empty" "out/empty" true (Sim.start Worlds.scenario)
             (Sim.set_cwd "/data/empty" Worlds.scenario)
             (Sim.set_cwd "/data/empty" Worlds.scenario)); reflexivity.
  - apply (Hdescent (Worlds.config false)); reflexivity.
  - apply (Hmain (Worlds.config false)); reflexivity.
  - apply (Sfresh 0 "/data/empty" "out/empty" (Sim.start Worlds.scenario)
             (Sim.set_cwd "/data/empty" Worlds.scenario)
             (Sim.set_cwd "/data/empty" Worlds.scenario)); reflexivity.
Defined.

(** The scenario of the specification with the policy off: [a.txt] is
    fetched and stays on the server, [empty] is created locally and removed
    remotely. *)
Example scenario_policy_off :
  events (Hardened.main (Worlds.config false) 1 2) (Sim.start Worlds.scenario) =
  [EvLog "Try to connect...";
   EvFtpAccess true;
   EvLog "Success";
   EvLog "Download  /data";
   EvCd "/data" true;
   EvList (Some [Sim.file "a.txt"; Sim.dir "empty"]);
   EvFsAccess "out/a.txt" false;
   EvLog "Downloading file a.txt to out/a.txt...";
   EvDownloadTo "out/a.txt" "a.txt" true;
   EvLog "File a.txt downloaded successfully to out/a.txt.";
   EvExistsSync "out/empty" false;
   EvMkdirSync "out/empty" true;
   EvLog "Download  /data/empty";
   EvCd "/data/empty" true;
   EvList (Some []);
   EvLog "Empty dir  /data/empty";
   EvRemoveDir "/data/empty" true;
   EvFtpClose].
Proof. vm_compute. reflexivity. Qed.

(** * The recovery prompt *)

Section Prompt.
Context {E : Type} `{Capabilities E}.

Lemma hardened_waitForExit_answer : forall config cb (st : St E) a e1,
    rl_question Hardened.prompt (env st) = (Ok a, e1) ->
    Hardened.waitForExit config (Some cb) st =
    prefixed (opening (rl st) ++ [EvRlQuestion (Some a)])
      (Hardened.onAnswer config (Some cb) a (mkSt e1 RlOpen)).
Proof.
  intros config cb [e h] a e1 Hq. cbn [env rl] in *.
  destruct h;
    cbv beta iota zeta delta
      [Hardened.waitForExit try_catch bind get_rl set_rl emit question call ret
       prefixed opening];
    cbn [env rl app]; rewrite Hq; cbv beta iota; cbn [env rl app];
    destruct (Hardened.onAnswer _ _ _ _) as [[o s] ev]; reflexivity.
Qed.

Lemma simple_waitForExit_answer : forall cb (st : St E) a e1,
    rl_question Simple.prompt (env st) = (Ok a, e1) ->
    Simple.waitForExit (Some cb) st =
    prefixed [EvRlCreate; EvRlQuestion (Some a); EvRlClose]
      (Simple.onAnswer (Some cb) a (mkSt e1 (rl st))).
Proof.
  intros cb st a e1 Hq.
  cbv beta iota zeta delta
    [Simple.waitForExit try_catch bind emit question call ret prefixed];
    cbn [env rl app]; rewrite Hq; cbv beta iota; cbn [env rl app].
  destruct (Simple.onAnswer _ _ _) as [[o s] ev]. destruct o; reflexivity.
Qed.

Lemma in_bind_first : forall A B (m : M E A) (k : A -> M E B) st ev,
    In ev (events m st) -> In ev (events (bind m k) st).
Proof.
  intros A B m k st ev Hin. unfold events, bind in *.
  destruct (m st) as [[[a | e | ] st1] ev1]; cbn [snd] in *; try assumption.
  destruct (k a st1) as [[o2 st2] ev2]. cbn [snd]. apply in_or_app. left. assumption.
Qed.

Lemma in_bind_second : forall A B (m : M E A) (k : A -> M E B) st a ev,
    outcome m st = Done a ->
    In ev (events (k a) (final m st)) -> In ev (events (bind m k) st).
Proof.
  intros A B m k st a ev Ho Hin. unfold events, outcome, final, bind in *.
  destruct (m st) as [[o st1] ev1]; cbn [fst snd] in *. subst o.
  destruct (k a st1) as [[o2 st2] ev2]. cbn [snd] in *. apply in_or_app. right. assumption.
Qed.

Lemma sshConnectionConfig_returns : forall config (st : St E),
    exists cfg, outcome (Hardened.sshConnectionConfig config) st = Done cfg.
Proof.
  intros config st. unfold Hardened.sshConnectionConfig, outcome.
  destruct (Hardened.sshConfig config) as [c | ];
    [ destruct (truthy (privateKeyPath c)) | ]; js_red;
    try (eexists; reflexivity).
  destruct (fs_readFileSync _ _) as [[key | err] e1]; js_red; eexists; reflexivity.
Qed.

Lemma conn_connect_recorded : forall cfg (st : St E),
    exists ready, In (EvSshConnect cfg ready) (events (conn_connect cfg) st).
Proof.
  intros cfg st. unfold events, conn_connect.
  destruct (ssh_connect cfg (env st)) as [[err | ] e2];
    [ exists false | exists true ]; left; reflexivity.
Qed.

Lemma hardened_restartFTP_connects : forall config (st : St E),
    exists cfg ready, In (EvSshConnect cfg ready) (events (Hardened.restartFTP config) st).
Proof.
  intros config st.
  destruct (sshConnectionConfig_returns config st) as [cfg Hcfg].
  destruct (conn_connect_recorded cfg (final (Hardened.sshConnectionConfig config) st))
    as [ready Hin].
  exists cfg, ready. unfold Hardened.restartFTP.
  eapply in_bind_second; [ exact Hcfg | ].
  apply in_bind_first. exact Hin.
Qed.

Lemma simple_restartFTP_connects : forall (st : St E),
    exists ready, In (EvSshConnect Simple.sshConfig ready) (events Simple.restartFTP st).
Proof.
  intros st. destruct (conn_connect_recorded Simple.sshConfig st) as [ready Hin].
  exists ready. unfold Simple.restartFTP. apply in_bind_first. exact Hin.
Qed.

(** The [catch] of the hardened [main]. *)
Lemma hardened_around_escalates : forall config try_block fuel depth (st st1 : St E)
    err ev1,
    try_block st = (Raised err, st1, ev1) ->
    Hardened.main_around config try_block fuel depth st =
    prefixed
      (ev1 ++ [EvError ("Ошибка скачивания > " ++ " " ++ message err)])
      (try_finally
         (Hardened.closeFtpIfOpen ;;
          Hardened.waitForExit config (Some (Hardened.again fuel depth)))
         (Hardened.closeFtpIfOpen ;; Hardened.closeRlIfOpen)
         st1).
Proof.
  intros config try_block fuel depth st st1 err ev1 Htry.
  unfold Hardened.main_around. unfold try_finally at 1, try_catch. rewrite Htry.
  unfold bind at 1. unfold console_error2 at 1, emit at 1.
  unfold try_finally, prefixed.
  destruct ((Hardened.closeFtpIfOpen;; Hardened.waitForExit _ _) st1) as [[o s] ev].
  destruct o; cbn [app];
    try destruct ((Hardened.closeFtpIfOpen;; Hardened.closeRlIfOpen) s) as [[[] s'] ev'];
    rewrite <- ?app_assoc; reflexivity.
Qed.

Lemma hardened_main_escalates : forall config fuel depth (st st1 : St E) err ev1,
    Hardened.main_try config depth st = (Raised err, st1, ev1) ->
    Hardened.main config (S fuel) depth st =
    prefixed
      (ev1 ++ [EvError ("Ошибка скачивания > " ++ " " ++ message err)])
      (try_finally
         (Hardened.closeFtpIfOpen ;;
          Hardened.waitForExit config (Some (Hardened.again fuel depth)))
         (Hardened.closeFtpIfOpen ;; Hardened.closeRlIfOpen)
         st1).
Proof.
  intros config fuel depth st st1 err ev1 Htry.
  exact (hardened_around_escalates config _ fuel depth st st1 err ev1 Htry).
Qed.

Lemma try_catch_prefixed : forall A (m1 m2 : M E A) h evs,
    (forall st, m1 st = prefixed evs (m2 st)) ->
    forall st, try_catch m1 h st = prefixed evs (try_catch m2 h st).
Proof.
  intros A m1 m2 h evs Hm st. unfold try_catch. rewrite Hm. unfold prefixed.
  destruct (m2 st) as [[[a | err | ] st1] ev1]; try reflexivity.
  destruct (h err st1) as [[o st2] ev2]. rewrite app_assoc. reflexivity.
Qed.

Lemma try_finally_prefixed : forall A (m1 m2 : M E A) fin evs,
    (forall st, m1 st = prefixed evs (m2 st)) ->
    forall st, try_finally m1 fin st = prefixed evs (try_finally m2 fin st).
Proof.
  intros A m1 m2 fin evs Hm st. unfold try_finally. rewrite Hm. unfold prefixed.
  destruct (m2 st) as [[[a | err | ] st1] ev1]; try reflexivity;
    destruct (fin st1) as [[[[] | err' | ] st2] ev2]; rewrite app_assoc; reflexivity.
Qed.

(** [main] is its first line followed by what a call of it without
    [await] leaves to the event loop. *)
Lemma hardened_main_begins : forall config fuel depth (st : St E),
    Hardened.main config (S fuel) depth st =
    prefixed [EvLog "Try to connect..."] (Hardened.main_resumed config (S fuel) depth st).
Proof.
  intros config fuel depth.
  unfold Hardened.main, Hardened.main_resumed, Hardened.main_around.
  apply try_finally_prefixed. apply try_catch_prefixed. intros st.
  unfold Hardened.main_try, bind, console_log, emit, prefixed.
  destruct (Hardened.main_try_resumed config depth st) as [[o st1] ev1]. reflexivity.
Qed.

Lemma simple_main_begins : forall fuel depth (st : St E),
    Simple.main (S fuel) depth st =
    prefixed [EvLog "Try to connect..."] (Simple.main_resumed (S fuel) depth st).
Proof.
  intros fuel depth.
  unfold Simple.main, Simple.main_resumed, Simple.main_around.
  apply try_finally_prefixed. apply try_catch_prefixed. intros st.
  unfold Simple.main_try, bind, console_log, emit, prefixed.
  destruct (Simple.main_try_resumed depth st) as [[o st1] ev1]. reflexivity.
Qed.
End Prompt.

Section PromptExit.
Context {E : Type} `{Capabilities E}.

Lemma bind_done : forall A B (m : M E A) (k : A -> M E B) st a st1 ev1,
    m st = (Done a, st1, ev1) -> bind m k st = prefixed ev1 (k a st1).
Proof.
  intros A B m k st a st1 ev1 Hm. unfold bind, prefixed. rewrite Hm. reflexivity.
Qed.

Lemma try_finally_done : forall A (m : M E A) fin st a st1 ev1 st2 ev2,
    m st = (Done a, st1, ev1) ->
    fin st1 = (Done tt, st2, ev2) ->
    try_finally m fin st = (Done a, st2, (ev1 ++ ev2)%list).
Proof.
  intros A m fin st a st1 ev1 st2 ev2 Hm Hf. unfold try_finally.
  rewrite Hm, Hf. reflexivity.
Qed.

Lemma closeFtpIfOpen_run : forall st : St E,
    Hardened.closeFtpIfOpen st =
    (Done tt, final Hardened.closeFtpIfOpen st, events Hardened.closeFtpIfOpen st) /\
    rl (final Hardened.closeFtpIfOpen st) = rl st /\
    forallb is_release (events Hardened.closeFtpIfOpen st) = true.
Proof.
  intros [e h]. js_red. destruct (ftp_closed e); js_red; repeat split; reflexivity.
Qed.

Lemma finally_run : forall st : St E,
    exists st2 ev2,
      (Hardened.closeFtpIfOpen ;; Hardened.closeRlIfOpen) st = (Done tt, st2, ev2) /\
      forallb is_release ev2 = true.
Proof.
  intros st. destruct (release_only st) as [Ho Hrel]. unfold outcome, events in *.
  destruct ((Hardened.closeFtpIfOpen;; Hardened.closeRlIfOpen) st) as [[o s] ev].
  cbn [fst snd] in *. subst o. exists s, ev. split; [ reflexivity | assumption ].
Qed.

Lemma hardened_waitForExit_other : forall config cb (st : St E) a e1,
    rl_question Hardened.prompt (env st) = (Ok a, e1) ->
    a <> "1" -> a <> "2" ->
    Hardened.waitForExit config (Some cb) st =
    (Done tt, mkSt e1 RlClosed,
     (opening (rl st) ++ [EvRlQuestion (Some a); EvRlClose])%list).
Proof.
  intros config cb st a e1 Hq H1 H2.
  rewrite (hardened_waitForExit_answer _ _ _ _ _ Hq).
  unfold Hardened.onAnswer.
  apply String.eqb_neq in H1, H2. rewrite H1, H2. cbn [andb].
  js_red. destruct (rl st); reflexivity.
Qed.

Lemma hardened_main_exit : forall config fuel depth (st st1 : St E) err ev1 a e2,
    Hardened.main_try config depth st = (Raised err, st1, ev1) ->
    rl_question Hardened.prompt (env (final Hardened.closeFtpIfOpen st1)) = (Ok a, e2) ->
    a <> "1" -> a <> "2" ->
    outcome (Hardened.main config (S fuel) depth) st = Done tt /\
    exists tail,
      events (Hardened.main config (S fuel) depth) st =
      (ev1 ++ [EvError ("Ошибка скачивания > " ++ " " ++ message err)]
       ++ events Hardened.closeFtpIfOpen st1
       ++ opening (rl st1) ++ [EvRlQuestion (Some a)] ++ tail)%list /\
      forallb is_release tail = true.
Proof.
  intros config fuel depth st st1 err ev1 a e2 Htry Hq H1 H2.
  destruct (closeFtpIfOpen_run st1) as (Hclose & Hrl & _).
  destruct (finally_run (mkSt e2 RlClosed)) as (st3 & ev3 & Hfin & Hrel).
  assert (Hcatch :
            (Hardened.closeFtpIfOpen ;;
             Hardened.waitForExit config (Some (Hardened.again fuel depth))) st1 =
            (Done tt, mkSt e2 RlClosed,
             (events Hardened.closeFtpIfOpen st1
              ++ opening (rl st1) ++ [EvRlQuestion (Some a); EvRlClose])%list)).
  { rewrite (bind_done _ _ _ _ _ _ _ _ Hclose).
    rewrite (hardened_waitForExit_other _ _ _ _ _ Hq H1 H2). rewrite Hrl.
    reflexivity. }
  unfold outcome, events.
  rewrite (hardened_main_escalates _ _ _ _ _ _ _ Htry).
  rewrite (try_finally_done _ _ _ _ _ _ _ _ _ Hcatch Hfin).
  cbn [prefixed fst snd]. split; [ reflexivity | ].
  exists (EvRlClose :: ev3). split.
  - rewrite <- !app_assoc. cbn [app]. reflexivity.
  - cbn [forallb is_release andb]. assumption.
Qed.

Lemma simple_waitForExit_other : forall cb (st : St E) a e1,
    rl_question Simple.prompt (env st) = (Ok a, e1) ->
    a <> "1" -> a <> "2" ->
    Simple.waitForExit (Some cb) st =
    (Done tt, mkSt e1 (rl st), [EvRlCreate; EvRlQuestion (Some a); EvRlClose]).
Proof.
  intros cb st a e1 Hq H1 H2.
  rewrite (simple_waitForExit_answer _ _ _ _ Hq).
  unfold Simple.onAnswer.
  apply String.eqb_neq in H1, H2. rewrite H1, H2. cbn [andb].
  reflexivity.
Qed.

Lemma simple_main_exit : forall fuel depth (st st1 : St E) err ev1 a e2,
    Simple.main_try depth st = (Raised err, st1, ev1) ->
    rl_question Simple.prompt (ftp_close (env st1)) = (Ok a, e2) ->
    a <> "1" -> a <> "2" ->
    Simple.main (S fuel) depth st =
    (Done tt, mkSt (ftp_close e2) (rl st1),
     (ev1 ++ [EvError ("Ошибка скачивания > " ++ " " ++ message err);
              EvFtpClose; EvRlCreate; EvRlQuestion (Some a); EvRlClose; EvFtpClose])%list).
Proof.
  intros fuel depth st st1 err ev1 a e2 Htry Hq H1 H2.
  rewrite (simple_main_escalates _ _ _ _ _ _ Htry).
  rewrite (try_finally_done _ _ ftpClient_close _ tt (mkSt e2 (rl st1))
             [EvRlCreate; EvRlQuestion (Some a); EvRlClose]
             (mkSt (ftp_close e2) (rl st1)) [EvFtpClose]).
  - cbn [prefixed]. rewrite <- !app_assoc. reflexivity.
  - apply (simple_waitForExit_other _ (mkSt (ftp_close (env st1)) (rl st1)) _ _ Hq H1 H2).
  - reflexivity.
Qed.
End PromptExit.

Lemma started_app : forall a b, started (a ++ b) = (started a ++ started b)%list.
Proof.
  induction a as [| ev a IH]; intros b; [ reflexivity | ].
  destruct ev; cbn [app started]; rewrite ?IH; reflexivity.
Qed.

Lemma nothing_started_app : forall a b,
    started a = [] -> started b = [] -> started (a ++ b) = [].
Proof. intros a b Ha Hb. rewrite started_app, Ha, Hb. reflexivity. Qed.

Lemma nothing_started_one : forall ev,
    (match ev with EvStarted _ => false | _ => true end) = true -> started [ev] = [].
Proof. intros ev Hev. destruct ev; try reflexivity. discriminate Hev. Qed.

Lemma releases_start_nothing : forall tr,
    forallb is_release tr = true -> started tr = [].
Proof.
  induction tr as [| ev tr IH]; intros Hr; [ reflexivity | ].
  simpl in Hr. apply andb_true_iff in Hr as [Hev Htr].
  destruct ev; try discriminate Hev; cbn [started]; exact (IH Htr).
Qed.

Section NothingStarted.
Context {E : Type} `{Capabilities E}.

Lemma handleFileDownload_starts_nothing : forall remoteFileName dir lp del (st : St E),
    started (events (Hardened.handleFileDownload remoteFileName dir lp del) st) = [].
Proof.
  intros remoteFileName dir lp del st.
  pose (P := fun tr : list Event => started tr = []).
  change (P (events (Hardened.handleFileDownload remoteFileName dir lp del) st)).
  assert (P_nil : P []) by reflexivity.
  assert (P_app : forall a b, P a -> P b -> P (a ++ b)%list)
    by (exact nothing_started_app).
  assert (P_one : forall ev,
             (match ev with EvStarted _ => false | _ => true end) = true -> P [ev])
    by (exact nothing_started_one).
  clearbody P.
  unfold Hardened.handleFileDownload. closed_by P_nil P_app P_one.
Qed.

Lemma downloadDirectory_file_starts_nothing : forall localDir item (st : St E),
    started (events (Simple.downloadDirectory_file localDir item) st) = [].
Proof.
  intros localDir item st.
  pose (P := fun tr : list Event => started tr = []).
  change (P (events (Simple.downloadDirectory_file localDir item) st)).
  assert (P_nil : P []) by reflexivity.
  assert (P_app : forall a b, P a -> P b -> P (a ++ b)%list)
    by (exact nothing_started_app).
  assert (P_one : forall ev,
             (match ev with EvStarted _ => false | _ => true end) = true -> P [ev])
    by (exact nothing_started_one).
  clearbody P.
  unfold Simple.downloadDirectory_file, Simple.DELETE_REMOTE_FILES.
  closed_by P_nil P_app P_one.
Qed.

Lemma hardened_descent_starts_nothing : forall config depth remoteDir localDir
    remoteEmpty (st : St E),
    started (events (Hardened.downloadDirectory config depth remoteDir localDir
                       remoteEmpty) st) = [].
Proof.
  intros config depth.
  pose (P := fun tr : list Event => started tr = []).
  assert (P_nil : P []) by reflexivity.
  assert (P_app : forall a b, P a -> P b -> P (a ++ b)%list)
    by (exact nothing_started_app).
  assert (P_one : forall ev,
             (match ev with EvStarted _ => false | _ => true end) = true -> P [ev])
    by (exact nothing_started_one).
  assert (P_file : forall remoteFileName dir lp del (st : St E),
             P (events (Hardened.handleFileDownload remoteFileName dir lp del) st))
    by (exact handleFileDownload_starts_nothing).
  enough (Hall : forall remoteDir localDir remoteEmpty (st : St E),
             P (events (Hardened.downloadDirectory config depth remoteDir localDir
                          remoteEmpty) st)) by exact Hall.
  clearbody P.
  induction depth as [| depth IH];
    intros remoteDir localDir remoteEmpty st; cbn [Hardened.downloadDirectory].
  - exact P_nil.
  - unfold Hardened.downloadDirectory_body, Hardened.downloadDirectory_item.
    closed_by P_nil P_app P_one;
      first [ solve [ apply (P_one (EvExistsSync _ _)); reflexivity ]
            | solve [ apply P_file ]
            | solve [ apply IH ] ].
Qed.

Lemma simple_descent_starts_nothing : forall depth remoteDir localDir remoteEmpty
    (st : St E),
    started (events (Simple.downloadDirectory depth remoteDir localDir remoteEmpty) st)
    = [].
Proof.
  intros depth.
  pose (P := fun tr : list Event => started tr = []).
  assert (P_nil : P []) by reflexivity.
  assert (P_app : forall a b, P a -> P b -> P (a ++ b)%list)
    by (exact nothing_started_app).
  assert (P_one : forall ev,
             (match ev with EvStarted _ => false | _ => true end) = true -> P [ev])
    by (exact nothing_started_one).
  assert (P_file : forall localDir item (st : St E),
             P (events (Simple.downloadDirectory_file localDir item) st))
    by (exact downloadDirectory_file_starts_nothing).
  enough (Hall : forall remoteDir localDir remoteEmpty (st : St E),
             P (events (Simple.downloadDirectory depth remoteDir localDir remoteEmpty) st))
    by exact Hall.
  clearbody P.
  induction depth as [| depth IH];
    intros remoteDir localDir remoteEmpty st; cbn [Simple.downloadDirectory].
  - exact P_nil.
  - unfold Simple.downloadDirectory_body, Simple.downloadDirectory_item.
    closed_by P_nil P_app P_one;
      first [ solve [ apply (P_one (EvExistsSync _ _)); reflexivity ]
            | solve [ apply P_file ]
            | solve [ apply IH ] ].
Qed.

(** The [try] block of [main] starts nothing it does not wait for,
    whether it is entered at its first line or at its first [await]. *)
Lemma hardened_try_starts_nothing : forall config depth (st : St E),
    started (events (Hardened.main_try config depth) st) = [] /\
    started (events (Hardened.main_try_resumed config depth) st) = [].
Proof.
  intros config depth st.
  pose (P := fun tr : list Event => started tr = []).
  change (P (events (Hardened.main_try config depth) st) /\
          P (events (Hardened.main_try_resumed config depth) st)).
  assert (P_nil : P []) by reflexivity.
  assert (P_app : forall a b, P a -> P b -> P (a ++ b)%list)
    by (exact nothing_started_app).
  assert (P_one : forall ev,
             (match ev with EvStarted _ => false | _ => true end) = true -> P [ev])
    by (exact nothing_started_one).
  assert (P_descent : forall d l b (st' : St E),
             P (events (Hardened.downloadDirectory config depth d l b) st'))
    by (exact (hardened_descent_starts_nothing config depth)).
  clearbody P.
  unfold Hardened.main_try, Hardened.main_try_resumed.
  split; closed_by P_nil P_app P_one; apply P_descent.
Qed.

Lemma simple_try_starts_nothing : forall depth (st : St E),
    started (events (Simple.main_try depth) st) = [] /\
    started (events (Simple.main_try_resumed depth) st) = [].
Proof.
  intros depth st.
  pose (P := fun tr : list Event => started tr = []).
  change (P (events (Simple.main_try depth) st) /\
          P (events (Simple.main_try_resumed depth) st)).
  assert (P_nil : P []) by reflexivity.
  assert (P_app : forall a b, P a -> P b -> P (a ++ b)%list)
    by (exact nothing_started_app).
  assert (P_one : forall ev,
             (match ev with EvStarted _ => false | _ => true end) = true -> P [ev])
    by (exact nothing_started_one).
  assert (P_descent : forall d l b (st' : St E),
             P (events (Simple.downloadDirectory depth d l b) st'))
    by (exact (simple_descent_starts_nothing depth)).
  clearbody P.
  unfold Simple.main_try, Simple.main_try_resumed.
  split; closed_by P_nil P_app P_one; apply P_descent.
Qed.
End NothingStarted.

Section Dispatch.
Context {E : Type} `{Capabilities E}.

Lemma hardened_waitForExit_one : forall config cb (st : St E) e1,
    rl_question Hardened.prompt (env st) = (Ok "1", e1) ->
    Hardened.waitForExit config (Some cb) st =
    (Done tt, mkSt e1 RlOpen,
     (opening (rl st) ++ [EvRlQuestion (Some "1"); EvStarted (leaves cb)]
      ++ begins cb)%list).
Proof.
  intros config cb st e1 Hq.
  rewrite (hardened_waitForExit_answer _ _ _ _ _ Hq).
  unfold Hardened.onAnswer, Hardened.invoke, unawaited, prefixed.
  cbn [String.eqb Ascii.eqb Bool.eqb andb Hardened.defined].
  rewrite <- !app_assoc. reflexivity.
Qed.

Lemma hardened_waitForExit_two : forall config cb (st st2 : St E) e1 cfg ev2 session e3,
    rl_question Hardened.prompt (env st) = (Ok "2", e1) ->
    Hardened.sshConnectionConfig config (mkSt e1 RlOpen) = (Done cfg, st2, ev2) ->
    ssh_connect cfg (env st2) = (session, e3) ->
    Hardened.waitForExit config (Some cb) st =
    (Done tt, mkSt e3 (rl st2),
     (opening (rl st) ++ [EvRlQuestion (Some "2")] ++ ev2
      ++ [EvSshConnect cfg (ready session);
          EvStarted (Session session);
          EvStarted (leaves cb)]
      ++ begins cb)%list).
Proof.
  intros config cb st st2 e1 cfg ev2 session e3 Hq Hcfg Hconn.
  rewrite (hardened_waitForExit_answer _ _ _ _ _ Hq).
  unfold Hardened.onAnswer, Hardened.invoke, Hardened.restartFTP_call.
  cbn [String.eqb Ascii.eqb Bool.eqb andb Hardened.defined].
  unfold bind at 1. unfold bind at 1. rewrite Hcfg.
  unfold bind, conn_connect, emit, unawaited, prefixed. rewrite Hconn.
  destruct session as [err | ]; cbn [ready env rl app];
    rewrite <- !app_assoc; reflexivity.
Qed.

Lemma simple_waitForExit_one : forall cb (st : St E) e1,
    rl_question Simple.prompt (env st) = (Ok "1", e1) ->
    Simple.waitForExit (Some cb) st =
    (Done tt, mkSt e1 (rl st),
     ([EvRlCreate; EvRlQuestion (Some "1"); EvRlClose; EvStarted (leaves cb)]
      ++ begins cb)%list).
Proof.
  intros cb st e1 Hq.
  rewrite (simple_waitForExit_answer _ _ _ _ Hq).
  unfold Simple.onAnswer, Simple.invoke, unawaited, prefixed.
  cbn [String.eqb Ascii.eqb Bool.eqb andb Simple.defined]. reflexivity.
Qed.

Lemma simple_waitForExit_two : forall cb (st : St E) e1 session e3,
    rl_question Simple.prompt (env st) = (Ok "2", e1) ->
    ssh_connect Simple.sshConfig e1 = (session, e3) ->
    Simple.waitForExit (Some cb) st =
    (Done tt, mkSt e3 (rl st),
     ([EvRlCreate; EvRlQuestion (Some "2"); EvRlClose;
       EvSshConnect Simple.sshConfig (ready session);
       EvStarted (Session session);
       EvStarted (leaves cb)]
      ++ begins cb)%list).
Proof.
  intros cb st e1 session e3 Hq Hconn.
  rewrite (simple_waitForExit_answer _ _ _ _ Hq).
  unfold Simple.onAnswer, Simple.invoke, Simple.restartFTP_call.
  cbn [String.eqb Ascii.eqb Bool.eqb andb Simple.defined].
  unfold bind, conn_connect, emit, unawaited, prefixed. cbn [env rl]. rewrite Hconn.
  destruct session as [err | ]; reflexivity.
Qed.

(** After any other line [main] has started nothing. *)
Lemma hardened_main_exit_quiet : forall config fuel depth (st st1 : St E) err ev1 a e2,
    Hardened.main_try config depth st = (Raised err, st1, ev1) ->
    rl_question Hardened.prompt (env (final Hardened.closeFtpIfOpen st1)) = (Ok a, e2) ->
    a <> "1" -> a <> "2" ->
    started (events (Hardened.main config (S fuel) depth) st) = [].
Proof.
  intros config fuel depth st st1 err ev1 a e2 Htry Hq H1 H2.
  destruct (hardened_main_exit config fuel depth st st1 err ev1 a e2 Htry Hq H1 H2)
    as (_ & tail & -> & Hrel).
  destruct (hardened_try_starts_nothing config depth st) as [Hquiet _].
  unfold events in Hquiet. rewrite Htry in Hquiet. cbn [snd] in Hquiet.
  destruct (closeFtpIfOpen_run st1) as (_ & _ & Hclose).
  rewrite !started_app, Hquiet, (releases_start_nothing _ Hclose),
    (releases_start_nothing _ Hrel).
  destruct (rl st1); reflexivity.
Qed.

Lemma simple_main_exit_quiet : forall fuel depth (st st1 : St E) err ev1 a e2,
    Simple.main_try depth st = (Raised err, st1, ev1) ->
    rl_question Simple.prompt (ftp_close (env st1)) = (Ok a, e2) ->
    a <> "1" -> a <> "2" ->
    started (events (Simple.main (S fuel) depth) st) = [].
Proof.
  intros fuel depth st st1 err ev1 a e2 Htry Hq H1 H2.
  unfold events. rewrite (simple_main_exit fuel depth st st1 err ev1 a e2 Htry Hq H1 H2).
  destruct (simple_try_starts_nothing depth st) as [Hquiet _].
  unfold events in Hquiet. rewrite Htry in Hquiet. cbn [snd] in *.
  rewrite started_app, Hquiet. reflexivity.
Qed.
End Dispatch.

(** C6.  The recovery prompt is a three-way dispatch on the line the
    operator types, in both revisions.  On exactly ["1"] the answer
    handler goes from the question straight to [callback()]: no SSH call
    is made, the first line of the callback is printed and its
    continuation is left to the event loop.  On exactly ["2"] it calls
    [restartFTP()], which builds the session configuration and calls
    [conn.connect], and then [callback()], in that order and before the
    session has reported.  The callback [main] hands over is [main]
    itself: what the call prints and what it leaves pending are together
    [main], which connects and descends from the configured root.  On any
    other line neither is called: the prompt is closed, [main] returns,
    all it still does after the question is release its handles
    ([rl.close()], [ftpClient.close()]), and nothing is left pending, so
    the process ends. *)
Theorem recovery_prompt_dispatch : forall (E : Type) (C : Capabilities E),
    (forall config cb (st : St E) e1,
        rl_question Hardened.prompt (env st) = (Ok "1", e1) ->
        Hardened.waitForExit config (Some cb) st =
        (Done tt, mkSt e1 RlOpen,
         (opening (rl st) ++ [EvRlQuestion (Some "1"); EvStarted (leaves cb)]
          ++ begins cb)%list))
    /\
    (forall config cb (st st2 : St E) e1 cfg ev2 session e3,
        rl_question Hardened.prompt (env st) = (Ok "2", e1) ->
        Hardened.sshConnectionConfig config (mkSt e1 RlOpen) = (Done cfg, st2, ev2) ->
        ssh_connect cfg (env st2) = (session, e3) ->
        Hardened.waitForExit config (Some cb) st =
        (Done tt, mkSt e3 (rl st2),
         (opening (rl st) ++ [EvRlQuestion (Some "2")] ++ ev2
          ++ [EvSshConnect cfg (ready session);
              EvStarted (Session session);
              EvStarted (leaves cb)]
          ++ begins cb)%list))
    /\
    (forall config cb (st : St E) a e1,
        rl_question Hardened.prompt (env st) = (Ok a, e1) ->
        a <> "1" -> a <> "2" ->
        Hardened.waitForExit config (Some cb) st =
        (Done tt, mkSt e1 RlClosed,
         (opening (rl st) ++ [EvRlQuestion (Some a); EvRlClose])%list))
    /\
    (forall config fuel depth (st st1 : St E) err ev1,
        Hardened.main_try config depth st = (Raised err, st1, ev1) ->
        Hardened.main config (S fuel) depth st =
        prefixed
          (ev1 ++ [EvError ("Ошибка скачивания > " ++ " " ++ message err)])
          (try_finally
             (Hardened.closeFtpIfOpen ;;
              Hardened.waitForExit config (Some (Hardened.again fuel depth)))
             (Hardened.closeFtpIfOpen ;; Hardened.closeRlIfOpen)
             st1))
    /\
    (forall config fuel depth (st : St E),
        Hardened.main config (S fuel) depth st =
        prefixed (begins (Hardened.again (S fuel) depth))
          (Hardened.resume config (leaves (Hardened.again (S fuel) depth)) st))
    /\
    (forall config fuel depth (st st1 : St E) err ev1 a e2,
        Hardened.main_try config depth st = (Raised err, st1, ev1) ->
        rl_question Hardened.prompt (env (final Hardened.closeFtpIfOpen st1))
        = (Ok a, e2) ->
        a <> "1" -> a <> "2" ->
        outcome (Hardened.main config (S fuel) depth) st = Done tt /\
        started (events (Hardened.main config (S fuel) depth) st) = [] /\
        exists tail,
          events (Hardened.main config (S fuel) depth) st =
          (ev1 ++ [EvError ("Ошибка скачивания > " ++ " " ++ message err)]
           ++ events Hardened.closeFtpIfOpen st1
           ++ opening (rl st1) ++ [EvRlQuestion (Some a)] ++ tail)%list /\
          forallb is_release tail = true)
    /\
    (forall cb (st : St E) e1,
        rl_question Simple.prompt (env st) = (Ok "1", e1) ->
        Simple.waitForExit (Some cb) st =
        (Done tt, mkSt e1 (rl st),
         ([EvRlCreate; EvRlQuestion (Some "1"); EvRlClose; EvStarted (leaves cb)]
          ++ begins cb)%list))
    /\
    (forall cb (st : St E) e1 session e3,
        rl_question Simple.prompt (env st) = (Ok "2", e1) ->
        ssh_connect Simple.sshConfig e1 = (session, e3) ->
        Simple.waitForExit (Some cb) st =
        (Done tt, mkSt e3 (rl st),
         ([EvRlCreate; EvRlQuestion (Some "2"); EvRlClose;
           EvSshConnect Simple.sshConfig (ready session);
           EvStarted (Session session);
           EvStarted (leaves cb)]
          ++ begins cb)%list))
    /\
    (forall cb (st : St E) a e1,
        rl_question Simple.prompt (env st) = (Ok a, e1) ->
        a <> "1" -> a <> "2" ->
        Simple.waitForExit (Some cb) st =
        (Done tt, mkSt e1 (rl st), [EvRlCreate; EvRlQuestion (Some a); EvRlClose]))
    /\
    (forall fuel depth (st st1 : St E) err ev1,
        Simple.main_try depth st = (Raised err, st1, ev1) ->
        Simple.main (S fuel) depth st =
        prefixed
          (ev1 ++ [EvError ("Ошибка скачивания > " ++ " " ++ message err); EvFtpClose])
          (try_finally
             (Simple.waitForExit (Some (Simple.again fuel depth)))
             ftpClient_close
             (mkSt (ftp_close (env st1)) (rl st1))))
    /\
    (forall fuel depth (st : St E),
        Simple.main (S fuel) depth st =
        prefixed (begins (Simple.again (S fuel) depth))
          (Simple.resume (leaves (Simple.again (S fuel) depth)) st))
    /\
    (forall fuel depth (st st1 : St E) err ev1 a e2,
        Simple.main_try depth st = (Raised err, st1, ev1) ->
        rl_question Simple.prompt (ftp_close (env st1)) = (Ok a, e2) ->
        a <> "1" -> a <> "2" ->
        Simple.main (S fuel) depth st =
        (Done tt, mkSt (ftp_close e2) (rl st1),
         (ev1 ++ [EvError ("Ошибка скачивания > " ++ " " ++ message err);
                  EvFtpClose; EvRlCreate; EvRlQuestion (Some a); EvRlClose;
                  EvFtpClose])%list) /\
        started (events (Simple.main (S fuel) depth) st) = []).
Proof.
  intros E C.
  split; [ | split; [ | split; [ | split; [ | split; [ | split;
   [ | split; [ | split; [ | split; [ | split; [ | split ] ] ] ] ] ] ] ] ] ].
  - apply hardened_waitForExit_one.
  - apply hardened_waitForExit_two.
  - apply hardened_waitForExit_other.
  - apply hardened_main_escalates.
  - apply hardened_main_begins.
  - intros config fuel depth st st1 err ev1 a e2 Htry Hq H1 H2.
    destruct (hardened_main_exit config fuel depth st st1 err ev1 a e2 Htry Hq H1 H2)
      as (Ho & Htail).
    split; [ exact Ho | split; [ | exact Htail ] ].
    exact (hardened_main_exit_quiet config fuel depth st st1 err ev1 a e2 Htry Hq H1 H2).
  - apply simple_waitForExit_one.
  - apply simple_waitForExit_two.
  - apply simple_waitForExit_other.
  - apply simple_main_escalates.
  - apply simple_main_begins.
  - intros fuel depth st st1 err ev1 a e2 Htry Hq H1 H2. split.
    + exact (simple_main_exit fuel depth st st1 err ev1 a e2 Htry Hq H1 H2).
    + exact (simple_main_exit_quiet fuel depth st st1 err ev1 a e2 Htry Hq H1 H2).
Qed.

Lemma recovery_prompt_dispatch_witness :
  Hardened.waitForExit (Worlds.config true) (Some (Hardened.again 0 1))
    (Sim.start (Worlds.refused ["1"])) =
  (Done tt, mkSt (Worlds.refused []) RlOpen,
   (opening RlNull
    ++ [EvRlQuestion (Some "1"); EvStarted (ResumeMain 0 1)]
    ++ [EvLog "Try to connect..."])%list)
  /\
  Hardened.waitForExit (Worlds.config true) (Some (Hardened.again 0 1))
    (Sim.start (Worlds.refused ["2"])) =
  (Done tt, mkSt (Worlds.refused []) RlOpen,
   (opening RlNull ++ [EvRlQuestion (Some "2")] ++ []
    ++ [EvSshConnect emptySshConfig true;
        EvStarted (Session SshReady);
        EvStarted (ResumeMain 0 1)]
    ++ [EvLog "Try to connect..."])%list)
  /\
  Hardened.waitForExit (Worlds.config true) (Some (Hardened.again 0 1))
    (Sim.start (Worlds.refused ["3"])) =
  (Done tt, mkSt (Worlds.refused []) RlClosed,
   [EvRlCreate; EvRlQuestion (Some "3"); EvRlClose])
  /\
  Hardened.main (Worlds.config true) 1 1 (Sim.start (Worlds.refused ["3"])) =
  prefixed
    ([EvLog "Try to connect..."; EvFtpAccess false]
     ++ [EvError "Ошибка скачивания >  connect ECONNREFUSED"])
    (try_finally
       (Hardened.closeFtpIfOpen ;;
        Hardened.waitForExit (Worlds.config true) (Some (Hardened.again 0 1)))
       (Hardened.closeFtpIfOpen ;; Hardened.closeRlIfOpen)
       (Sim.start (Worlds.refused ["3"])))
  /\
  (outcome (Hardened.main (Worlds.config true) 1 1) (Sim.start (Worlds.refused ["3"]))
   = Done tt /\
   started (events (Hardened.main (Worlds.config true) 1 1)
              (Sim.start (Worlds.refused ["3"]))) = [] /\
   exists tail,
     events (Hardened.main (Worlds.config true) 1 1) (Sim.start (Worlds.refused ["3"])) =
     ([EvLog "Try to connect..."; EvFtpAccess false]
      ++ [EvError "Ошибка скачивания >  connect ECONNREFUSED"]
      ++ events Hardened.closeFtpIfOpen (Sim.start (Worlds.refused ["3"]))
      ++ opening RlNull ++ [EvRlQuestion (Some "3")] ++ tail)%list /\
     forallb is_release tail = true)
  /\
  Simple.waitForExit (Some (Simple.again 0 1)) (Sim.start (Worlds.refused ["1"])) =
  (Done tt, Sim.start (Worlds.refused []),
   ([EvRlCreate; EvRlQuestion (Some "1"); EvRlClose; EvStarted (ResumeMain 0 1)]
    ++ [EvLog "Try to connect..."])%list)
  /\
  Simple.waitForExit (Some (Simple.again 0 1)) (Sim.start (Worlds.refused ["2"])) =
  (Done tt, Sim.start (Worlds.refused []),
   ([EvRlCreate; EvRlQuestion (Some "2"); EvRlClose;
     EvSshConnect Simple.sshConfig true;
     EvStarted (Session SshReady);
     EvStarted (ResumeMain 0 1)]
    ++ [EvLog "Try to connect..."])%list)
  /\
  Simple.waitForExit (Some (Simple.again 0 1)) (Sim.start (Worlds.refused ["3"])) =
  (Done tt, Sim.start (Worlds.refused []),
   [EvRlCreate; EvRlQuestion (Some "3"); EvRlClose])
  /\
  Simple.main 1 1 (Sim.start (Worlds.refused ["3"])) =
  prefixed
    ([EvLog "Try to connect..."; EvFtpAccess false]
     ++ [EvError "Ошибка скачивания >  connect ECONNREFUSED"; EvFtpClose])
    (try_finally
       (Simple.waitForExit (Some (Simple.again 0 1)))
       ftpClient_close
       (Sim.start (Worlds.refused ["3"])))
  /\
  (Simple.main 1 1 (Sim.start (Worlds.refused ["3"])) =
   (Done tt, Sim.start (Worlds.refused []),
    ([EvLog "Try to connect..."; EvFtpAccess false]
     ++ [EvError "Ошибка скачивания >  connect ECONNREFUSED";
         EvFtpClose; EvRlCreate; EvRlQuestion (Some "3"); EvRlClose; EvFtpClose])%list)
   /\
   started (events (Simple.main 1 1) (Sim.start (Worlds.refused ["3"]))) = []).
Proof.
  destruct (recovery_prompt_dispatch Sim.World Sim.capabilities)
    as (Hone & Htwo & Hother & Hcatch & _ & Hexit
        & Sone & Stwo & Sother & Scatch & _ & Sexit).
  split; [ | split; [ | split; [ | split; [ | split;
   [ | split; [ | split; [ | split; [ | split ] ] ] ] ] ] ] ].
  - apply (Hone (Worlds.config true) (Hardened.again 0 1)
             (Sim.start (Worlds.refused ["1"])) (Worlds.refused [])); reflexivity.
  - apply (Htwo (Worlds.config true) (Hardened.again 0 1)
             (Sim.start (Worlds.refused ["2"])) (mkSt (Worlds.refused []) RlOpen)
             (Worlds.refused []) emptySshConfig [] SshReady (Worlds.refused []));
      reflexivity.
  - apply (Hother (Worlds.config true) (Hardened.again 0 1)
             (Sim.start (Worlds.refused ["3"])) "3" (Worlds.refused []));
      [ reflexivity | discriminate | discriminate ].
  - apply (Hcatch (Worlds.config true) 0 1 (Sim.start (Worlds.refused ["3"]))
             (Sim.start (Worlds.refused ["3"])) (mkError "connect ECONNREFUSED")
             [EvLog "Try to connect..."; EvFtpAccess false]); reflexivity.
  - apply (Hexit (Worlds.config true) 0 1 (Sim.start (Worlds.refused ["3"]))
             (Sim.start (Worlds.refused ["3"])) (mkError "connect ECONNREFUSED")
             [EvLog "Try to connect..."; EvFtpAccess false] "3" (Worlds.refused []));
      [ reflexivity | reflexivity | discriminate | discriminate ].
  - apply (Sone (Simple.again 0 1) (Sim.start (Worlds.refused ["1"]))
             (Worlds.refused [])); reflexivity.
  - apply (Stwo (Simple.again 0 1) (Sim.start (Worlds.refused ["2"]))
             (Worlds.refused []) SshReady (Worlds.refused [])); reflexivity.
  - apply (Sother (Simple.again 0 1) (Sim.start (Worlds.refused ["3"])) "3"
             (Worlds.refused [])); [ reflexivity | discriminate | discriminate ].
  - apply (Scatch 0 1 (Sim.start (Worlds.refused ["3"]))
             (Sim.start (Worlds.refused ["3"])) (mkError "connect ECONNREFUSED")
             [EvLog "Try to connect..."; EvFtpAccess false]); reflexivity.
  - apply (Sexit 0 1 (Sim.start (Worlds.refused ["3"]))
             (Sim.start (Worlds.refused ["3"])) (mkError "connect ECONNREFUSED")
             [EvLog "Try to connect..."; EvFtpAccess false] "3" (Worlds.refused []));
      [ reflexivity | reflexivity | discriminate | discriminate ].
Defined.

(** The whole process on a server that refuses the connection, with an
    operator who types ["1"] twice and then nothing.  Each retry begins
    inside the answer handler; the [main] that asked closes the prompt in
    its [finally] before the retry goes on, so every round opens a prompt
    of its own. *)
Example refused_three_times :
  Hardened.process (Worlds.config true) 3 1 (Sim.start (Worlds.refused ["1"; "1"])) =
  (Done [], mkSt (Worlds.refused []) RlClosed,
   [EvStarted (ResumeMain 3 1); EvLog "Try to connect...";
    EvFtpAccess false;
    EvError "Ошибка скачивания >  connect ECONNREFUSED";
    EvRlCreate; EvRlQuestion (Some "1");
    EvStarted (ResumeMain 2 1); EvLog "Try to connect...";
    EvRlClose;
    EvFtpAccess false;
    EvError "Ошибка скачивания >  connect ECONNREFUSED";
    EvRlCreate; EvRlQuestion (Some "1");
    EvStarted (ResumeMain 1 1); EvLog "Try to connect...";
    EvRlClose;
    EvFtpAccess false;
    EvError "Ошибка скачивания >  connect ECONNREFUSED";
    EvRlCreate; EvRlQuestion (Some "");
    EvRlClose]).
Proof. vm_compute. reflexivity. Qed.

(** The operator types ["2"]: when [main] has returned, the SSH session
    and the retry are both pending, and the loop hands them back. *)
Example restart_and_retry_pending :
  Hardened.process (Worlds.config true) 3 1 (Sim.start (Worlds.refused ["2"])) =
  (Done [Session SshReady; ResumeMain 2 1], mkSt (Worlds.refused []) RlClosed,
   [EvStarted (ResumeMain 3 1); EvLog "Try to connect...";
    EvFtpAccess false;
    EvError "Ошибка скачивания >  connect ECONNREFUSED";
    EvRlCreate; EvRlQuestion (Some "2");
    EvSshConnect emptySshConfig true;
    EvStarted (Session SshReady);
    EvStarted (ResumeMain 2 1); EvLog "Try to connect...";
    EvRlClose]).
Proof. vm_compute. reflexivity. Qed.

(** * The SSH session of [restartFTP] *)

Section RestartSession.
Context {E : Type} `{Capabilities E}.

Lemma no_connect_app : forall a b,
    existsb is_connect a = false -> existsb is_connect b = false ->
    existsb is_connect (a ++ b) = false.
Proof. intros a b Ha Hb. rewrite existsb_app, Ha, Hb. reflexivity. Qed.

(** [restartFTP] builds the session configuration, hands it to
    [conn.connect] and connects once. *)
Lemma restartFTP_connects_with : forall config (st st1 : St E) cfg ev1,
    Hardened.sshConnectionConfig config st = (Done cfg, st1, ev1) ->
    exists ready tail,
      events (Hardened.restartFTP config) st
      = (ev1 ++ EvSshConnect cfg ready :: tail)%list /\
      existsb is_connect tail = false.
Proof.
  intros config st st1 cfg ev1 Hcfg.
  unfold Hardened.restartFTP, events.
  rewrite (bind_done _ _ _ _ _ _ _ _ Hcfg).
  match goal with
  | |- context [bind (conn_connect cfg) ?k] => set (after := k)
  end.
  pose (P := fun tr : list Event => existsb is_connect tr = false).
  assert (Hafter : forall session st', P (events (after session) st')).
  { intros session st'. subst after. cbv beta.
    assert (P_nil : P []) by reflexivity.
    assert (P_app : forall a b, P a -> P b -> P (a ++ b)%list)
      by (exact no_connect_app).
    assert (P_one : forall ev, is_connect ev = false -> P [ev]).
    { intros ev Hev. unfold P. simpl. rewrite Hev. reflexivity. }
    clearbody P.
    unfold Hardened.sessionHandlers, Hardened.streamHandlers.
    closed_by P_nil P_app P_one;
      first [ solve [ apply (P_one EvSshEnd); reflexivity ]
            | unfold events, conn_exec;
              destruct (ssh_exec _ _) as [r e]; cbn [snd];
              apply (P_one (EvSshExec _ _)); reflexivity ]. }
  unfold P in Hafter. clear P.
  unfold bind, conn_connect.
  destruct (ssh_connect cfg (env st1)) as [[err | ] e2].
  - exists false. specialize (Hafter (SshError err) (mkSt e2 (rl st1))).
    unfold events in Hafter.
    destruct (after (SshError err) _) as [[o s] ev]. cbn [snd prefixed app] in *.
    exists ev. split; [ reflexivity | assumption ].
  - exists true. specialize (Hafter SshReady (mkSt e2 (rl st1))).
    unfold events in Hafter.
    destruct (after SshReady _) as [[o s] ev]. cbn [snd prefixed app] in *.
    exists ev. split; [ reflexivity | assumption ].
Qed.

Lemma sshConnectionConfig_key : forall config c p (st : St E) key e1,
    Hardened.sshConfig config = Some c ->
    privateKeyPath c = Some p ->
    p <> "" ->
    fs_readFileSync p (env st) = (Ok key, e1) ->
    Hardened.sshConnectionConfig config st =
    (Done (mkSshConfig (host c) (port c) (username c)
             (if truthy (agent c) then None else agent c)
             (privateKeyPath c) (restartCommand c) (Some key)),
     mkSt e1 (rl st),
     [EvReadFileSync p true; EvLog "Using private key for SSH connection."]).
Proof.
  intros config c p st key e1 Hc Hp Hne Hread.
  unfold Hardened.sshConnectionConfig. rewrite Hc.
  rewrite Hp. unfold truthy at 1. apply String.eqb_neq in Hne. rewrite Hne. cbn [negb].
  js_red. js_step Hread. reflexivity.
Qed.

Lemma sshConnectionConfig_fallback : forall config c p (st : St E) err e1,
    Hardened.sshConfig config = Some c ->
    privateKeyPath c = Some p ->
    p <> "" ->
    fs_readFileSync p (env st) = (Throw err, e1) ->
    Hardened.sshConnectionConfig config st =
    (Done (mkSshConfig (host c) (port c) (username c) (agent c)
             (privateKeyPath c) (restartCommand c) None),
     mkSt e1 (rl st),
     [EvReadFileSync p false;
      EvError ("Error reading private key file:" ++ " " ++ message err);
      EvLog "Falling back to other SSH authentication methods (e.g., agent)."]).
Proof.
  intros config c p st err e1 Hc Hp Hne Hread.
  unfold Hardened.sshConnectionConfig. rewrite Hc.
  rewrite Hp. unfold truthy at 1. apply String.eqb_neq in Hne. rewrite Hne. cbn [negb].
  js_red. js_step Hread. reflexivity.
Qed.

Lemma sshConnectionConfig_plain : forall config c (st : St E),
    Hardened.sshConfig config = Some c ->
    truthy (privateKeyPath c) = false ->
    Hardened.sshConnectionConfig config st = (Done c, st, []).
Proof.
  intros config c st Hc Hp.
  unfold Hardened.sshConnectionConfig. rewrite Hc, Hp. reflexivity.
Qed.
End RestartSession.

(** C9.  Authentication of the restart session.  When [sshConfig] has a
    non-empty [privateKeyPath] and [fs.readFileSync] reads the key,
    [restartFTP] connects, once, with the configuration of [config.json]
    extended by [privateKey], the key read, and with no effective agent
    setting: a non-empty [agent] is deleted.  When the key cannot be read,
    the failure is logged and the session is opened with [privateKey] not
    set and [agent] as [config.json] has it.  When there is no
    [privateKeyPath], the session is opened with [sshConfig] as it is. *)
Theorem restart_authentication : forall (E : Type) (C : Capabilities E),
    (forall config c p (st : St E) key e1,
        Hardened.sshConfig config = Some c ->
        privateKeyPath c = Some p ->
        p <> "" ->
        fs_readFileSync p (env st) = (Ok key, e1) ->
        exists ready tail,
          events (Hardened.restartFTP config) st =
          ([EvReadFileSync p true; EvLog "Using private key for SSH connection."]
           ++ EvSshConnect
                (mkSshConfig (host c) (port c) (username c)
                   (if truthy (agent c) then None else agent c)
                   (privateKeyPath c) (restartCommand c) (Some key))
                ready
              :: tail)%list /\
          existsb is_connect tail = false /\
          truthy (if truthy (agent c) then None else agent c) = false)
    /\
    (forall config c p (st : St E) err e1,
        Hardened.sshConfig config = Some c ->
        privateKeyPath c = Some p ->
        p <> "" ->
        fs_readFileSync p (env st) = (Throw err, e1) ->
        exists ready tail,
          events (Hardened.restartFTP config) st =
          ([EvReadFileSync p false;
            EvError ("Error reading private key file:" ++ " " ++ message err);
            EvLog "Falling back to other SSH authentication methods (e.g., agent)."]
           ++ EvSshConnect
                (mkSshConfig (host c) (port c) (username c) (agent c)
                   (privateKeyPath c) (restartCommand c) None)
                ready
              :: tail)%list /\
          existsb is_connect tail = false)
    /\
    (forall config c (st : St E),
        Hardened.sshConfig config = Some c ->
        truthy (privateKeyPath c) = false ->
        exists ready tail,
          events (Hardened.restartFTP config) st = EvSshConnect c ready :: tail /\
          existsb is_connect tail = false).
Proof.
  intros E C. split; [ | split ].
  - intros config c p st key e1 Hc Hp Hne Hread.
    destruct (restartFTP_connects_with config st _ _ _
                (sshConnectionConfig_key config c p st key e1 Hc Hp Hne Hread))
      as (ready & tail & Hev & Htail).
    exists ready, tail. split; [ exact Hev | ]. split; [ exact Htail | ].
    destruct (truthy (agent c)) eqn:Hag; [ reflexivity | exact Hag ].
  - intros config c p st err e1 Hc Hp Hne Hread.
    destruct (restartFTP_connects_with config st _ _ _
                (sshConnectionConfig_fallback config c p st err e1 Hc Hp Hne Hread))
      as (ready & tail & Hev & Htail).
    exists ready, tail. split; [ exact Hev | exact Htail ].
  - intros config c st Hc Hp.
    destruct (restartFTP_connects_with config st _ _ _
                (sshConnectionConfig_plain config c st Hc Hp))
      as (ready & tail & Hev & Htail).
    exists ready, tail. split; [ exact Hev | exact Htail ].
Qed.

Lemma restart_authentication_witness :
  (exists ready tail,
      events (Hardened.restartFTP
                (Worlds.config_ssh (Worlds.ssh_both "/home/cam/.ssh/id_rsa")))
        (Sim.start Worlds.with_key) =
      ([EvReadFileSync "/home/cam/.ssh/id_rsa" true;
        EvLog "Using private key for SSH connection."]
       ++ EvSshConnect
            (mkSshConfig (Some "cam.example") (Some 22) (Some "root") None
               (Some "/home/cam/.ssh/id_rsa") (Some "sudo systemctl restart vsftpd")
               (Some [Byte.x2d; Byte.x2d]))
            ready
          :: tail)%list /\
      existsb is_connect tail = false /\
      truthy None = false)
  /\
  (exists ready tail,
      events (Hardened.restartFTP (Worlds.config_ssh (Worlds.ssh_both "/missing")))
        (Sim.start Worlds.with_key) =
      ([EvReadFileSync "/missing" false;
        EvError "Error reading private key file: ENOENT: no such file or directory";
        EvLog "Falling back to other SSH authentication methods (e.g., agent)."]
       ++ EvSshConnect
            (mkSshConfig (Some "cam.example") (Some 22) (Some "root") (Some "pageant")
               (Some "/missing") (Some "sudo systemctl restart vsftpd") None)
            ready
          :: tail)%list /\
      existsb is_connect tail = false)
  /\
  (exists ready tail,
      events (Hardened.restartFTP (Worlds.config_ssh Simple.sshConfig))
        (Sim.start Worlds.with_key) =
      EvSshConnect Simple.sshConfig ready :: tail /\
      existsb is_connect tail = false).
Proof.
  destruct (restart_authentication Sim.World Sim.capabilities)
    as (Hkey & Hfallback & Hplain).
  split; [ | split ].
  - apply (Hkey (Worlds.config_ssh (Worlds.ssh_both "/home/cam/.ssh/id_rsa"))
             (Worlds.ssh_both "/home/cam/.ssh/id_rsa") "/home/cam/.ssh/id_rsa"
             (Sim.start Worlds.with_key) [Byte.x2d; Byte.x2d] Worlds.with_key);
      [ reflexivity | reflexivity | discriminate | reflexivity ].
  - apply (Hfallback (Worlds.config_ssh (Worlds.ssh_both "/missing"))
             (Worlds.ssh_both "/missing") "/missing"
             (Sim.start Worlds.with_key)
             (mkError "ENOENT: no such file or directory") Worlds.with_key);
      [ reflexivity | reflexivity | discriminate | reflexivity ].
  - apply (Hplain (Worlds.config_ssh Simple.sshConfig) Simple.sshConfig
             (Sim.start Worlds.with_key)); reflexivity.
Defined.

(** The session [restartFTP] opens when the key is readable. *)
Example restart_with_key :
  events (Hardened.restartFTP (Worlds.config_ssh (Worlds.ssh_both "/home/cam/.ssh/id_rsa")))
    (Sim.start Worlds.with_key) =
  [EvReadFileSync "/home/cam/.ssh/id_rsa" true;
   EvLog "Using private key for SSH connection.";
   EvSshConnect
     (mkSshConfig (Some "cam.example") (Some 22) (Some "root") None
        (Some "/home/cam/.ssh/id_rsa") (Some "sudo systemctl restart vsftpd")
        (Some [Byte.x2d; Byte.x2d]))
     true;
   EvLog "SSH соединение установлено.";
   EvSshExec "sudo systemctl restart vsftpd" true;
   EvSshEnd].
Proof. vm_compute. reflexivity. Qed.

(** * Files that are already there *)

Section PresenceOnly.
Context {E : Type} `{Capabilities E}.

(** [handleFileDownload] downloads only after a failed probe. *)
Lemma handleFileDownload_skips_present : forall remoteFileName dir lp del (st : St E) e1,
    fs_access lp (env st) = (Ok tt, e1) ->
    existsb is_download (events (Hardened.handleFileDownload remoteFileName dir lp del) st)
    = false.
Proof.
  intros remoteFileName dir lp del st e1 Hacc.
  js_red. js_step Hacc. destruct del; js_cases; reflexivity.
Qed.

Lemma handleFileDownload_probe_first : forall remoteFileName dir lp del (st : St E),
    List.length (filter is_download
                   (events (Hardened.handleFileDownload remoteFileName dir lp del) st))
    <= List.length (filter is_failed_probe
                      (events (Hardened.handleFileDownload remoteFileName dir lp del) st)).
Proof.
  intros remoteFileName dir lp del st.
  destruct del; js_cases; simpl; lia.
Qed.

(** In a descent or a [main] of the hardened revision there are at most as
    many downloads as failed probes: where every file is found, nothing is
    transferred. *)
Lemma hardened_descent_probe_first : forall config depth remoteDir localDir remoteEmpty
    (st : St E),
    List.length (filter is_download
                   (events (Hardened.downloadDirectory config depth remoteDir localDir
                              remoteEmpty) st))
    <= List.length (filter is_failed_probe
                      (events (Hardened.downloadDirectory config depth remoteDir localDir
                                 remoteEmpty) st)).
Proof.
  intros config.
  apply (closed_downloadDirectory_hardened
           (fun tr => List.length (filter is_download tr)
                      <= List.length (filter is_failed_probe tr))).
  - simpl. lia.
  - intros a b Ha Hb. rewrite !filter_app, !length_app. lia.
  - intros ev Hev _. destruct ev; try discriminate Hev; simpl; lia.
  - intros dir ok. simpl. lia.
  - intros. apply handleFileDownload_probe_first.
Qed.

Lemma hardened_main_probe_first : forall config fuel depth (st : St E),
    List.length (filter is_download (events (Hardened.main config fuel depth) st))
    <= List.length (filter is_failed_probe (events (Hardened.main config fuel depth) st)).
Proof.
  intros config.
  apply (closed_main_hardened
           (fun tr => List.length (filter is_download tr)
                      <= List.length (filter is_failed_probe tr))).
  - simpl. lia.
  - intros a b Ha Hb. rewrite !filter_app, !length_app. lia.
  - intros ev Hev _. destruct ev; try discriminate Hev; simpl; lia.
  - intros dir ok. simpl. lia.
  - intros. apply handleFileDownload_probe_first.
Qed.

(** The [catch] of the simple revision also catches a failed
    [ftpClient.remove]: a file that is present locally is then downloaded
    again. *)
Lemma simple_refetches_after_failed_remove : forall localDir item (st : St E) e1 err e2,
    fs_access (replaceAll "/"%char "\"%char (localDir ++ "/" ++ name item)) (env st)
    = (Ok tt, e1) ->
    ftp_remove (name item) e1 = (Throw err, e2) ->
    exists ok,
      In (EvDownloadTo (localDir ++ "/" ++ name item) (name item) ok)
         (events (Simple.downloadDirectory_file localDir item) st).
Proof.
  intros localDir item st e1 err e2 Hacc Hrm.
  js_red. js_step Hacc. js_step Hrm.
  destruct (ftp_downloadTo _ _ e2) as [[[] | err'] e3]; js_red.
  - exists true. destruct (ftp_remove (name item) e3) as [[[] | err''] e4]; js_red;
      simpl; auto 10.
  - exists false. simpl; auto 10.
Qed.
End PresenceOnly.

(** C5 on the simple revision, at the input where it fails: [out/a.txt] is
    on the local disk and the server refuses to delete [a.txt].  The probe
    succeeds, the removal fails, and the file is downloaded again before
    the second removal ends the run. *)
Example simple_refetches_present_file :
  Simple.downloadDirectory_file "out" (Sim.file "a.txt")
    (Sim.start Worlds.present_undeletable) =
  (Raised (mkError "550 Delete operation failed."),
   Sim.start (Sim.set_local_files ["out/a.txt"; "out/a.txt"] Worlds.remove_fails),
   [EvFsAccess "out\a.txt" true;
    EvLog "File a.txt already downloaded.";
    EvLog "Deleting remote file  a.txt";
    EvRemove "a.txt" false;
    EvDownloadTo "out/a.txt" "a.txt" true;
    EvLog "File a.txt downloaded to out/a.txt";
    EvLog "Deleting remote file  a.txt";
    EvRemove "a.txt" false]).
Proof. vm_compute. reflexivity. Qed.

(** The hardened revision on the same input: the failed removal is logged
    and nothing is downloaded. *)
Example hardened_keeps_present_file :
  Hardened.handleFileDownload "a.txt" "/data" "out/a.txt" true
    (Sim.start Worlds.present_undeletable) =
  (Done tt, Sim.start Worlds.present_undeletable,
   [EvFsAccess "out/a.txt" true;
    EvLog "Deleting remote file: /data/a.txt";
    EvRemove "a.txt" false;
    EvError "Error deleting remote file /data/a.txt: 550 Delete operation failed."]).
Proof. vm_compute. reflexivity. Qed.

(** A second run of the hardened revision over the scenario of the
    specification, with the policy off: both probes of [out/...] succeed
    and nothing is transferred. *)
Example second_run_transfers_nothing :
  let first := Hardened.main (Worlds.config false) 1 2 (Sim.start Worlds.scenario) in
  existsb is_download (snd first) = true /\
  events (Hardened.main (Worlds.config false) 1 2)
    (Sim.start (Sim.set_remote (Sim.remote Worlds.scenario) (env (snd (fst first))))) =
  [EvLog "Try to connect...";
   EvFtpAccess true;
   EvLog "Success";
   EvLog "Download  /data";
   EvCd "/data" true;
   EvList (Some [Sim.file "a.txt"; Sim.dir "empty"]);
   EvFsAccess "out/a.txt" true;
   EvExistsSync "out/empty" true;
   EvLog "Download  /data/empty";
   EvCd "/data/empty" true;
   EvList (Some []);
   EvLog "Empty dir  /data/empty";
   EvRemoveDir "/data/empty" true;
   EvFtpClose].
Proof. split; vm_compute; reflexivity. Qed.

(** * What can leave a function as an exception *)

Section Raising.
Context {E : Type} `{Capabilities E}.
Variable allowed : Event -> bool.

Lemma raises_only_returning : forall A (m : M E A),
    (forall st e, outcome m st <> Raised e) -> raises_only allowed m.
Proof. intros A m Hm st e Ho. destruct (Hm st e Ho). Qed.

Lemma raises_only_ret : forall A (a : A), raises_only allowed (ret a : M E A).
Proof. intros A a st e Ho. discriminate Ho. Qed.

Lemma raises_only_emit : forall ev, raises_only allowed (emit ev : M E unit).
Proof. intros ev st e Ho. discriminate Ho. Qed.

Lemma raises_only_bind : forall A B (m : M E A) (k : A -> M E B),
    raises_only allowed m ->
    (forall a, raises_only allowed (k a)) ->
    raises_only allowed (bind m k).
Proof.
  intros A B m k Hm Hk st e. specialize (Hm st). unfold outcome, events, bind in *.
  destruct (m st) as [[[a | e1 | ] st1] ev1]; cbn [fst snd] in *.
  - specialize (Hk a st1 e). unfold outcome, events in Hk.
    destruct (k a st1) as [[o2 st2] ev2]; cbn [fst snd] in *.
    intros Ho. rewrite existsb_app, (Hk Ho). apply orb_true_r.
  - intros Ho. apply (Hm e1). reflexivity.
  - discriminate.
Qed.

Lemma raises_only_try_catch : forall A (m : M E A) (h : JsError -> M E A),
    (forall e, raises_only allowed (h e)) ->
    raises_only allowed (try_catch m h).
Proof.
  intros A m h Hh st e. unfold outcome, events, try_catch.
  destruct (m st) as [[[a | e1 | ] st1] ev1]; cbn [fst snd]; try discriminate.
  specialize (Hh e1 st1 e). unfold outcome, events in Hh.
  destruct (h e1 st1) as [[o2 st2] ev2]; cbn [fst snd] in *.
  intros Ho. rewrite existsb_app, (Hh Ho). apply orb_true_r.
Qed.

Lemma raises_only_try_finally : forall A (m : M E A) (fin : M E unit),
    raises_only allowed m ->
    raises_only allowed fin ->
    raises_only allowed (try_finally m fin).
Proof.
  intros A m fin Hm Hf st e. specialize (Hm st). unfold outcome, events, try_finally in *.
  destruct (m st) as [[o st1] ev1]; cbn [fst snd] in *.
  specialize (Hf st1). unfold outcome, events in Hf.
  destruct o as [a | e1 | ]; try discriminate;
    destruct (fin st1) as [[[u | e2 | ] st2] ev2]; cbn [fst snd] in *;
    intros Ho; try discriminate Ho; rewrite existsb_app.
  - rewrite (Hf e2 eq_refl). apply orb_true_r.
  - rewrite (Hm e1 eq_refl). reflexivity.
  - rewrite (Hf e2 eq_refl). apply orb_true_r.
Qed.

Lemma raises_only_unawaited : forall (f : Callback),
    raises_only allowed (unawaited f : M E unit).
Proof. intros f st e Ho. discriminate Ho. Qed.

Lemma raises_only_forOf : forall A (body : A -> M E unit),
    (forall item, raises_only allowed (body item)) ->
    forall items, raises_only allowed (forOf items body).
Proof.
  intros A body Hb. induction items as [| item rest IH]; simpl.
  - apply raises_only_ret.
  - apply raises_only_bind; auto.
Qed.

Lemma raises_only_call : forall A (f : E -> Result A * E) (record : Result A -> Event),
    (forall err, allowed (record (Throw err)) = true) ->
    raises_only allowed (call f record).
Proof.
  intros A f record Hr st e. unfold outcome, events, call.
  destruct (f (env st)) as [[a | err] e1]; cbn [fst snd]; try discriminate.
  intros _. simpl. rewrite Hr. reflexivity.
Qed.

Lemma raises_only_existsSync : forall path, raises_only allowed (existsSync path : M E bool).
Proof. intros path st e Ho. discriminate Ho. Qed.

Lemma raises_only_get_rl : raises_only allowed (get_rl : M E RlHandle).
Proof. intros st e Ho. discriminate Ho. Qed.

Lemma raises_only_set_rl : forall h, raises_only allowed (set_rl h : M E unit).
Proof. intros h st e Ho. discriminate Ho. Qed.

Lemma raises_only_ftpClient_close : raises_only allowed (ftpClient_close : M E unit).
Proof. intros st e Ho. discriminate Ho. Qed.

Lemma raises_only_ftpClient_closed : raises_only allowed (ftpClient_closed : M E bool).
Proof. intros st e Ho. discriminate Ho. Qed.

Lemma raises_only_conn_connect : forall cfg, raises_only allowed (conn_connect cfg : M E _).
Proof.
  intros cfg st e. unfold outcome, conn_connect.
  destruct (ssh_connect cfg (env st)) as [[err | ] e1]; discriminate.
Qed.

Lemma raises_only_conn_exec : forall command,
    raises_only allowed (conn_exec command : M E _).
Proof.
  intros command st e. unfold outcome, conn_exec.
  destruct (ssh_exec command (env st)) as [r e1]; discriminate.
Qed.

Lemma raises_only_conn_end : raises_only allowed (conn_end : M E unit).
Proof. intros st e Ho. discriminate Ho. Qed.
End Raising.

Ltac raising :=
  repeat (cbv delta [console_log console_log2 console_error2];
          first
            [ apply raises_only_ret
            | apply raises_only_emit
            | apply raises_only_unawaited
            | apply raises_only_existsSync
            | apply raises_only_get_rl
            | apply raises_only_set_rl
            | apply raises_only_ftpClient_close
            | apply raises_only_ftpClient_closed
            | apply raises_only_conn_connect
            | apply raises_only_conn_exec
            | apply raises_only_conn_end
            | apply raises_only_try_catch
            | apply raises_only_bind
            | apply raises_only_try_finally
            | apply raises_only_forOf
            | match goal with
              | |- raises_only _ (if ?b then _ else _) => destruct b
              | |- raises_only _ (match ?x with _ => _ end) => destruct x
              end ];
          repeat match goal with |- forall _, _ => intro end;
          try assumption).

Section NeverRaises.
Context {E : Type} `{Capabilities E}.

Lemma handleFileDownload_raises_only : forall allowed remoteFileName dir lp del,
    raises_only allowed
      (Hardened.handleFileDownload remoteFileName dir lp del : M E unit).
Proof.
  intros allowed remoteFileName dir lp del.
  unfold Hardened.handleFileDownload. raising.
Qed.

Lemma closeRlIfOpen_raises_only : forall allowed,
    raises_only allowed (Hardened.closeRlIfOpen : M E unit).
Proof. intros allowed. unfold Hardened.closeRlIfOpen. raising. Qed.

Lemma closeFtpIfOpen_raises_only : forall allowed,
    raises_only allowed (Hardened.closeFtpIfOpen : M E unit).
Proof. intros allowed. unfold Hardened.closeFtpIfOpen. raising. Qed.

Lemma sshConnectionConfig_raises_only : forall allowed config,
    raises_only allowed (Hardened.sshConnectionConfig config : M E SshConfig).
Proof.
  intros allowed config. unfold Hardened.sshConnectionConfig. raising.
Qed.

Lemma hardened_restartFTP_raises_only : forall allowed config,
    raises_only allowed (Hardened.restartFTP config : M E unit).
Proof.
  intros allowed config.
  unfold Hardened.restartFTP, Hardened.sessionHandlers, Hardened.sshConnectionConfig,
    Hardened.streamHandlers.
  raising.
Qed.

Lemma simple_restartFTP_raises_only : forall allowed,
    raises_only allowed (Simple.restartFTP : M E unit).
Proof.
  intros allowed. unfold Simple.restartFTP, Simple.sessionHandlers, Simple.streamHandlers. raising.
Qed.

Lemma hardened_onAnswer_raises_only : forall allowed config callback answer,
    raises_only allowed (Hardened.onAnswer config callback answer : M E unit).
Proof.
  intros allowed config callback answer.
  unfold Hardened.onAnswer, Hardened.invoke.
  raising;
    first [ apply closeRlIfOpen_raises_only
          | apply sshConnectionConfig_raises_only
          | apply hardened_restartFTP_raises_only ].
Qed.

Lemma hardened_waitForExit_raises_only : forall allowed config callback,
    raises_only allowed (Hardened.waitForExit config callback : M E unit).
Proof.
  intros allowed config callback.
  unfold Hardened.waitForExit.
  raising;
    first [ apply closeRlIfOpen_raises_only
          | apply hardened_onAnswer_raises_only ].
Qed.

Lemma hardened_main_raises_only : forall allowed config fuel depth,
    raises_only allowed (Hardened.main config fuel depth : M E unit).
Proof.
  intros allowed config fuel depth. destruct fuel as [| fuel]; simpl.
  - intros st e Ho. discriminate Ho.
  - raising;
      first [ apply closeRlIfOpen_raises_only
            | apply closeFtpIfOpen_raises_only
            | apply hardened_onAnswer_raises_only
            | apply hardened_waitForExit_raises_only ].
Qed.

Lemma hardened_descent_raises_only : forall config depth remoteDir localDir remoteEmpty,
    raises_only is_failed_list
      (Hardened.downloadDirectory config depth remoteDir localDir remoteEmpty : M E unit).
Proof.
  intros config. induction depth as [| depth IH];
    intros remoteDir localDir remoteEmpty; cbn [Hardened.downloadDirectory].
  - intros st e Ho. discriminate Ho.
  - unfold Hardened.downloadDirectory_body, Hardened.downloadDirectory_item.
    raising;
      first [ apply handleFileDownload_raises_only
            | apply IH
            | unfold ftpClient_list; apply raises_only_call; reflexivity ].
Qed.

Lemma simple_waitForExit_raises_only : forall callback,
    raises_only is_failed_question (Simple.waitForExit callback : M E unit).
Proof.
  intros callback.
  unfold Simple.waitForExit, Simple.onAnswer, Simple.invoke.
  raising;
    first [ apply simple_restartFTP_raises_only
          | unfold question; apply raises_only_call; reflexivity ].
Qed.

Lemma simple_onAnswer_raises_only : forall allowed callback answer,
    raises_only allowed (Simple.onAnswer callback answer : M E unit).
Proof.
  intros allowed callback answer. unfold Simple.onAnswer, Simple.invoke.
  raising; apply simple_restartFTP_raises_only.
Qed.

Lemma simple_main_raises_only : forall fuel depth,
    raises_only is_failed_question (Simple.main fuel depth : M E unit).
Proof.
  intros fuel depth. destruct fuel as [| fuel]; simpl.
  - intros st e Ho. discriminate Ho.
  - raising;
      first [ apply simple_waitForExit_raises_only
            | apply simple_onAnswer_raises_only
            | unfold question; apply raises_only_call; reflexivity ].
Qed.

Lemma nobody_absent : forall tr, existsb nobody tr = false.
Proof. induction tr as [| ev tr IH]; [ reflexivity | exact IH ]. Qed.

Lemma failed_list_recorded : forall tr,
    existsb is_failed_list tr = true -> In (EvList None) tr.
Proof.
  intros tr Hex. apply existsb_exists in Hex as (ev & Hin & Hev).
  destruct ev as [ | | | | [files | ] | | | | | | | | | | | | | | | ];
    try discriminate Hev. exact Hin.
Qed.

Lemma failed_question_recorded : forall tr,
    existsb is_failed_question tr = true -> In (EvRlQuestion None) tr.
Proof.
  intros tr Hex. apply existsb_exists in Hex as (ev & Hin & Hev).
  destruct ev as [ | | | | | | | | | | | | | | [a | ] | | | | | ];
    try discriminate Hev. exact Hin.
Qed.
End NeverRaises.

(** * More about the handling of one file *)

(** X1.  [handleFileDownload] never throws: whatever its calls do, it
    returns.  It probes the local path exactly once and calls
    [ftpClient.downloadTo] and [ftpClient.remove] at most once each. *)
Theorem handleFileDownload_total : forall (E : Type) (C : Capabilities E)
    remoteFileName dir lp del (st : St E),
    outcome (Hardened.handleFileDownload remoteFileName dir lp del) st = Done tt /\
    List.length (filter is_probe
                   (events (Hardened.handleFileDownload remoteFileName dir lp del) st)) = 1 /\
    List.length (filter is_download
                   (events (Hardened.handleFileDownload remoteFileName dir lp del) st)) <= 1 /\
    List.length (filter is_remove
                   (events (Hardened.handleFileDownload remoteFileName dir lp del) st)) <= 1.
Proof.
  intros E C remoteFileName dir lp del st.
  destruct del; js_cases; repeat match goal with u : unit |- _ => destruct u end;
    simpl; repeat split; lia.
Qed.

(** X2.  What [handleFileDownload] does when nothing fails.  A file found
    locally is not downloaded and is removed remotely exactly when
    [deleteRemote] is set; a file not found locally is downloaded to
    [localFilePath] under its remote name and then removed remotely exactly
    when [deleteRemote] is set. *)
Theorem handleFileDownload_succeeds : forall (E : Type) (C : Capabilities E),
    (forall remoteFileName dir lp (st : St E) e1,
        fs_access lp (env st) = (Ok tt, e1) ->
        Hardened.handleFileDownload remoteFileName dir lp false st =
        (Done tt, mkSt e1 (rl st), [EvFsAccess lp true]))
    /\
    (forall remoteFileName dir lp (st : St E) e1 e2,
        fs_access lp (env st) = (Ok tt, e1) ->
        ftp_remove remoteFileName e1 = (Ok tt, e2) ->
        Hardened.handleFileDownload remoteFileName dir lp true st =
        (Done tt, mkSt e2 (rl st),
         [EvFsAccess lp true;
          EvLog ("Deleting remote file:" ++ " " ++ path_posix_join dir remoteFileName);
          EvRemove remoteFileName true]))
    /\
    (forall remoteFileName dir lp (st : St E) err e1 e2,
        fs_access lp (env st) = (Throw err, e1) ->
        ftp_downloadTo lp remoteFileName e1 = (Ok tt, e2) ->
        Hardened.handleFileDownload remoteFileName dir lp false st =
        (Done tt, mkSt e2 (rl st),
         [EvFsAccess lp false;
          EvLog ("Downloading file " ++ remoteFileName ++ " to " ++ lp ++ "...");
          EvDownloadTo lp remoteFileName true;
          EvLog ("File " ++ remoteFileName ++ " downloaded successfully to "
                 ++ lp ++ ".")]))
    /\
    (forall remoteFileName dir lp (st : St E) err e1 e2 e3,
        fs_access lp (env st) = (Throw err, e1) ->
        ftp_downloadTo lp remoteFileName e1 = (Ok tt, e2) ->
        ftp_remove remoteFileName e2 = (Ok tt, e3) ->
        Hardened.handleFileDownload remoteFileName dir lp true st =
        (Done tt, mkSt e3 (rl st),
         [EvFsAccess lp false;
          EvLog ("Downloading file " ++ remoteFileName ++ " to " ++ lp ++ "...");
          EvDownloadTo lp remoteFileName true;
          EvLog ("File " ++ remoteFileName ++ " downloaded successfully to "
                 ++ lp ++ ".");
          EvLog ("Deleting remote file:" ++ " " ++ path_posix_join dir remoteFileName);
          EvRemove remoteFileName true])).
Proof.
  intros E C. split; [ | split; [ | split ] ].
  - intros remoteFileName dir lp st e1 Hacc. js_red. js_step Hacc. reflexivity.
  - intros remoteFileName dir lp st e1 e2 Hacc Hrm.
    js_red. js_step Hacc. js_step Hrm. reflexivity.
  - intros remoteFileName dir lp st err e1 e2 Hacc Hget.
    js_red. js_step Hacc. js_step Hget. reflexivity.
  - intros remoteFileName dir lp st err e1 e2 e3 Hacc Hget Hrm.
    js_red. js_step Hacc. js_step Hget. js_step Hrm. reflexivity.
Qed.

Lemma handleFileDownload_succeeds_witness :
  Hardened.handleFileDownload "a.txt" "/data" "out/a.txt" false
    (Sim.start Worlds.a_present) =
  (Done tt, Sim.start Worlds.a_present, [EvFsAccess "out/a.txt" true])
  /\
  Hardened.handleFileDownload "a.txt" "/data" "out/a.txt" true
    (Sim.start Worlds.a_present) =
  (Done tt, Sim.start Worlds.a_present,
   [EvFsAccess "out/a.txt" true;
    EvLog "Deleting remote file: /data/a.txt";
    EvRemove "a.txt" true])
  /\
  Hardened.handleFileDownload "a.txt" "/data" "out/a.txt" false (Sim.start Sim.blank) =
  (Done tt, Sim.start Worlds.a_present,
   [EvFsAccess "out/a.txt" false;
    EvLog "Downloading file a.txt to out/a.txt...";
    EvDownloadTo "out/a.txt" "a.txt" true;
    EvLog "File a.txt downloaded successfully to out/a.txt."])
  /\
  Hardened.handleFileDownload "a.txt" "/data" "out/a.txt" true (Sim.start Sim.blank) =
  (Done tt, Sim.start Worlds.a_present,
   [EvFsAccess "out/a.txt" false;
    EvLog "Downloading file a.txt to out/a.txt...";
    EvDownloadTo "out/a.txt" "a.txt" true;
    EvLog "File a.txt downloaded successfully to out/a.txt.";
    EvLog "Deleting remote file: /data/a.txt";
    EvRemove "a.txt" true]).
Proof.
  destruct (handleFileDownload_succeeds Sim.World Sim.capabilities)
    as (Hkeep & Hdrop & Hget & Hmove).
  split; [ | split; [ | split ] ].
  - apply (Hkeep "a.txt" "/data" "out/a.txt" (Sim.start Worlds.a_present)
             Worlds.a_present); reflexivity.
  - apply (Hdrop "a.txt" "/data" "out/a.txt" (Sim.start Worlds.a_present)
             Worlds.a_present Worlds.a_present); reflexivity.
  - apply (Hget "a.txt" "/data" "out/a.txt" (Sim.start Sim.blank)
             (mkError "ENOENT: no such file or directory") Sim.blank Worlds.a_present);
      reflexivity.
  - apply (Hmove "a.txt" "/data" "out/a.txt" (Sim.start Sim.blank)
             (mkError "ENOENT: no such file or directory") Sim.blank Worlds.a_present
             Worlds.a_present); reflexivity.
Defined.

(** X3.  [currentRemoteFtpDir] only reaches the console.  Two invocations
    of [handleFileDownload] that differ in that argument alone end the
    same way, in the same world, and make the same calls: the file is
    probed, downloaded and removed by [remoteFileName] and
    [localFilePath], relative to whatever directory the client is in. *)
Theorem handleFileDownload_dir_only_logged : forall (E : Type) (C : Capabilities E)
    remoteFileName dir1 dir2 lp del (st : St E),
    outcome (Hardened.handleFileDownload remoteFileName dir1 lp del) st =
    outcome (Hardened.handleFileDownload remoteFileName dir2 lp del) st /\
    final (Hardened.handleFileDownload remoteFileName dir1 lp del) st =
    final (Hardened.handleFileDownload remoteFileName dir2 lp del) st /\
    filter (fun ev => negb (is_console ev))
      (events (Hardened.handleFileDownload remoteFileName dir1 lp del) st) =
    filter (fun ev => negb (is_console ev))
      (events (Hardened.handleFileDownload remoteFileName dir2 lp del) st).
Proof.
  intros E C remoteFileName dir1 dir2 lp del st.
  destruct del; js_cases; repeat split; reflexivity.
Qed.

(** * More about the descent *)

Section ListingFailure.
Context {E : Type} `{Capabilities E}.

Lemma hardened_list_failure : forall config self remoteDir localDir remoteEmpty
    (st : St E) e1 err e2,
    ftp_cd remoteDir (env st) = (Ok tt, e1) ->
    ftp_list e1 = (Throw err, e2) ->
    Hardened.downloadDirectory_body config self remoteDir localDir remoteEmpty st =
    (Raised err, mkSt e2 (rl st),
     [EvLog ("Download " ++ " " ++ remoteDir); EvCd remoteDir true; EvList None]).
Proof.
  intros config self remoteDir localDir remoteEmpty st e1 err e2 Hcd Hls.
  js_red. js_step Hcd. js_step Hls. reflexivity.
Qed.

Lemma simple_list_failure : forall self remoteDir localDir remoteEmpty
    (st : St E) e1 err e2,
    ftp_cd remoteDir (env st) = (Ok tt, e1) ->
    ftp_list e1 = (Throw err, e2) ->
    Simple.downloadDirectory_body self remoteDir localDir remoteEmpty st =
    (Raised err, mkSt e2 (rl st),
     [EvLog ("Download " ++ " " ++ remoteDir); EvCd remoteDir true; EvList None]).
Proof.
  intros self remoteDir localDir remoteEmpty st e1 err e2 Hcd Hls.
  js_red. js_step Hcd. js_step Hls. reflexivity.
Qed.

Lemma hardened_sublist_failure : forall config depth remoteDir localDir item rest
    (st : St E) e1 err e2,
    type item = Directory ->
    fs_existsSync (path_join localDir (name item)) (env st) = true ->
    ftp_cd (path_posix_join remoteDir (name item)) (env st) = (Ok tt, e1) ->
    ftp_list e1 = (Throw err, e2) ->
    forOf (item :: rest)
      (Hardened.downloadDirectory_item config
         (Hardened.downloadDirectory config (S depth)) remoteDir localDir) st =
    (Raised err, mkSt e2 (rl st),
     [EvExistsSync (path_join localDir (name item)) true;
      EvLog ("Download " ++ " " ++ path_posix_join remoteDir (name item));
      EvCd (path_posix_join remoteDir (name item)) true;
      EvList None]).
Proof.
  intros config depth remoteDir localDir item rest st e1 err e2 Ht Hex Hcd Hls.
  rewrite (hardened_directory_present _ _ _ _ _ _ _ Ht Hex).
  unfold bind. cbn [Hardened.downloadDirectory].
  rewrite (hardened_list_failure _ _ _ _ _ _ _ _ _ Hcd Hls). reflexivity.
Qed.
End ListingFailure.

(** X4.  A listing that fails is not caught in either revision.  When
    [ftpClient.list] throws after the directory has been entered, the
    invocation of [downloadDirectory] ends in that exception without a log
    line; in the hardened revision too, where a failing [ftpClient.cd]
    would only have been logged, the exception of a subdirectory leaves
    the loop of its parent, whose remaining entries are not processed. *)
Theorem listing_failure_propagates : forall (E : Type) (C : Capabilities E),
    (forall config self remoteDir localDir remoteEmpty (st : St E) e1 err e2,
        ftp_cd remoteDir (env st) = (Ok tt, e1) ->
        ftp_list e1 = (Throw err, e2) ->
        Hardened.downloadDirectory_body config self remoteDir localDir remoteEmpty st =
        (Raised err, mkSt e2 (rl st),
         [EvLog ("Download " ++ " " ++ remoteDir); EvCd remoteDir true; EvList None]))
    /\
    (forall config depth remoteDir localDir item rest (st : St E) e1 err e2,
        type item = Directory ->
        fs_existsSync (path_join localDir (name item)) (env st) = true ->
        ftp_cd (path_posix_join remoteDir (name item)) (env st) = (Ok tt, e1) ->
        ftp_list e1 = (Throw err, e2) ->
        forOf (item :: rest)
          (Hardened.downloadDirectory_item config
             (Hardened.downloadDirectory config (S depth)) remoteDir localDir) st =
        (Raised err, mkSt e2 (rl st),
         [EvExistsSync (path_join localDir (name item)) true;
          EvLog ("Download " ++ " " ++ path_posix_join remoteDir (name item));
          EvCd (path_posix_join remoteDir (name item)) true;
          EvList None]))
    /\
    (forall self remoteDir localDir remoteEmpty (st : St E) e1 err e2,
        ftp_cd remoteDir (env st) = (Ok tt, e1) ->
        ftp_list e1 = (Throw err, e2) ->
        Simple.downloadDirectory_body self remoteDir localDir remoteEmpty st =
        (Raised err, mkSt e2 (rl st),
         [EvLog ("Download " ++ " " ++ remoteDir); EvCd remoteDir true; EvList None])).
Proof.
  intros E C. split; [ | split ].
  - apply hardened_list_failure.
  - apply hardened_sublist_failure.
  - apply simple_list_failure.
Qed.

Lemma listing_failure_propagates_witness :
  Hardened.downloadDirectory_body (Worlds.config true) (fun _ _ _ => ret tt)
    "/data" "out" false (Faulty.start Faulty.unlistable) =
  (Raised (mkError "425 Can't open data connection."),
   Faulty.start (Faulty.over Faulty.unlistable (Sim.set_cwd "/data" Worlds.scenario)),
   [EvLog "Download  /data"; EvCd "/data" true; EvList None])
  /\
  forOf [Sim.dir "data"; Sim.file "b.txt"]
    (Hardened.downloadDirectory_item (Worlds.config true)
       (Hardened.downloadDirectory (Worlds.config true) 1) "" "")
    (Faulty.start
       (Faulty.over Faulty.unlistable (Sim.set_local_dirs ["/data"] Worlds.scenario))) =
  (Raised (mkError "425 Can't open data connection."),
   Faulty.start
     (Faulty.over Faulty.unlistable
        (Sim.set_cwd "/data" (Sim.set_local_dirs ["/data"] Worlds.scenario))),
   [EvExistsSync "/data" true;
    EvLog "Download  /data";
    EvCd "/data" true;
    EvList None])
  /\
  Simple.downloadDirectory_body (fun _ _ _ => ret tt)
    "/data" "out" false (Faulty.start Faulty.unlistable) =
  (Raised (mkError "425 Can't open data connection."),
   Faulty.start (Faulty.over Faulty.unlistable (Sim.set_cwd "/data" Worlds.scenario)),
   [EvLog "Download  /data"; EvCd "/data" true; EvList None]).
Proof.
  destruct (listing_failure_propagates Faulty.World Faulty.capabilities)
    as (Hbody & Hsub & Sbody).
  split; [ | split ].
  - apply (Hbody (Worlds.config true) (fun _ _ _ => ret tt) "/data" "out" false
             (Faulty.start Faulty.unlistable)
             (Faulty.over Faulty.unlistable (Sim.set_cwd "/data" Worlds.scenario))
             (mkError "425 Can't open data connection.")
             (Faulty.over Faulty.unlistable (Sim.set_cwd "/data" Worlds.scenario)));
      reflexivity.
  - apply (Hsub (Worlds.config true) 0 "" "" (Sim.dir "data") [Sim.file "b.txt"]
             (Faulty.start
                (Faulty.over Faulty.unlistable
                   (Sim.set_local_dirs ["/data"] Worlds.scenario)))
             (Faulty.over Faulty.unlistable
                (Sim.set_cwd "/data" (Sim.set_local_dirs ["/data"] Worlds.scenario)))
             (mkError "425 Can't open data connection.")
             (Faulty.over Faulty.unlistable
                (Sim.set_cwd "/data" (Sim.set_local_dirs ["/data"] Worlds.scenario))));
      reflexivity.
  - apply (Sbody (fun _ _ _ => ret tt) "/data" "out" false
             (Faulty.start Faulty.unlistable)
             (Faulty.over Faulty.unlistable (Sim.set_cwd "/data" Worlds.scenario))
             (mkError "425 Can't open data connection.")
             (Faulty.over Faulty.unlistable (Sim.set_cwd "/data" Worlds.scenario)));
      reflexivity.
Defined.

(** X5.  Entries that are neither files nor directories (symbolic links,
    entries of unknown type).  The hardened revision passes them over
    without a call or a log line and goes on with the next entry.  The
    simple revision tests [isDirectory] only and handles every other
    entry as a file: a symbolic link that has no local copy is handed to
    [ftpClient.downloadTo]. *)
Theorem other_entries : forall (E : Type) (C : Capabilities E),
    (forall config self remoteDir localDir item rest (st : St E),
        isDirectory item = false ->
        isFile item = false ->
        forOf (item :: rest)
          (Hardened.downloadDirectory_item config self remoteDir localDir) st =
        forOf rest (Hardened.downloadDirectory_item config self remoteDir localDir) st)
    /\
    (forall self remoteDir localDir item (st : St E) err e1,
        type item = SymbolicLink ->
        fs_access (replaceAll "/"%char "\"%char (localDir ++ "/" ++ name item)) (env st)
        = (Throw err, e1) ->
        In (EvDownloadTo (localDir ++ "/" ++ name item) (name item)
              (succeeded (fst (ftp_downloadTo (localDir ++ "/" ++ name item)
                                 (name item) e1))))
           (events (Simple.downloadDirectory_item self remoteDir localDir item) st)).
Proof.
  intros E C. split.
  - intros config self remoteDir localDir item rest st Hd Hf.
    cbn [forOf]. unfold Hardened.downloadDirectory_item. rewrite Hd, Hf.
    unfold bind, ret. destruct (forOf rest _ st) as [[o s] ev]. reflexivity.
  - intros self remoteDir localDir item st err e1 Ht Hacc.
    unfold Simple.downloadDirectory_item, isDirectory. rewrite Ht.
    js_red. js_step Hacc.
    destruct (ftp_downloadTo _ _ e1) as [[[] | err'] e2]; js_red.
    + destruct (ftp_remove (name item) e2) as [[[] | err''] e3]; js_red;
        simpl; auto 10.
    + simpl; auto 10.
Qed.

Lemma other_entries_witness :
  forOf [mkFileInfo "latest" SymbolicLink; Sim.file "b.txt"]
    (Hardened.downloadDirectory_item (Worlds.config true) (fun _ _ _ => ret tt)
       "/data" "out")
    (Sim.start Sim.blank) =
  forOf [Sim.file "b.txt"]
    (Hardened.downloadDirectory_item (Worlds.config true) (fun _ _ _ => ret tt)
       "/data" "out")
    (Sim.start Sim.blank)
  /\
  In (EvDownloadTo "out/latest" "latest" true)
     (events (Simple.downloadDirectory_item (fun _ _ _ => ret tt) "/data" "out"
                (mkFileInfo "latest" SymbolicLink))
        (Sim.start Sim.blank)).
Proof.
  destruct (other_entries Sim.World Sim.capabilities) as (Hskip & Sfetch).
  split.
  - apply (Hskip (Worlds.config true) (fun _ _ _ => ret tt) "/data" "out"
             (mkFileInfo "latest" SymbolicLink) [Sim.file "b.txt"]
             (Sim.start Sim.blank)); reflexivity.
  - apply (Sfetch (fun _ _ _ => ret tt) "/data" "out"
             (mkFileInfo "latest" SymbolicLink) (Sim.start Sim.blank)
             (mkError "ENOENT: no such file or directory") Sim.blank); reflexivity.
Defined.

(** * Where the client is taken *)

Lemma enters_only_nil : forall Q, enters_only Q [].
Proof. intros Q d ok []. Qed.

Lemma enters_only_app : forall Q a b,
    enters_only Q a -> enters_only Q b -> enters_only Q (a ++ b).
Proof.
  intros Q a b Ha Hb d ok Hin. apply in_app_or in Hin as [Hin | Hin]; eauto.
Qed.

Lemma enters_only_one : forall Q ev, is_cd ev = false -> enters_only Q [ev].
Proof.
  intros Q ev Hev d ok [Heq | []]. subst ev. discriminate Hev.
Qed.

Lemma enters_only_weaken : forall (Q1 Q2 : string -> Prop) tr,
    (forall d, Q1 d -> Q2 d) -> enters_only Q1 tr -> enters_only Q2 tr.
Proof. intros Q1 Q2 tr Hq Htr d ok Hin. eauto. Qed.

Lemma reach_child : forall join dir n d, reach join (join dir n) d -> reach join dir d.
Proof.
  intros join dir n d [-> | Hb]; right.
  - apply below_child.
  - eapply below_through_child; eassumption.
Qed.

Section Entering.
Context {E : Type} `{Capabilities E}.

Lemma handleFileDownload_stays : forall Q remoteFileName dir lp del (st : St E),
    enters_only Q (events (Hardened.handleFileDownload remoteFileName dir lp del) st).
Proof.
  intros Q remoteFileName dir lp del st.
  pose proof (enters_only_nil Q) as P_nil.
  pose proof (enters_only_app Q) as P_app.
  pose proof (enters_only_one Q) as P_one.
  unfold Hardened.handleFileDownload. closed_by P_nil P_app P_one.
Qed.

Lemma downloadDirectory_file_stays : forall Q localDir item (st : St E),
    enters_only Q (events (Simple.downloadDirectory_file localDir item) st).
Proof.
  intros Q localDir item st.
  pose proof (enters_only_nil Q) as P_nil.
  pose proof (enters_only_app Q) as P_app.
  pose proof (enters_only_one Q) as P_one.
  unfold Simple.downloadDirectory_file, Simple.DELETE_REMOTE_FILES.
  closed_by P_nil P_app P_one.
Qed.

Lemma hardened_descent_enters : forall config depth remoteDir localDir remoteEmpty
    (st : St E),
    enters_only (reach path_posix_join remoteDir)
      (events (Hardened.downloadDirectory config depth remoteDir localDir remoteEmpty) st).
Proof.
  intros config. induction depth as [| depth IH];
    intros remoteDir localDir remoteEmpty st; cbn [Hardened.downloadDirectory].
  - apply enters_only_nil.
  - pose proof (enters_only_nil (reach path_posix_join remoteDir)) as P_nil.
    pose proof (enters_only_app (reach path_posix_join remoteDir)) as P_app.
    pose proof (enters_only_one (reach path_posix_join remoteDir)) as P_one.
    unfold Hardened.downloadDirectory_body, Hardened.downloadDirectory_item.
    closed_by P_nil P_app P_one;
      first
        [ solve [ apply (P_one (EvExistsSync _ _)); reflexivity ]
        | solve [ apply handleFileDownload_stays ]
        | solve [ eapply enters_only_weaken; [ | apply IH ];
                  intros d; apply reach_child ]
        | intros d ok [Heq | []]; injection Heq as <- _; left; reflexivity ].
Qed.

Lemma simple_descent_enters : forall depth remoteDir localDir remoteEmpty (st : St E),
    enters_only (reach slash remoteDir)
      (events (Simple.downloadDirectory depth remoteDir localDir remoteEmpty) st).
Proof.
  induction depth as [| depth IH];
    intros remoteDir localDir remoteEmpty st; cbn [Simple.downloadDirectory].
  - apply enters_only_nil.
  - pose proof (enters_only_nil (reach slash remoteDir)) as P_nil.
    pose proof (enters_only_app (reach slash remoteDir)) as P_app.
    pose proof (enters_only_one (reach slash remoteDir)) as P_one.
    unfold Simple.downloadDirectory_body, Simple.downloadDirectory_item.
    closed_by P_nil P_app P_one;
      first
        [ solve [ apply (P_one (EvExistsSync _ _)); reflexivity ]
        | solve [ apply downloadDirectory_file_stays ]
        | solve [ eapply enters_only_weaken; [ | apply IH ];
                  intros d; apply (reach_child slash) ]
        | intros d ok [Heq | []]; injection Heq as <- _; left; reflexivity ].
Qed.
End Entering.

Section Descending.
Context {E : Type} `{Capabilities E}.

(** One invocation of the hardened revision: the log line, the [cd] into
    the directory itself, and after that only directories below it. *)
Lemma hardened_invocation_enters : forall config depth remoteDir localDir remoteEmpty
    (st : St E),
    exists ok tail,
      events (Hardened.downloadDirectory config (S depth) remoteDir localDir remoteEmpty) st
      = EvLog ("Download " ++ " " ++ remoteDir) :: EvCd remoteDir ok :: tail /\
      enters_only (below path_posix_join remoteDir) tail.
Proof.
  intros config depth remoteDir localDir remoteEmpty st.
  pose proof (enters_only_nil (below path_posix_join remoteDir)) as P_nil.
  pose proof (enters_only_app (below path_posix_join remoteDir)) as P_app.
  pose proof (enters_only_one (below path_posix_join remoteDir)) as P_one.
  cbn [Hardened.downloadDirectory].
  unfold events, Hardened.downloadDirectory_body.
  unfold bind at 1. unfold console_log2 at 1, emit at 1. cbv beta iota.
  unfold bind at 1. unfold try_catch at 1. unfold bind at 1.
  unfold ftpClient_cd at 1, call at 1.
  destruct (ftp_cd remoteDir (env st)) as [[[] | err] e1]; cbv beta iota.
  - unfold ret at 1. cbv beta iota.
    match goal with
    | |- context [bind ftpClient_list ?k ?s] =>
        assert (Hrest : enters_only (below path_posix_join remoteDir)
                          (events (bind ftpClient_list k) s))
    end.
    { unfold Hardened.downloadDirectory_item.
      closed_by P_nil P_app P_one;
        first
          [ solve [ apply (P_one (EvExistsSync _ _)); reflexivity ]
          | solve [ apply handleFileDownload_stays ]
          | solve [ eapply enters_only_weaken; [ | apply hardened_descent_enters ];
                    intros d [-> | Hb];
                    [ apply below_child | eapply below_through_child; eassumption ] ] ]. }
    unfold events in Hrest.
    destruct (bind ftpClient_list _ _) as [[o s] ev]. cbn [snd app] in *.
    exists true, ev. split; [ reflexivity | exact Hrest ].
  - cbv beta iota delta [console_error2 emit bind ret]. cbn [snd app].
    eexists. eexists. split; [ reflexivity | ].
    apply P_one. reflexivity.
Qed.

(** The same for the simple revision, where a directory below has a longer
    path. *)
Lemma simple_invocation_enters : forall depth remoteDir localDir remoteEmpty (st : St E),
    exists ok tail,
      events (Simple.downloadDirectory (S depth) remoteDir localDir remoteEmpty) st
      = EvLog ("Download " ++ " " ++ remoteDir) :: EvCd remoteDir ok :: tail /\
      enters_only (below slash remoteDir) tail.
Proof.
  intros depth remoteDir localDir remoteEmpty st.
  pose proof (enters_only_nil (below slash remoteDir)) as P_nil.
  pose proof (enters_only_app (below slash remoteDir)) as P_app.
  pose proof (enters_only_one (below slash remoteDir)) as P_one.
  cbn [Simple.downloadDirectory].
  unfold events, Simple.downloadDirectory_body.
  unfold bind at 1. unfold console_log2 at 1, emit at 1. cbv beta iota.
  unfold bind at 1. unfold ftpClient_cd at 1, call at 1.
  destruct (ftp_cd remoteDir (env st)) as [[[] | err] e1]; cbv beta iota.
  - match goal with
    | |- context [bind ftpClient_list ?k ?s] =>
        assert (Hrest : enters_only (below slash remoteDir)
                          (events (bind ftpClient_list k) s))
    end.
    { unfold Simple.downloadDirectory_item.
      closed_by P_nil P_app P_one;
        first
          [ solve [ apply (P_one (EvExistsSync _ _)); reflexivity ]
          | solve [ apply downloadDirectory_file_stays ]
          | solve [ eapply enters_only_weaken; [ | apply simple_descent_enters ];
                    intros d [-> | Hb];
                    [ apply (below_child slash)
                    | eapply (below_through_child slash); eassumption ] ] ]. }
    unfold events in Hrest.
    destruct (bind ftpClient_list _ _) as [[o s] ev]. cbn [snd app] in *.
    exists true, ev. split; [ reflexivity | exact Hrest ].
  - cbn [snd app]. exists false, []. split; [ reflexivity | exact P_nil ].
Qed.
End Descending.

(** X6.  The calls of [ftpClient.cd] a descent makes.  The first call of
    an invocation of [downloadDirectory] is [ftpClient.cd] on its own
    directory; every [ftpClient.cd] called after that, by the invocation
    and by everything it calls, is called on a directory reached from it
    by appending entry names.  In the simple revision such a path is
    strictly longer than the path of the directory, so the invocation
    never calls [ftpClient.cd] on its own directory a second time, nor on
    a shorter path. *)
Theorem descent_never_returns : forall (E : Type) (C : Capabilities E),
    (forall config depth remoteDir localDir remoteEmpty (st : St E),
        exists ok tail,
          events (Hardened.downloadDirectory config (S depth) remoteDir localDir
                    remoteEmpty) st
          = EvLog ("Download " ++ " " ++ remoteDir) :: EvCd remoteDir ok :: tail /\
          enters_only (below path_posix_join remoteDir) tail)
    /\
    (forall depth remoteDir localDir remoteEmpty (st : St E),
        exists ok tail,
          events (Simple.downloadDirectory (S depth) remoteDir localDir remoteEmpty) st
          = EvLog ("Download " ++ " " ++ remoteDir) :: EvCd remoteDir ok :: tail /\
          enters_only
            (fun d => below slash remoteDir d /\
                      String.length remoteDir < String.length d)
            tail).
Proof.
  intros E C. split.
  - apply hardened_invocation_enters.
  - intros depth remoteDir localDir remoteEmpty st.
    destruct (simple_invocation_enters depth remoteDir localDir remoteEmpty st)
      as (ok & tail & Heq & Htail).
    exists ok, tail. split; [ exact Heq | ].
    eapply enters_only_weaken; [ | exact Htail ].
    intros d Hb. split; [ exact Hb | apply below_slash_longer; exact Hb ].
Qed.

(** [/data] lists the directory [sub] and then [b.txt], on a server that
    looks names up in the directory the client is in.  After the descent
    into [sub] no [ftpClient.cd] is called, and the download of [b.txt],
    asked for by name, fails: [/data/sub] has no [b.txt]. *)
Example file_after_subdirectory :
  events (Hardened.downloadDirectory (Worlds.config true) 2 "/data" "out" false)
    (Strict.start Strict.after_sub) =
  [EvLog "Download  /data";
   EvCd "/data" true;
   EvList (Some [Sim.dir "sub"; Sim.file "b.txt"]);
   EvExistsSync "out/sub" false;
   EvMkdirSync "out/sub" true;
   EvLog "Download  /data/sub";
   EvCd "/data/sub" true;
   EvList (Some [Sim.file "c.txt"]);
   EvFsAccess "out/sub/c.txt" false;
   EvLog "Downloading file c.txt to out/sub/c.txt...";
   EvDownloadTo "out/sub/c.txt" "c.txt" true;
   EvLog "File c.txt downloaded successfully to out/sub/c.txt.";
   EvLog "Deleting remote file: /data/sub/c.txt";
   EvRemove "c.txt" true;
   EvFsAccess "out/b.txt" false;
   EvLog "Downloading file b.txt to out/b.txt...";
   EvDownloadTo "out/b.txt" "b.txt" false;
   EvError "Error downloading file b.txt to out/b.txt: 550 Failed to open file."]
  /\
  Simple.downloadDirectory 2 "/data" "out" false (Strict.start Strict.after_sub) =
  (Raised (mkError "550 Failed to open file."),
   final (Simple.downloadDirectory 2 "/data" "out" false) (Strict.start Strict.after_sub),
   [EvLog "Download  /data";
    EvCd "/data" true;
    EvList (Some [Sim.dir "sub"; Sim.file "b.txt"]);
    EvLog "Files in /data :  2";
    EvExistsSync "out/sub" false;
    EvMkdirSync "out/sub" true;
    EvLog "Created local directory: sub";
    EvLog "Download  /data/sub";
    EvCd "/data/sub" true;
    EvList (Some [Sim.file "c.txt"]);
    EvLog "Files in /data/sub :  1";
    EvFsAccess "out\sub\c.txt" false;
    EvDownloadTo "out/sub/c.txt" "c.txt" true;
    EvLog "File c.txt downloaded to out/sub/c.txt";
    EvLog "Deleting remote file  c.txt";
    EvRemove "c.txt" true;
    EvFsAccess "out\b.txt" false;
    EvDownloadTo "out/b.txt" "b.txt" false]).
Proof. vm_compute. split; reflexivity. Qed.

(** * More about the restart session *)

Section SessionRun.
Context {E : Type} `{Capabilities E}.

(** What the handlers of the command stream record: a line per chunk and
    the [conn.end] of the ['close'] handler. *)
Lemma hardened_streamHandlers_run : forall chunks (st : St E),
    Hardened.streamHandlers chunks st =
    (Done tt, mkSt (ssh_end (env st)) (rl st),
     (map chunk_line chunks ++ [EvSshEnd])%list).
Proof.
  intros chunks [e h]. unfold Hardened.streamHandlers.
  induction chunks as [| chunk chunks IH].
  - reflexivity.
  - cbn [forOf map app]. unfold bind at 1 2.
    unfold bind at 1 in IH.
    destruct chunk as [data | data];
      cbv beta iota delta [console_log2 console_error2 emit chunk_line];
      destruct (forOf chunks _ {| env := e; rl := h |}) as [[[[] | err | ] st1] ev1];
      cbn [app] in *;
      try discriminate IH;
      destruct (conn_end st1) as [[o2 st2] ev2];
      injection IH as -> -> ->; reflexivity.
Qed.

Lemma simple_streamHandlers_run : forall chunks (st : St E),
    Simple.streamHandlers chunks st =
    (Done tt, mkSt (ssh_end (env st)) (rl st),
     (map chunk_line chunks ++ [EvSshEnd])%list).
Proof. exact hardened_streamHandlers_run. Qed.

Lemma restart_command_used : forall config (st : St E) cmd ok,
    In (EvSshExec cmd ok) (events (Hardened.restartFTP config) st) ->
    cmd = restart_command config.
Proof.
  intros config st.
  pose (P := fun tr : list Event =>
               forall cmd ok, In (EvSshExec cmd ok) tr -> cmd = restart_command config).
  change (P (events (Hardened.restartFTP config) st)).
  assert (P_nil : P []) by (intros cmd ok []).
  assert (P_app : forall a b, P a -> P b -> P (a ++ b)%list).
  { intros a b Ha Hb cmd ok Hin. apply in_app_or in Hin as [Hin | Hin]; eauto. }
  assert (P_one : forall ev, (match ev with EvSshExec _ _ => false | _ => true end) = true
                             -> P [ev]).
  { intros ev Hev cmd ok [Heq | []]. subst ev. discriminate Hev. }
  assert (P_exec : forall st', P (events (conn_exec (restart_command config)) st')).
  { intros st' cmd ok. unfold events, conn_exec.
    destruct (ssh_exec _ _) as [r e]. cbn [snd].
    intros [Heq | []]. injection Heq as <- _. reflexivity. }
  clearbody P.
  unfold Hardened.restartFTP, Hardened.sessionHandlers, Hardened.sshConnectionConfig,
    Hardened.streamHandlers.
  fold (restart_command config).
  closed_by P_nil P_app P_one;
    first [ solve [ apply P_exec ]
          | solve [ apply (P_one EvSshEnd); reflexivity ]
          | solve [ unfold events, conn_connect;
                    destruct (ssh_connect _ _) as [[err | ] e]; cbn [snd];
                    apply (P_one (EvSshConnect _ _)); reflexivity ] ].
Qed.

Lemma simple_command_used : forall (st : St E) cmd ok,
    In (EvSshExec cmd ok) (events Simple.restartFTP st) ->
    cmd = "sudo systemctl restart vsftpd".
Proof.
  intros st.
  pose (P := fun tr : list Event =>
               forall cmd ok, In (EvSshExec cmd ok) tr ->
                              cmd = "sudo systemctl restart vsftpd").
  change (P (events Simple.restartFTP st)).
  assert (P_nil : P []) by (intros cmd ok []).
  assert (P_app : forall a b, P a -> P b -> P (a ++ b)%list).
  { intros a b Ha Hb cmd ok Hin. apply in_app_or in Hin as [Hin | Hin]; eauto. }
  assert (P_one : forall ev, (match ev with EvSshExec _ _ => false | _ => true end) = true
                             -> P [ev]).
  { intros ev Hev cmd ok [Heq | []]. subst ev. discriminate Hev. }
  assert (P_exec : forall st', P (events (conn_exec "sudo systemctl restart vsftpd") st')).
  { intros st' cmd ok. unfold events, conn_exec.
    destruct (ssh_exec _ _) as [r e]. cbn [snd].
    intros [Heq | []]. injection Heq as <- _. reflexivity. }
  clearbody P.
  unfold Simple.restartFTP, Simple.sessionHandlers, Simple.streamHandlers.
  closed_by P_nil P_app P_one;
    first [ solve [ apply P_exec ]
          | solve [ apply (P_one EvSshEnd); reflexivity ]
          | solve [ unfold events, conn_connect;
                    destruct (ssh_connect _ _) as [[err | ] e]; cbn [snd];
                    apply (P_one (EvSshConnect _ _)); reflexivity ] ].
Qed.
End SessionRun.

(** X7.  The course of the SSH session of [restartFTP], in both revisions.
    When the session reports an error, the error is logged and nothing
    else happens: no command is executed and [conn.end] is not called.
    When the session is ready, the restart command is executed once; if
    [conn.exec] hands over an error, it is logged and the session is
    ended; otherwise every chunk of the command's output is printed in
    the order of arrival, standard output with [console.log] and standard
    error with [console.error], and the session is ended when the stream
    closes.  In every case [restartFTP] returns normally, and a session
    that was ready is ended exactly once, as the last call. *)
Theorem restart_session : forall (E : Type) (C : Capabilities E),
    (forall config (st st1 : St E) cfg ev1 err e2,
        Hardened.sshConnectionConfig config st = (Done cfg, st1, ev1) ->
        ssh_connect cfg (env st1) = (SshError err, e2) ->
        Hardened.restartFTP config st =
        (Done tt, mkSt e2 (rl st1),
         (ev1 ++ [EvSshConnect cfg false;
                  EvError ("Ошибка SSH соединения:" ++ " " ++ message err)])%list))
    /\
    (forall config (st st1 : St E) cfg ev1 e2 err e3,
        Hardened.sshConnectionConfig config st = (Done cfg, st1, ev1) ->
        ssh_connect cfg (env st1) = (SshReady, e2) ->
        ssh_exec (restart_command config) e2 = (Throw err, e3) ->
        Hardened.restartFTP config st =
        (Done tt, mkSt (ssh_end e3) (rl st1),
         (ev1 ++ [EvSshConnect cfg true;
                  EvLog "SSH соединение установлено.";
                  EvSshExec (restart_command config) false;
                  EvError ("Ошибка выполнения команды:" ++ " " ++ message err);
                  EvSshEnd])%list))
    /\
    (forall config (st st1 : St E) cfg ev1 e2 chunks e3,
        Hardened.sshConnectionConfig config st = (Done cfg, st1, ev1) ->
        ssh_connect cfg (env st1) = (SshReady, e2) ->
        ssh_exec (restart_command config) e2 = (Ok chunks, e3) ->
        Hardened.restartFTP config st =
        (Done tt, mkSt (ssh_end e3) (rl st1),
         (ev1 ++ [EvSshConnect cfg true;
                  EvLog "SSH соединение установлено.";
                  EvSshExec (restart_command config) true]
              ++ map chunk_line chunks ++ [EvSshEnd])%list))
    /\
    (forall (st : St E) err e2,
        ssh_connect Simple.sshConfig (env st) = (SshError err, e2) ->
        Simple.restartFTP st =
        (Done tt, mkSt e2 (rl st),
         [EvSshConnect Simple.sshConfig false;
          EvError ("Ошибка SSH соединения:" ++ " " ++ message err)]))
    /\
    (forall (st : St E) e2 err e3,
        ssh_connect Simple.sshConfig (env st) = (SshReady, e2) ->
        ssh_exec "sudo systemctl restart vsftpd" e2 = (Throw err, e3) ->
        Simple.restartFTP st =
        (Done tt, mkSt (ssh_end e3) (rl st),
         [EvSshConnect Simple.sshConfig true;
          EvLog "SSH соединение установлено.";
          EvSshExec "sudo systemctl restart vsftpd" false;
          EvError ("Ошибка выполнения команды:" ++ " " ++ message err);
          EvSshEnd]))
    /\
    (forall (st : St E) e2 chunks e3,
        ssh_connect Simple.sshConfig (env st) = (SshReady, e2) ->
        ssh_exec "sudo systemctl restart vsftpd" e2 = (Ok chunks, e3) ->
        Simple.restartFTP st =
        (Done tt, mkSt (ssh_end e3) (rl st),
         ([EvSshConnect Simple.sshConfig true;
           EvLog "SSH соединение установлено.";
           EvSshExec "sudo systemctl restart vsftpd" true]
            ++ map chunk_line chunks ++ [EvSshEnd])%list)).
Proof.
  intros E C.
  split; [ | split; [ | split; [ | split; [ | split ] ] ] ].
  - intros config st st1 cfg ev1 err e2 Hcfg Hconn.
    unfold Hardened.restartFTP, Hardened.sessionHandlers.
    rewrite (bind_done _ _ _ _ _ _ _ _ Hcfg).
    unfold bind, conn_connect. rewrite Hconn.
    cbv beta iota delta [console_error2 emit prefixed]. reflexivity.
  - intros config st st1 cfg ev1 e2 err e3 Hcfg Hconn Hexec.
    unfold Hardened.restartFTP, Hardened.sessionHandlers.
    rewrite (bind_done _ _ _ _ _ _ _ _ Hcfg).
    fold (restart_command config).
    unfold bind, conn_connect. rewrite Hconn.
    cbv beta iota delta [console_log console_error2 emit conn_exec conn_end prefixed].
    cbn [env rl]. rewrite Hexec. cbn [env rl succeeded app]. reflexivity.
  - intros config st st1 cfg ev1 e2 chunks e3 Hcfg Hconn Hexec.
    unfold Hardened.restartFTP, Hardened.sessionHandlers.
    rewrite (bind_done _ _ _ _ _ _ _ _ Hcfg).
    fold (restart_command config).
    unfold bind, conn_connect. rewrite Hconn.
    cbv beta iota delta [console_log emit conn_exec prefixed].
    cbn [env rl]. rewrite Hexec. cbv beta iota.
    rewrite hardened_streamHandlers_run. cbn [env rl succeeded app]. reflexivity.
  - intros st err e2 Hconn.
    unfold Simple.restartFTP, Simple.sessionHandlers, bind, conn_connect. rewrite Hconn.
    cbv beta iota delta [console_error2 emit]. reflexivity.
  - intros st e2 err e3 Hconn Hexec.
    unfold Simple.restartFTP, Simple.sessionHandlers, bind, conn_connect. rewrite Hconn.
    cbv beta iota delta [console_log console_error2 emit conn_exec conn_end].
    cbn [env rl]. rewrite Hexec. cbn [env rl succeeded app]. reflexivity.
  - intros st e2 chunks e3 Hconn Hexec.
    unfold Simple.restartFTP, Simple.sessionHandlers, bind, conn_connect. rewrite Hconn.
    cbv beta iota delta [console_log emit conn_exec].
    cbn [env rl]. rewrite Hexec. cbv beta iota.
    rewrite simple_streamHandlers_run. cbn [env rl succeeded app]. reflexivity.
Qed.

Lemma restart_session_witness :
  Hardened.restartFTP (Worlds.config true)
    (Sim.start (Sim.mkWorld false false "/" [] [] [] [] [] [] [] [] [] [] false)) =
  (Done tt, Sim.start (Sim.mkWorld false false "/" [] [] [] [] [] [] [] [] [] [] false),
   [EvSshConnect emptySshConfig false;
    EvError "Ошибка SSH соединения: connect ECONNREFUSED"])
  /\
  Hardened.restartFTP (Worlds.config true) (Faulty.start Faulty.exec_refused) =
  (Done tt, Faulty.start Faulty.exec_refused,
   [EvSshConnect emptySshConfig true;
    EvLog "SSH соединение установлено.";
    EvSshExec "sudo systemctl restart vsftpd" false;
    EvError "Ошибка выполнения команды: Unable to exec";
    EvSshEnd])
  /\
  Hardened.restartFTP (Worlds.config true) (Faulty.start Faulty.exec_talks) =
  (Done tt, Faulty.start Faulty.exec_talks,
   [EvSshConnect emptySshConfig true;
    EvLog "SSH соединение установлено.";
    EvSshExec "sudo systemctl restart vsftpd" true;
    EvLog "Вывод: restarting";
    EvError "Ошибка: warning";
    EvSshEnd])
  /\
  Simple.restartFTP
    (Sim.start (Sim.mkWorld false false "/" [] [] [] [] [] [] [] [] [] [] false)) =
  (Done tt, Sim.start (Sim.mkWorld false false "/" [] [] [] [] [] [] [] [] [] [] false),
   [EvSshConnect Simple.sshConfig false;
    EvError "Ошибка SSH соединения: connect ECONNREFUSED"])
  /\
  Simple.restartFTP (Faulty.start Faulty.exec_refused) =
  (Done tt, Faulty.start Faulty.exec_refused,
   [EvSshConnect Simple.sshConfig true;
    EvLog "SSH соединение установлено.";
    EvSshExec "sudo systemctl restart vsftpd" false;
    EvError "Ошибка выполнения команды: Unable to exec";
    EvSshEnd])
  /\
  Simple.restartFTP (Faulty.start Faulty.exec_talks) =
  (Done tt, Faulty.start Faulty.exec_talks,
   [EvSshConnect Simple.sshConfig true;
    EvLog "SSH соединение установлено.";
    EvSshExec "sudo systemctl restart vsftpd" true;
    EvLog "Вывод: restarting";
    EvError "Ошибка: warning";
    EvSshEnd]).
Proof.
  destruct (restart_session Sim.World Sim.capabilities)
    as (Herr & _ & _ & Serr & _ & _).
  destruct (restart_session Faulty.World Faulty.capabilities)
    as (_ & Hexec & Htalk & _ & Sexec & Stalk).
  split; [ | split; [ | split; [ | split; [ | split ] ] ] ].
  - apply (Herr (Worlds.config true)
             (Sim.start (Sim.mkWorld false false "/" [] [] [] [] [] [] [] [] [] [] false))
             (Sim.start (Sim.mkWorld false false "/" [] [] [] [] [] [] [] [] [] [] false))
             emptySshConfig [] (mkError "connect ECONNREFUSED")
             (Sim.mkWorld false false "/" [] [] [] [] [] [] [] [] [] [] false));
      reflexivity.
  - apply (Hexec (Worlds.config true) (Faulty.start Faulty.exec_refused)
             (Faulty.start Faulty.exec_refused) emptySshConfig []
             Faulty.exec_refused (mkError "Unable to exec") Faulty.exec_refused);
      reflexivity.
  - apply (Htalk (Worlds.config true) (Faulty.start Faulty.exec_talks)
             (Faulty.start Faulty.exec_talks) emptySshConfig []
             Faulty.exec_talks [StdoutData "restarting"; StderrData "warning"]
             Faulty.exec_talks);
      reflexivity.
  - apply (Serr
             (Sim.start (Sim.mkWorld false false "/" [] [] [] [] [] [] [] [] [] [] false))
             (mkError "connect ECONNREFUSED")
             (Sim.mkWorld false false "/" [] [] [] [] [] [] [] [] [] [] false));
      reflexivity.
  - apply (Sexec (Faulty.start Faulty.exec_refused) Faulty.exec_refused
             (mkError "Unable to exec") Faulty.exec_refused);
      reflexivity.
  - apply (Stalk (Faulty.start Faulty.exec_talks) Faulty.exec_talks
             [StdoutData "restarting"; StderrData "warning"] Faulty.exec_talks);
      reflexivity.
Defined.

(** X8.  The command of the restart.  Whatever [restartFTP] of the hardened
    revision executes over SSH is the [restartCommand] of [config.json]
    when that is a non-empty string, and [sudo systemctl restart vsftpd]
    when [sshConfig] is missing, has no [restartCommand] or has an empty
    one.  The simple revision never executes anything but
    [sudo systemctl restart vsftpd]. *)
Theorem restart_command_choice : forall (E : Type) (C : Capabilities E),
    (forall config c s (st : St E),
        Hardened.sshConfig config = Some c ->
        restartCommand c = Some s ->
        s <> "" ->
        executes_only s (events (Hardened.restartFTP config) st) = true)
    /\
    (forall config (st : St E),
        Hardened.sshConfig config = None \/
        (exists c, Hardened.sshConfig config = Some c /\
                   (restartCommand c = None \/ restartCommand c = Some "")) ->
        executes_only "sudo systemctl restart vsftpd"
          (events (Hardened.restartFTP config) st) = true)
    /\
    (forall (st : St E),
        executes_only "sudo systemctl restart vsftpd"
          (events Simple.restartFTP st) = true).
Proof.
  intros E C. split; [ | split ].
  - intros config c s st Hc Hs Hne.
    apply forallb_forall. intros [ | | | | | | | | | | | | | | | | | cmd ok | | ] Hin;
      try reflexivity.
    rewrite (restart_command_used config st cmd ok Hin).
    unfold restart_command. rewrite Hc, Hs. unfold truthy.
    apply String.eqb_neq in Hne. rewrite Hne. apply String.eqb_refl.
  - intros config st Hcase.
    apply forallb_forall. intros [ | | | | | | | | | | | | | | | | | cmd ok | | ] Hin;
      try reflexivity.
    rewrite (restart_command_used config st cmd ok Hin).
    unfold restart_command.
    destruct Hcase as [-> | (c & -> & [-> | ->])]; reflexivity.
  - intros st.
    apply forallb_forall. intros [ | | | | | | | | | | | | | | | | | cmd ok | | ] Hin;
      try reflexivity.
    rewrite (simple_command_used st cmd ok Hin). reflexivity.
Qed.

Lemma restart_command_choice_witness :
  executes_only "service vsftpd restart"
    (events
       (Hardened.restartFTP
          (Worlds.config_ssh
             (mkSshConfig (Some "cam.example") (Some 22) (Some "root")
                (Some "pageant") None (Some "service vsftpd restart") None)))
       (Sim.start Sim.blank)) = true
  /\
  executes_only "sudo systemctl restart vsftpd"
    (events
       (Hardened.restartFTP
          (Worlds.config_ssh
             (mkSshConfig (Some "cam.example") (Some 22) (Some "root")
                (Some "pageant") None (Some "") None)))
       (Sim.start Sim.blank)) = true.
Proof.
  destruct (restart_command_choice Sim.World Sim.capabilities)
    as (Hset & Hdefault & _).
  split.
  - apply (Hset
             (Worlds.config_ssh
                (mkSshConfig (Some "cam.example") (Some 22) (Some "root")
                   (Some "pageant") None (Some "service vsftpd restart") None))
             (mkSshConfig (Some "cam.example") (Some 22) (Some "root")
                (Some "pageant") None (Some "service vsftpd restart") None)
             "service vsftpd restart" (Sim.start Sim.blank));
      [ reflexivity | reflexivity | discriminate ].
  - apply (Hdefault
             (Worlds.config_ssh
                (mkSshConfig (Some "cam.example") (Some 22) (Some "root")
                   (Some "pageant") None (Some "") None))
             (Sim.start Sim.blank)).
    right. eexists. split; [ reflexivity | right; reflexivity ].
Defined.

(** With [restartCommand] set to [service vsftpd restart], that command is
    what the session executes. *)
Example configured_command_runs :
  events
    (Hardened.restartFTP
       (Worlds.config_ssh
          (mkSshConfig (Some "cam.example") (Some 22) (Some "root")
             (Some "pageant") None (Some "service vsftpd restart") None)))
    (Sim.start Sim.blank) =
  [EvSshConnect
     (mkSshConfig (Some "cam.example") (Some 22) (Some "root")
        (Some "pageant") None (Some "service vsftpd restart") None) true;
   EvLog "SSH соединение установлено.";
   EvSshExec "service vsftpd restart" true;
   EvSshEnd].
Proof. vm_compute. reflexivity. Qed.

(** * More about the prompt *)

(** X9.  A prompt that throws.  When [rl.question] throws, [waitForExit]
    of the hardened revision logs the error, closes the readline
    interface and returns normally: neither the callback nor [restartFTP]
    is invoked and the operator is not asked again.  In the simple
    revision nothing guards the call: [waitForExit] ends in the exception
    and the interface it has just created is never closed. *)
Theorem question_failure : forall (E : Type) (C : Capabilities E),
    (forall config callback (st : St E) err e1,
        rl_question Hardened.prompt (env st) = (Throw err, e1) ->
        Hardened.waitForExit config callback st =
        (Done tt, mkSt e1 RlClosed,
         (opening (rl st)
          ++ [EvRlQuestion None;
              EvError ("Error in waitForExit:" ++ " " ++ message err);
              EvRlClose])%list))
    /\
    (forall callback (st : St E) err e1,
        rl_question Simple.prompt (env st) = (Throw err, e1) ->
        Simple.waitForExit callback st =
        (Raised err, mkSt e1 (rl st), [EvRlCreate; EvRlQuestion None])).
Proof.
  intros E C. split.
  - intros config callback [e h] err e1 Hq. cbn [env rl] in *.
    destruct h;
      cbv beta iota zeta delta
        [Hardened.waitForExit Hardened.closeRlIfOpen try_catch bind get_rl set_rl emit
         question call ret opening console_error2];
      cbn [env rl app]; rewrite Hq; reflexivity.
  - intros callback st err e1 Hq.
    cbv beta iota zeta delta [Simple.waitForExit bind emit question call].
    cbn [env rl app]. rewrite Hq. reflexivity.
Qed.

Lemma question_failure_witness :
  Hardened.waitForExit (Worlds.config true) (Some (Hardened.again 0 1))
    (Faulty.start Faulty.no_prompt) =
  (Done tt, mkSt Faulty.no_prompt RlClosed,
   [EvRlCreate; EvRlQuestion None;
    EvError "Error in waitForExit: readline was closed"; EvRlClose])
  /\
  Simple.waitForExit (Some (Simple.again 0 1)) (Faulty.start Faulty.no_prompt) =
  (Raised (mkError "readline was closed"), Faulty.start Faulty.no_prompt,
   [EvRlCreate; EvRlQuestion None]).
Proof.
  destruct (question_failure Faulty.World Faulty.capabilities) as (Hq & Sq).
  split.
  - apply (Hq (Worlds.config true) (Some (Hardened.again 0 1))
             (Faulty.start Faulty.no_prompt) (mkError "readline was closed")
             Faulty.no_prompt); reflexivity.
  - apply (Sq (Some (Simple.again 0 1)) (Faulty.start Faulty.no_prompt)
             (mkError "readline was closed") Faulty.no_prompt); reflexivity.
Defined.

(** X10.  [waitForExit] without a callback.  When the argument carries no
    [callback], every answer ends the prompt, ["1"] and ["2"] included:
    nothing is retried, [restartFTP] is not invoked, the readline
    interface is closed and [waitForExit] returns. *)
Theorem prompt_without_callback : forall (E : Type) (C : Capabilities E),
    (forall config (st : St E) a e1,
        rl_question Hardened.prompt (env st) = (Ok a, e1) ->
        Hardened.waitForExit config None st =
        (Done tt, mkSt e1 RlClosed,
         (opening (rl st) ++ [EvRlQuestion (Some a); EvRlClose])%list))
    /\
    (forall (st : St E) a e1,
        rl_question Simple.prompt (env st) = (Ok a, e1) ->
        Simple.waitForExit None st =
        (Done tt, mkSt e1 (rl st), [EvRlCreate; EvRlQuestion (Some a); EvRlClose])).
Proof.
  intros E C. split.
  - intros config [e h] a e1 Hq. cbn [env rl] in *.
    destruct h;
      cbv beta iota zeta delta
        [Hardened.waitForExit Hardened.onAnswer Hardened.defined Hardened.closeRlIfOpen
         try_catch bind get_rl set_rl emit question call ret opening];
      cbn [env rl app]; rewrite Hq; cbv beta iota; cbn [env rl app];
      rewrite !andb_false_r; reflexivity.
  - intros st a e1 Hq.
    cbv beta iota zeta delta
      [Simple.waitForExit Simple.onAnswer Simple.defined bind emit question call ret].
    cbn [env rl app]. rewrite Hq. cbv beta iota. cbn [env rl app].
    rewrite !andb_false_r. reflexivity.
Qed.

Lemma prompt_without_callback_witness :
  Hardened.waitForExit (Worlds.config true) None (Sim.start (Worlds.refused ["1"])) =
  (Done tt, mkSt (Worlds.refused []) RlClosed,
   [EvRlCreate; EvRlQuestion (Some "1"); EvRlClose])
  /\
  Simple.waitForExit None (Sim.start (Worlds.refused ["2"])) =
  (Done tt, Sim.start (Worlds.refused []),
   [EvRlCreate; EvRlQuestion (Some "2"); EvRlClose]).
Proof.
  destruct (prompt_without_callback Sim.World Sim.capabilities) as (Hn & Sn).
  split.
  - apply (Hn (Worlds.config true) (Sim.start (Worlds.refused ["1"])) "1"
             (Worlds.refused [])); reflexivity.
  - apply (Sn (Sim.start (Worlds.refused ["2"])) "2" (Worlds.refused [])); reflexivity.
Defined.

(** * How a run ends *)

Section Endings.
Context {E : Type} `{Capabilities E}.

Lemma never_raised : forall A (m : M E A) (st : St E),
    raises_only nobody m ->
    (exists a, outcome m st = Done a) \/ outcome m st = Starved.
Proof.
  intros A m st Hm. destruct (outcome m st) as [a | e | ] eqn:Ho.
  - left. exists a. reflexivity.
  - apply Hm in Ho. rewrite nobody_absent in Ho. discriminate Ho.
  - right. reflexivity.
Qed.

Lemma hardened_restartFTP_returns : forall config (st : St E),
    outcome (Hardened.restartFTP config) st = Done tt.
Proof.
  intros config st.
  destruct (sshConnectionConfig_returns config st) as [cfg Hcfg].
  unfold outcome in *. unfold Hardened.restartFTP, Hardened.sessionHandlers.
  destruct (Hardened.sshConnectionConfig config st) as [[o st1] ev1] eqn:Hrun.
  cbn [fst] in Hcfg. subst o.
  rewrite (bind_done _ _ _ _ _ _ _ _ Hrun).
  unfold bind, conn_connect.
  destruct (ssh_connect cfg (env st1)) as [[err | ] e2].
  - reflexivity.
  - cbv beta iota delta [console_log console_error2 emit conn_exec conn_end prefixed].
    cbn [env rl].
    destruct (ssh_exec _ e2) as [[chunks | err] e3]; cbv beta iota.
    + rewrite hardened_streamHandlers_run. reflexivity.
    + reflexivity.
Qed.

Lemma simple_restartFTP_returns : forall (st : St E),
    outcome Simple.restartFTP st = Done tt.
Proof.
  intros st. unfold outcome, Simple.restartFTP, Simple.sessionHandlers, bind, conn_connect.
  destruct (ssh_connect Simple.sshConfig (env st)) as [[err | ] e2].
  - reflexivity.
  - cbv beta iota delta [console_log console_error2 emit conn_exec conn_end].
    cbn [env rl].
    destruct (ssh_exec _ e2) as [[chunks | err] e3]; cbv beta iota.
    + rewrite simple_streamHandlers_run. reflexivity.
    + reflexivity.
Qed.

Lemma closeRlIfOpen_closes : forall (st : St E),
    outcome Hardened.closeRlIfOpen st = Done tt /\
    (rl (final Hardened.closeRlIfOpen st) = RlNull \/
     rl (final Hardened.closeRlIfOpen st) = RlClosed).
Proof.
  intros [e h]. destruct h; js_red; auto.
Qed.

Lemma hardened_finally_closes : forall (st : St E),
    exists st2 ev2,
      (Hardened.closeFtpIfOpen ;; Hardened.closeRlIfOpen) st = (Done tt, st2, ev2) /\
      (rl st2 = RlNull \/ rl st2 = RlClosed).
Proof.
  intros [e h]. js_red.
  destruct (ftp_closed e); destruct h; js_red; eexists; eexists; split;
    try reflexivity; cbn [rl]; auto.
Qed.

Lemma hardened_main_closes : forall config fuel depth (st : St E),
    outcome (Hardened.main config fuel depth) st = Done tt ->
    rl (final (Hardened.main config fuel depth) st) = RlNull \/
    rl (final (Hardened.main config fuel depth) st) = RlClosed.
Proof.
  intros config fuel depth st. destruct fuel as [| fuel]; unfold Hardened.main, Hardened.main_around.
  - intros Ho. discriminate Ho.
  - unfold outcome, final, try_finally.
    destruct (try_catch _ _ st) as [[[[] | e | ] st1] ev1]; cbn [fst snd].
    + destruct (hardened_finally_closes st1) as (st2 & ev2 & -> & Hrl).
      cbn [fst snd]. intros _. exact Hrl.
    + destruct (hardened_finally_closes st1) as (st2 & ev2 & -> & Hrl).
      cbn [fst snd]. intros Ho. discriminate Ho.
    + intros Ho. discriminate Ho.
Qed.
End Endings.

(** X11.  The promise of [main] in the hardened revision never rejects.
    Whatever the FTP server, the disk, the prompt and the SSH session do,
    [main] returns (or the bound on retries is used up), and when it
    returns the module-level readline interface is not left open.  The
    same holds for [waitForExit], and [restartFTP] returns in both
    revisions: a failure of the session is only logged. *)
Theorem hardened_main_never_rejects : forall (E : Type) (C : Capabilities E),
    (forall config fuel depth (st : St E),
        (outcome (Hardened.main config fuel depth) st = Done tt /\
         (rl (final (Hardened.main config fuel depth) st) = RlNull \/
          rl (final (Hardened.main config fuel depth) st) = RlClosed)) \/
        outcome (Hardened.main config fuel depth) st = Starved)
    /\
    (forall config callback (st : St E),
        outcome (Hardened.waitForExit config callback) st = Done tt \/
        outcome (Hardened.waitForExit config callback) st = Starved)
    /\
    (forall config (st : St E), outcome (Hardened.restartFTP config) st = Done tt)
    /\
    (forall (st : St E), outcome Simple.restartFTP st = Done tt).
Proof.
  intros E C. split; [ | split; [ | split ] ].
  - intros config fuel depth st.
    destruct (never_raised _ (Hardened.main config fuel depth) st
                (hardened_main_raises_only nobody config fuel depth))
      as [[[] Ho] | Ho].
    + left. split; [ exact Ho | apply hardened_main_closes; exact Ho ].
    + right. exact Ho.
  - intros config callback st.
    destruct (never_raised _ (Hardened.waitForExit config callback) st
                (hardened_waitForExit_raises_only nobody config callback))
      as [[[] Ho] | Ho]; auto.
  - intros config st. apply hardened_restartFTP_returns.
  - intros st. apply simple_restartFTP_returns.
Qed.

Section Escalation.
Context {E : Type} `{Capabilities E}.

Lemma raises_only_weaken : forall A (a b : Event -> bool) (m : M E A),
    (forall ev, a ev = true -> b ev = true) ->
    raises_only a m -> raises_only b m.
Proof.
  intros A a b m Hab Hm st e Ho. specialize (Hm st e Ho).
  apply existsb_exists in Hm as (ev & Hin & Hev).
  apply existsb_exists. exists ev. split; [ exact Hin | apply Hab; exact Hev ].
Qed.

Lemma failed_connect_recorded : forall tr,
    existsb is_failed_connect tr = true -> In (EvFtpAccess false) tr.
Proof.
  intros tr Hex. apply existsb_exists in Hex as (ev & Hin & Hev).
  destruct ev as [ | | [ | ] | | | | | | | | | | | | | | | | | ];
    try discriminate Hev. exact Hin.
Qed.

(** The [try] block of [main] throws only when the connection or a listing
    has failed. *)
Lemma hardened_main_try_raises_only : forall config depth,
    raises_only (fun ev => is_failed_connect ev || is_failed_list ev)
      (Hardened.main_try config depth : M E unit).
Proof.
  intros config depth. unfold Hardened.main_try, Hardened.main_try_resumed.
  raising;
    first [ unfold ftpClient_access; apply raises_only_call;
            intros err; reflexivity
          | eapply raises_only_weaken; [ | apply hardened_descent_raises_only ];
            intros ev Hev; rewrite Hev; apply orb_true_r ].
Qed.

Lemma no_question_app : forall a b,
    existsb is_question a = false -> existsb is_question b = false ->
    existsb is_question (a ++ b) = false.
Proof. intros a b Ha Hb. rewrite existsb_app, Ha, Hb. reflexivity. Qed.

Lemma no_question_one : forall ev,
    is_question ev = false -> existsb is_question [ev] = false.
Proof. intros ev Hev. simpl. rewrite Hev. reflexivity. Qed.

Lemma handleFileDownload_asks_nothing : forall remoteFileName dir lp del (st : St E),
    existsb is_question (events (Hardened.handleFileDownload remoteFileName dir lp del) st)
    = false.
Proof.
  intros remoteFileName dir lp del st.
  pose (P := fun tr : list Event => existsb is_question tr = false).
  change (P (events (Hardened.handleFileDownload remoteFileName dir lp del) st)).
  assert (P_nil : P []) by reflexivity.
  assert (P_app : forall a b, P a -> P b -> P (a ++ b)%list) by (exact no_question_app).
  assert (P_one : forall ev, is_question ev = false -> P [ev]) by (exact no_question_one).
  clearbody P.
  unfold Hardened.handleFileDownload. closed_by P_nil P_app P_one.
Qed.

Lemma hardened_descent_asks_nothing : forall config depth remoteDir localDir remoteEmpty
    (st : St E),
    existsb is_question
      (events (Hardened.downloadDirectory config depth remoteDir localDir remoteEmpty) st)
    = false.
Proof.
  intros config depth.
  pose (P := fun tr : list Event => existsb is_question tr = false).
  assert (P_nil : P []) by reflexivity.
  assert (P_app : forall a b, P a -> P b -> P (a ++ b)%list) by (exact no_question_app).
  assert (P_one : forall ev, is_question ev = false -> P [ev]) by (exact no_question_one).
  assert (P_file : forall remoteFileName dir lp del (st : St E),
             P (events (Hardened.handleFileDownload remoteFileName dir lp del) st))
    by (exact handleFileDownload_asks_nothing).
  enough (Hall : forall remoteDir localDir remoteEmpty (st : St E),
             P (events (Hardened.downloadDirectory config depth remoteDir localDir
                          remoteEmpty) st)) by exact Hall.
  clearbody P.
  induction depth as [| depth IH];
    intros remoteDir localDir remoteEmpty st; cbn [Hardened.downloadDirectory].
  - exact P_nil.
  - unfold Hardened.downloadDirectory_body, Hardened.downloadDirectory_item.
    closed_by P_nil P_app P_one;
      first [ solve [ apply (P_one (EvExistsSync _ _)); reflexivity ]
            | solve [ apply P_file ]
            | solve [ apply IH ] ].
Qed.

Lemma hardened_main_try_asks_nothing : forall config depth (st : St E),
    existsb is_question (events (Hardened.main_try config depth) st) = false.
Proof.
  intros config depth st.
  pose (P := fun tr : list Event => existsb is_question tr = false).
  change (P (events (Hardened.main_try config depth) st)).
  assert (P_nil : P []) by reflexivity.
  assert (P_app : forall a b, P a -> P b -> P (a ++ b)%list) by (exact no_question_app).
  assert (P_one : forall ev, is_question ev = false -> P [ev]) by (exact no_question_one).
  assert (P_descent : forall d l b (st' : St E),
             P (events (Hardened.downloadDirectory config depth d l b) st'))
    by (exact (hardened_descent_asks_nothing config depth)).
  clearbody P.
  unfold Hardened.main_try, Hardened.main_try_resumed. closed_by P_nil P_app P_one; apply P_descent.
Qed.

Lemma hardened_main_asks_after_failure : forall config fuel depth (st : St E),
    existsb is_question (events (Hardened.main config fuel depth) st) = true ->
    existsb (fun ev => is_failed_connect ev || is_failed_list ev)
      (events (Hardened.main config fuel depth) st) = true.
Proof.
  intros config fuel depth st. destruct fuel as [| fuel].
  - intros Hq. discriminate Hq.
  - pose proof (hardened_main_try_raises_only config depth st) as Hraise.
    pose proof (hardened_main_try_asks_nothing config depth st) as Hquiet.
    unfold outcome, events in Hraise, Hquiet.
    destruct (Hardened.main_try config depth st) as [[[[] | err | ] st1] ev1] eqn:Htry;
      cbn [fst snd] in Hraise, Hquiet.
    + intros Hq. exfalso.
      destruct (finally_run st1) as (st2 & ev2 & Hfin & Hrel).
      unfold events in Hq. unfold Hardened.main, Hardened.main_around in Hq.
      unfold try_finally, try_catch in Hq. rewrite Htry, Hfin in Hq. cbn [snd] in Hq.
      rewrite (no_question_app _ _ Hquiet (releases_ask_nothing _ Hrel)) in Hq.
      discriminate Hq.
    + intros _. unfold events.
      rewrite (hardened_main_escalates config fuel depth st st1 err ev1 Htry).
      unfold prefixed.
      destruct (try_finally _ _ st1) as [[o s] ev]. cbn [snd].
      rewrite <- app_assoc, existsb_app, (Hraise err eq_refl). reflexivity.
    + intros Hq. exfalso.
      unfold events in Hq. unfold Hardened.main, Hardened.main_around in Hq.
      unfold try_finally, try_catch in Hq. rewrite Htry in Hq. cbn [snd] in Hq.
      rewrite Hquiet in Hq. discriminate Hq.
Qed.
End Escalation.

(** X12.  The one unguarded call of the descent.  In the hardened revision
    [downloadDirectory] throws only when [ftpClient.list] has thrown:
    every other call it makes, at any depth, is guarded.  A descent that
    ends in an exception has a failed listing in its record. *)
Theorem descent_throws_on_listing_only : forall (E : Type) (C : Capabilities E)
    config depth remoteDir localDir remoteEmpty (st : St E) e,
    outcome (Hardened.downloadDirectory config depth remoteDir localDir remoteEmpty) st
    = Raised e ->
    In (EvList None)
       (events (Hardened.downloadDirectory config depth remoteDir localDir remoteEmpty) st).
Proof.
  intros E C config depth remoteDir localDir remoteEmpty st e Ho.
  apply failed_list_recorded.
  exact (hardened_descent_raises_only config depth remoteDir localDir remoteEmpty st e Ho).
Qed.

Lemma descent_throws_on_listing_only_witness :
  In (EvList None)
     (events (Hardened.downloadDirectory (Worlds.config true) 2 "/data" "out" false)
        (Faulty.start Faulty.unlistable)).
Proof.
  apply (descent_throws_on_listing_only Faulty.World Faulty.capabilities
           (Worlds.config true) 2 "/data" "out" false (Faulty.start Faulty.unlistable)
           (mkError "425 Can't open data connection.")).
  reflexivity.
Defined.

(** X13.  When the operator is asked.  In the hardened revision [main]
    puts the recovery prompt only after [ftpClient.access] or
    [ftpClient.list] has failed: a file that cannot be downloaded or
    removed, a directory that cannot be entered, created or removed never
    leads to the prompt. *)
Theorem prompt_after_connection_or_listing : forall (E : Type) (C : Capabilities E)
    config fuel depth (st : St E) answer,
    In (EvRlQuestion answer) (events (Hardened.main config fuel depth) st) ->
    In (EvFtpAccess false) (events (Hardened.main config fuel depth) st) \/
    In (EvList None) (events (Hardened.main config fuel depth) st).
Proof.
  intros E C config fuel depth st answer Hin.
  assert (Hq : existsb is_question (events (Hardened.main config fuel depth) st) = true).
  { apply existsb_exists. exists (EvRlQuestion answer). split; [ exact Hin | reflexivity ]. }
  apply hardened_main_asks_after_failure in Hq.
  apply existsb_exists in Hq as (ev & Hev & Hfail).
  apply orb_true_iff in Hfail as [Hfail | Hfail].
  - left. apply failed_connect_recorded. apply existsb_exists.
    exists ev. split; assumption.
  - right. apply failed_list_recorded. apply existsb_exists.
    exists ev. split; assumption.
Qed.

Lemma prompt_after_connection_or_listing_witness :
  In (EvFtpAccess false)
     (events (Hardened.main (Worlds.config true) 1 2) (Faulty.start Faulty.unlistable)) \/
  In (EvList None)
     (events (Hardened.main (Worlds.config true) 1 2) (Faulty.start Faulty.unlistable)).
Proof.
  apply (prompt_after_connection_or_listing Faulty.World Faulty.capabilities
           (Worlds.config true) 1 2 (Faulty.start Faulty.unlistable) (Some "")).
  vm_compute. do 9 right. left. reflexivity.
Defined.

(** X14.  The promise of [main] in the simple revision rejects only when
    the prompt itself throws: every other exception is caught by [main]
    and answered with the prompt. *)
Theorem simple_main_rejects_on_prompt_only : forall (E : Type) (C : Capabilities E)
    fuel depth (st : St E) e,
    outcome (Simple.main fuel depth) st = Raised e ->
    In (EvRlQuestion None) (events (Simple.main fuel depth) st).
Proof.
  intros E C fuel depth st e Ho.
  apply failed_question_recorded.
  exact (simple_main_raises_only fuel depth st e Ho).
Qed.

Lemma simple_main_rejects_on_prompt_only_witness :
  In (EvRlQuestion None) (events (Simple.main 1 1) (Faulty.start Faulty.no_prompt)).
Proof.
  apply (simple_main_rejects_on_prompt_only Faulty.World Faulty.capabilities
           1 1 (Faulty.start Faulty.no_prompt) (mkError "readline was closed")).
  reflexivity.
Defined.

(** * The path that is probed *)

Lemma replaceAll_slash_differs : forall a b,
    replaceAll "/"%char "\"%char (a ++ "/" ++ b) <> a ++ "/" ++ b.
Proof.
  induction a as [| c a IH]; intros b Heq.
  - discriminate Heq.
  - cbn [append replaceAll] in Heq. injection Heq as _ Hrest.
    exact (IH b Hrest).
Qed.

Lemma replaceAll_length : forall from to s,
    String.length (replaceAll from to s) = String.length s.
Proof.
  intros from to. induction s as [| c s IH]; [ reflexivity | ].
  cbn [replaceAll String.length]. rewrite IH. reflexivity.
Qed.

(** X15.  The path probed and the path written.  [handleFileDownload] of
    the hardened revision probes the very path it downloads to.  The
    simple revision probes the local path with every [/] replaced by a
    backslash, the separator it has itself put before the file name
    included, and downloads to the path as built: the path it probes is
    never the path it writes, and has the same length. *)
Theorem probe_and_download_paths : forall (E : Type) (C : Capabilities E),
    (forall remoteFileName dir lp del (st : St E),
        exists ok tail,
          events (Hardened.handleFileDownload remoteFileName dir lp del) st
          = EvFsAccess lp ok :: tail /\
          (forall p n ok', In (EvDownloadTo p n ok') tail ->
                           p = lp /\ n = remoteFileName))
    /\
    (forall localDir item (st : St E),
        exists probed ok tail,
          events (Simple.downloadDirectory_file localDir item) st
          = EvFsAccess probed ok :: tail /\
          probed = replaceAll "/"%char "\"%char (localDir ++ "/" ++ name item) /\
          String.length probed = String.length (localDir ++ "/" ++ name item) /\
          (probed = localDir ++ "/" ++ name item -> False) /\
          (forall p n ok', In (EvDownloadTo p n ok') tail ->
                           p = localDir ++ "/" ++ name item /\ n = name item)).
Proof.
  intros E C. split.
  - intros remoteFileName dir lp del st.
    destruct del; js_cases;
      eexists; eexists; (split; [ reflexivity | ]);
      intros p n ok' Hin; simpl in Hin;
      repeat match goal with
             | Hor : _ \/ _ |- _ => destruct Hor as [Hor | Hor]
             | Hf : False |- _ => destruct Hf
             | Heq : _ = EvDownloadTo _ _ _ |- _ =>
                 first [ discriminate Heq
                       | injection Heq as <- <- _; split; reflexivity ]
             end.
  - intros localDir item st.
    exists (replaceAll "/"%char "\"%char (localDir ++ "/" ++ name item)).
    unfold Simple.downloadDirectory_file, Simple.DELETE_REMOTE_FILES.
    js_cases;
      eexists; eexists; (split; [ reflexivity | ]);
      (split; [ reflexivity | ]);
      (split; [ apply replaceAll_length | ]);
      (split; [ apply replaceAll_slash_differs | ]);
      intros p n ok' Hin; simpl in Hin;
      repeat match goal with
             | Hor : _ \/ _ |- _ => destruct Hor as [Hor | Hor]
             | Hf : False |- _ => destruct Hf
             | Heq : _ = EvDownloadTo _ _ _ |- _ =>
                 first [ discriminate Heq
                       | injection Heq as <- <- _; split; reflexivity ]
             end.
Qed.

(** A file that is not on the disk yet is probed as [out\a.txt] and
    downloaded to [out/a.txt]. *)
Example simple_probe_separator :
  events (Simple.downloadDirectory_file "out" (mkFileInfo "a.txt" File))
    (Sim.start Sim.blank) =
  [EvFsAccess "out\a.txt" false;
   EvDownloadTo "out/a.txt" "a.txt" true;
   EvLog "File a.txt downloaded to out/a.txt";
   EvLog "Deleting remote file  a.txt";
   EvRemove "a.txt" true].
Proof. vm_compute. reflexivity. Qed.

(** * The statements at the end of the file *)

Section TopLevel.
Context {E : Type} `{Capabilities E}.

Lemma event_loop_rejected : forall (resume : Task -> M E unit) turns task (st st1 : St E)
    e ev,
    resume task st = (Raised e, st1, ev) ->
    event_loop resume (S turns) [task] st = (Raised e, st1, ev).
Proof.
  intros resume turns task st st1 e ev Hr. cbn [event_loop]. rewrite Hr. reflexivity.
Qed.
End TopLevel.



(** * What is written locally *)

Lemma writes_only_nil : forall Q, writes_only Q [].
Proof. intros Q ev p []. Qed.

Lemma writes_only_app : forall Q a b,
    writes_only Q a -> writes_only Q b -> writes_only Q (a ++ b).
Proof.
  intros Q a b Ha Hb ev p Hin. apply in_app_or in Hin as [Hin | Hin]; eauto.
Qed.

Lemma writes_only_one : forall Q ev, local_target ev = None -> writes_only Q [ev].
Proof.
  intros Q ev Hev ev' p [<- | []] Hp. rewrite Hev in Hp. discriminate Hp.
Qed.

Lemma writes_only_to : forall (Q : string -> Prop) ev p,
    local_target ev = Some p -> Q p -> writes_only Q [ev].
Proof.
  intros Q ev p Hev Hq ev' p' [<- | []] Hp. rewrite Hev in Hp.
  injection Hp as <-. exact Hq.
Qed.

Lemma writes_only_weaken : forall (Q1 Q2 : string -> Prop) tr,
    (forall p, Q1 p -> Q2 p) -> writes_only Q1 tr -> writes_only Q2 tr.
Proof. intros Q1 Q2 tr Hq Htr ev p Hin Hp. eauto. Qed.

Section LocalWrites.
Context {E : Type} `{Capabilities E}.

Lemma handleFileDownload_writes : forall (Q : string -> Prop) remoteFileName dir lp del
    (st : St E),
    Q lp ->
    writes_only Q (events (Hardened.handleFileDownload remoteFileName dir lp del) st).
Proof.
  intros Q remoteFileName dir lp del st Hq.
  pose proof (writes_only_nil Q) as P_nil.
  pose proof (writes_only_app Q) as P_app.
  pose proof (writes_only_one Q) as P_one.
  unfold Hardened.handleFileDownload.
  closed_by P_nil P_app P_one;
    eapply writes_only_to; [ reflexivity | exact Hq ].
Qed.

Lemma downloadDirectory_file_writes : forall (Q : string -> Prop) localDir item (st : St E),
    Q (localDir ++ "/" ++ name item) ->
    writes_only Q (events (Simple.downloadDirectory_file localDir item) st).
Proof.
  intros Q localDir item st Hq.
  pose proof (writes_only_nil Q) as P_nil.
  pose proof (writes_only_app Q) as P_app.
  pose proof (writes_only_one Q) as P_one.
  unfold Simple.downloadDirectory_file, Simple.DELETE_REMOTE_FILES.
  closed_by P_nil P_app P_one;
    eapply writes_only_to; [ reflexivity | exact Hq ].
Qed.

Lemma hardened_descent_writes : forall config depth remoteDir localDir remoteEmpty
    (st : St E),
    writes_only (below path_join localDir)
      (events (Hardened.downloadDirectory config depth remoteDir localDir remoteEmpty) st).
Proof.
  intros config. induction depth as [| depth IH];
    intros remoteDir localDir remoteEmpty st; cbn [Hardened.downloadDirectory].
  - apply writes_only_nil.
  - pose proof (writes_only_nil (below path_join localDir)) as P_nil.
    pose proof (writes_only_app (below path_join localDir)) as P_app.
    pose proof (writes_only_one (below path_join localDir)) as P_one.
    unfold Hardened.downloadDirectory_body, Hardened.downloadDirectory_item.
    closed_by P_nil P_app P_one;
      first
        [ solve [ apply (P_one (EvExistsSync _ _)); reflexivity ]
        | solve [ apply handleFileDownload_writes; apply below_child ]
        | solve [ eapply writes_only_weaken; [ | apply IH ];
                  intros p Hb; eapply below_through_child; eassumption ]
        | solve [ eapply writes_only_to; [ reflexivity | apply below_child ] ] ].
Qed.

Lemma simple_descent_writes : forall depth remoteDir localDir remoteEmpty (st : St E),
    writes_only (below slash localDir)
      (events (Simple.downloadDirectory depth remoteDir localDir remoteEmpty) st).
Proof.
  induction depth as [| depth IH];
    intros remoteDir localDir remoteEmpty st; cbn [Simple.downloadDirectory].
  - apply writes_only_nil.
  - pose proof (writes_only_nil (below slash localDir)) as P_nil.
    pose proof (writes_only_app (below slash localDir)) as P_app.
    pose proof (writes_only_one (below slash localDir)) as P_one.
    unfold Simple.downloadDirectory_body, Simple.downloadDirectory_item.
    closed_by P_nil P_app P_one;
      first
        [ solve [ apply (P_one (EvExistsSync _ _)); reflexivity ]
        | solve [ apply downloadDirectory_file_writes; apply (below_child slash) ]
        | solve [ eapply writes_only_weaken; [ | apply IH ];
                  intros p Hb; eapply (below_through_child slash); eassumption ]
        | solve [ eapply writes_only_to; [ reflexivity | apply (below_child slash) ] ] ].
Qed.
End LocalWrites.

Section MainWrites.
Context {E : Type} `{Capabilities E}.

Lemma closeRlIfOpen_writes : forall Q (st : St E),
    writes_only Q (events Hardened.closeRlIfOpen st).
Proof.
  intros Q [e h]. unfold events. destruct h; js_red;
    first [ apply writes_only_nil | apply writes_only_one; reflexivity ].
Qed.

Lemma conn_connect_writes : forall Q cfg (st : St E),
    writes_only Q (events (conn_connect cfg) st).
Proof.
  intros Q cfg st. unfold events, conn_connect.
  destruct (ssh_connect cfg (env st)) as [[err | ] e]; cbn [snd];
    apply writes_only_one; reflexivity.
Qed.

Lemma conn_exec_writes : forall Q command (st : St E),
    writes_only Q (events (conn_exec command) st).
Proof.
  intros Q command st. unfold events, conn_exec.
  destruct (ssh_exec command (env st)) as [r e]; cbn [snd].
  apply writes_only_one; reflexivity.
Qed.

Lemma hardened_main_writes : forall config fuel depth (st : St E),
    writes_only (below path_join (Hardened.cfg_localDir config))
      (events (Hardened.main config fuel depth) st).
Proof.
  intros config.
  pose proof (writes_only_nil (below path_join (Hardened.cfg_localDir config))) as P_nil.
  pose proof (writes_only_app (below path_join (Hardened.cfg_localDir config))) as P_app.
  pose proof (writes_only_one (below path_join (Hardened.cfg_localDir config))) as P_one.
  destruct fuel as [| fuel]; intros depth st; unfold Hardened.main, Hardened.main_around.
  - exact P_nil.
  - unfold Hardened.main_try, Hardened.main_try_resumed, Hardened.closeFtpIfOpen,
      Hardened.closeRlIfOpen, Hardened.waitForExit, Hardened.onAnswer, Hardened.invoke,
      Hardened.restartFTP_call, Hardened.sshConnectionConfig, Hardened.again.
    closed_by P_nil P_app P_one;
      first [ apply hardened_descent_writes
            | apply closeRlIfOpen_writes
            | apply conn_connect_writes
            | apply (P_one (EvLog _)); reflexivity ].
Qed.

Lemma simple_main_writes : forall fuel depth (st : St E),
    writes_only (below slash "E:\Cam") (events (Simple.main fuel depth) st).
Proof.
  pose proof (writes_only_nil (below slash "E:\Cam")) as P_nil.
  pose proof (writes_only_app (below slash "E:\Cam")) as P_app.
  pose proof (writes_only_one (below slash "E:\Cam")) as P_one.
  destruct fuel as [| fuel]; intros depth st; unfold Simple.main, Simple.main_around.
  - exact P_nil.
  - unfold Simple.main_try, Simple.main_try_resumed, Simple.waitForExit, Simple.onAnswer,
      Simple.invoke, Simple.restartFTP_call, Simple.again.
    closed_by P_nil P_app P_one;
      first [ apply simple_descent_writes
            | apply conn_connect_writes
            | apply (P_one EvFtpClose); reflexivity
            | apply (P_one (EvLog _)); reflexivity ].
Qed.
End MainWrites.

(** X17.  Where the script writes.  Every path a descent hands to
    [fs.mkdirSync] or to [ftpClient.downloadTo] is built from the local
    directory it was called on by joining one or more entry names to it,
    and every path [main] hands to them is built in that way from the
    configured local root.  In the simple revision, which joins with [/],
    such a path is strictly longer than the root ([E:\Cam]), so the root
    itself is never created or written.  In the hardened revision the
    paths are joined by [path.join]: the root itself is never created or
    written as long as no path built from the root by joining entry names
    is the root again. *)
Theorem local_writes_below_root : forall (E : Type) (C : Capabilities E),
    (forall config depth remoteDir localDir remoteEmpty (st : St E),
        writes_only (below path_join localDir)
          (events (Hardened.downloadDirectory config depth remoteDir localDir
                     remoteEmpty) st))
    /\
    (forall config fuel depth (st : St E),
        writes_only (below path_join (Hardened.cfg_localDir config))
          (events (Hardened.main config fuel depth) st))
    /\
    (forall depth remoteDir localDir remoteEmpty (st : St E),
        writes_only
          (fun p => below slash localDir p /\ String.length localDir < String.length p)
          (events (Simple.downloadDirectory depth remoteDir localDir remoteEmpty) st))
    /\
    (forall fuel depth (st : St E),
        writes_only
          (fun p => below slash "E:\Cam" p /\ String.length "E:\Cam" < String.length p)
          (events (Simple.main fuel depth) st))
    /\
    (forall config fuel depth (st : St E),
        (forall p, below path_join (Hardened.cfg_localDir config) p ->
                   p <> Hardened.cfg_localDir config) ->
        writes_only (fun p => p <> Hardened.cfg_localDir config)
          (events (Hardened.main config fuel depth) st)).
Proof.
  intros E C. split; [ | split; [ | split; [ | split ] ] ];
    [ | | |
      | intros config fuel depth st Hjoin;
        eapply writes_only_weaken; [ exact Hjoin | apply hardened_main_writes ] ].
  - apply hardened_descent_writes.
  - apply hardened_main_writes.
  - intros depth remoteDir localDir remoteEmpty st.
    eapply writes_only_weaken; [ | apply simple_descent_writes ].
    intros p Hb. split; [ exact Hb | apply below_slash_longer; exact Hb ].
  - intros fuel depth st.
    eapply writes_only_weaken; [ | apply simple_main_writes ].
    intros p Hb. split; [ exact Hb | apply below_slash_longer; exact Hb ].
Qed.

Lemma local_writes_below_root_witness :
  writes_only (fun p => p <> "out")
    (events (Hardened.main (Worlds.config true) 1 2) (Sim.start Worlds.scenario)).
Proof.
  destruct (local_writes_below_root Sim.World Sim.capabilities)
    as (_ & _ & _ & _ & Hkept).
  apply (Hkept (Worlds.config true) 1 2 (Sim.start Worlds.scenario)).
  intros p. apply (below_slash_differs "out" p).
Defined.
